(** * Calendar AI Agent: the renderer's voice-capture and prompt pipeline

    A shallow embedding of [renderer.js] (the class [VoiceInput], [sendPrompt]
    and [addActivityItem]), of the React component in [VoiceInput.js] and of
    the main process in [main.js] (the window, the tray and the handlers of
    the channels of [preload.js]), followed by the properties of the pipeline.

    The program is event driven.  Every [async] function is cut at its
    [await]: the part before it is one handler, the part after it is the
    handler of the promise's settlement.  Handlers are written in a small
    state-and-exception monad over the record [World], which holds the
    fields of the [VoiceInput] object, the DOM nodes the code touches, the
    host objects (streams, recorders, outstanding promises) and the calls
    made to the outside. *)

From Stdlib Require Import NArith List Bool String Ascii Lia.
From stdpp Require Import base list.
Import ListNotations.

Set Default Proof Using "Type".
Local Open Scope N_scope.
Local Open Scope list_scope.

(** ** JavaScript strings and values *)

Module JS.

(** A string is a sequence of UTF-16 code units. *)
Definition code_unit : Type := N.
Definition jsstring : Type := list code_unit.

(** An ASCII literal of the source as a JavaScript string. *)
Fixpoint lit (s : string) : jsstring :=
  match s with
  | EmptyString => []
  | String c r => N_of_ascii c :: lit r
  end.

(** The double quote, which the templates of the source contain. *)
Definition dquote : code_unit := 34.

Definition quoted (s : jsstring) : jsstring := dquote :: s ++ [dquote].

(** WhiteSpace and LineTerminator code points, the ones
    [String.prototype.trim] strips. *)
Definition isWhiteSpace (c : code_unit) : bool :=
  (c =? 9) || (c =? 10) || (c =? 11) || (c =? 12) || (c =? 13) || (c =? 32)
  || (c =? 160) || (c =? 5760) || ((8192 <=? c) && (c <=? 8202))
  || (c =? 8232) || (c =? 8233) || (c =? 8239) || (c =? 8287)
  || (c =? 12288) || (c =? 65279).

Fixpoint trimStart (s : jsstring) : jsstring :=
  match s with
  | [] => []
  | c :: r => if isWhiteSpace c then trimStart r else s
  end.

Definition trimEnd (s : jsstring) : jsstring := rev (trimStart (rev s)).

Definition trim (s : jsstring) : jsstring := trimEnd (trimStart s).

(** The values a backend reply or a thrown error can be.  [Opaque] stands
    for a value with none of the properties the code reads (a number, an
    array): only its truthiness and its rendering in a template matter. *)
Inductive value : Type :=
| Undefined
| Null
| Bool (b : bool)
| Str (s : jsstring)
| Obj (props : fields)
| Opaque (truthy : bool) (shown : jsstring)
with fields : Type :=
| NoField
| Field (k : jsstring) (v : value) (rest : fields).

Definition ToBoolean (v : value) : bool :=
  match v with
  | Undefined | Null => false
  | Bool b => b
  | Str s => negb (Nat.eqb (length s) 0)
  | Obj _ => true
  | Opaque b _ => b
  end.

(** [`${v}`] and the conversion done by the setter of [input.value]. *)
Definition ToString (v : value) : jsstring :=
  match v with
  | Undefined => lit "undefined"
  | Null => lit "null"
  | Bool true => lit "true"
  | Bool false => lit "false"
  | Str s => s
  | Obj _ => lit "[object Object]"
  | Opaque _ s => s
  end.

Fixpoint key_eqb (a b : jsstring) : bool :=
  match a, b with
  | [], [] => true
  | x :: a', y :: b' => (x =? y) && key_eqb a' b'
  | _, _ => false
  end.

Fixpoint lookup_prop (k : jsstring) (props : fields) : value :=
  match props with
  | NoField => Undefined
  | Field k' v rest => if key_eqb k k' then v else lookup_prop k rest
  end.

(** [v.k]: [None] is the TypeError of reading a property of [undefined]
    or [null]. *)
Definition Get (v : value) (k : string) : option value :=
  match v with
  | Undefined | Null => None
  | Obj props => Some (lookup_prop (lit k) props)
  | Bool _ | Str _ | Opaque _ _ => Some Undefined
  end.

(** The TypeError V8 throws for [v.k] on [undefined] or [null]. *)
Definition TypeError (v : value) (k : string) : value :=
  Obj (Field (lit "message")
         (Str (lit "Cannot read properties of " ++ ToString v
               ++ lit " (reading '" ++ lit k ++ lit "')"))
         NoField).

(** An [Error] object with the given message. *)
Definition Error (msg : jsstring) : value :=
  Obj (Field (lit "message") (Str msg) NoField).

(** How an awaited promise settles. *)
Inductive settled : Type :=
| Fulfilled (v : value)
| Rejected (reason : value).

End JS.

(** ** Handlers: a state-and-exception monad

    A handler reads and writes the world [W] and completes normally or by
    throwing a JavaScript value. *)

Module Async.
Import JS.

Inductive completion (A : Type) : Type :=
| Normal (a : A)
| Throw (e : value).
Arguments Normal {A} a.
Arguments Throw {A} e.

Definition Exec (W A : Type) : Type := W -> W * completion A.

Section Ops.
Context {W : Type}.

Definition ret {A} (a : A) : Exec W A := fun w => (w, Normal a).

Definition bind {A B} (m : Exec W A) (f : A -> Exec W B) : Exec W B :=
  fun w =>
    match m w with
    | (w', Normal a) => f a w'
    | (w', Throw e) => (w', Throw e)
    end.

Definition throw {A} (e : value) : Exec W A := fun w => (w, Throw e).

(** [try { m } catch (e) { h e }]. *)
Definition try_catch {A} (m : Exec W A) (h : value -> Exec W A) : Exec W A :=
  fun w =>
    match m w with
    | (w', Normal a) => (w', Normal a)
    | (w', Throw e) => h e w'
    end.

(** [try { m } finally { f }]: [f] runs on both completions, and a throw of
    [f] replaces the completion of [m]. *)
Definition finally {A} (m : Exec W A) (f : Exec W unit) : Exec W A :=
  fun w =>
    match m w with
    | (w', c) =>
        match f w' with
        | (w'', Normal _) => (w'', c)
        | (w'', Throw e) => (w'', Throw e)
        end
    end.

Definition modify (f : W -> W) : Exec W unit := fun w => (f w, Normal tt).
Definition gets {A} (f : W -> A) : Exec W A := fun w => (w, Normal (f w)).

(** [v.k] as a step of a handler. *)
Definition get (v : value) (k : string) : Exec W value :=
  match Get v k with
  | Some x => ret x
  | None => throw (TypeError v k)
  end.

(** [v && v.k]. *)
Definition and_get (v : value) (k : string) : Exec W value :=
  if ToBoolean v then get v k else ret v.

(** [await p], seen from the continuation. *)
Definition await (r : settled) : Exec W value :=
  match r with
  | Fulfilled v => ret v
  | Rejected e => throw e
  end.

(** A task of the event loop: the world it leaves.  An exception that
    reaches the top of an [async] function rejects a promise nobody
    awaits, which [unhandled] records. *)
Definition task {A} (unhandled : value -> W -> W) (m : Exec W A) (w : W) : W :=
  match m w with
  | (w', Normal _) => w'
  | (w', Throw e) => unhandled e w'
  end.

End Ops.

Declare Scope exec_scope.
Delimit Scope exec_scope with exec.
Notation "x <- m ;; k" := (bind m (fun x => k))
  (at level 100, m at next level, k at level 200, right associativity)
  : exec_scope.
Notation "m ;; k" := (bind m (fun _ => k))
  (at level 100, k at level 200, right associativity) : exec_scope.

End Async.

(** ** The renderer: [renderer.js] *)

Module Renderer.
Import JS Async.

(** *** Host objects *)

(** [MediaStreamTrack.readyState]. *)
Inductive TrackState : Type := Live | Ended.

(** A [MediaStream], as the list of its tracks. *)
Definition MediaStream : Type := list TrackState.

(** [MediaRecorder.state]. *)
Inductive RecordingState : Type := Inactive | Capturing | Paused.

Record MediaRecorder : Type := {
  state : RecordingState;
  stream : nat          (* the stream it records, by its index in [streams] *)
}.

Definition Blob : Type := list N.

Record FormData : Type := {
  audio : Blob;
  filename : jsstring
}.

(** What the code asks of the outside: calls through [navigator],
    [window.api], [alert] and [console], and a rejection nobody handles. *)
Inductive Call : Type :=
| getUserMedia
| api_processAudio (formData : FormData)
| api_sendPrompt (prompt : jsstring)
| alert (msg : jsstring)
| console_error (label : jsstring) (v : value)
| unhandledRejection (reason : value).

(** *** The [VoiceInput] object, the DOM and the host *)

Record VoiceInput : Type := {
  isRecording : bool;
  isProcessing : bool;
  audioContext : option nat;
  mediaRecorder : option nat;   (* index in [recorders]; [None] is null *)
  audioChunks : list Blob
}.

(** A child of [#activity-log]: the placeholder of index.html or an item
    made by [addActivityItem].  An item is kept as the time and the
    description its markup was made from, together with the number of
    elements of class [empty-state] its markup has, counting the outermost
    ones (one inside another goes with it). *)
Inductive LogNode : Type :=
| EmptyState
| ActivityItem (time description : jsstring) (empty_states : nat).

(** What the host's HTML parser makes of the markup assigned to the
    [innerHTML] of a [div]: the one thing the code depends on is the number
    of elements of class [empty-state] that [querySelector] finds below the
    [div], counting the outermost ones. *)
Class HTML : Type := {
  empty_state_elements : jsstring -> nat
}.

(** The value a [textarea] gives back: its raw value with the line breaks
    normalized, CR LF and CR becoming LF. *)
Fixpoint normalize_newlines (s : jsstring) : jsstring :=
  match s with
  | [] => []
  | c :: r =>
      if c =? 13 then
        10 :: match r with
              | [] => []
              | c' :: r' =>
                  if c' =? 10 then normalize_newlines r' else normalize_newlines r
              end
      else c :: normalize_newlines r
  end.

Inductive Display : Type := DisplayNone | DisplayFlex.

(** A bar of the visualizer: [None] is the initial height of 2px, [Some b]
    the height computed from the frequency byte [b]. *)
Definition Bar : Type := option N.

Record Dom : Type := {
  promptInput : jsstring;               (* promptInput.value, of a textarea *)
  responseContainer : jsstring;         (* innerHTML, as last assigned *)
  activityLog : list LogNode;           (* children, first child first *)
  voiceButton_recording : bool;         (* classList has 'recording' *)
  voiceButton_processing : bool;        (* classList has 'processing' *)
  voiceButton_text : jsstring;          (* .voice-button-text textContent *)
  visualizer_display : Display;
  visualizer : list Bar                 (* visualizer.innerHTML *)
}.

Record Host : Type := {
  streams : list MediaStream;
  recorders : list MediaRecorder;
  contexts : nat;                 (* AudioContexts constructed so far *)
  gumPending : nat;               (* startRecording calls awaiting getUserMedia *)
  stopTasks : list nat;           (* recorders whose stop() task is queued *)
  uploads : list FormData;        (* processAudio calls awaiting the reply *)
  prompts : list jsstring         (* sendPrompt calls awaiting the reply *)
}.

Record World : Type := {
  this : VoiceInput;
  dom : Dom;
  host : Host;
  calls : list Call               (* oldest first *)
}.

(** Field updates. *)
Definition with_this (f : VoiceInput -> VoiceInput) (w : World) : World :=
  {| this := f (this w); dom := dom w; host := host w; calls := calls w |}.
Definition with_dom (f : Dom -> Dom) (w : World) : World :=
  {| this := this w; dom := f (dom w); host := host w; calls := calls w |}.
Definition with_host (f : Host -> Host) (w : World) : World :=
  {| this := this w; dom := dom w; host := f (host w); calls := calls w |}.
Definition call (c : Call) (w : World) : World :=
  {| this := this w; dom := dom w; host := host w; calls := calls w ++ [c] |}.

Definition set_isRecording (b : bool) (v : VoiceInput) : VoiceInput :=
  {| isRecording := b; isProcessing := isProcessing v;
     audioContext := audioContext v; mediaRecorder := mediaRecorder v;
     audioChunks := audioChunks v |}.
Definition set_isProcessing (b : bool) (v : VoiceInput) : VoiceInput :=
  {| isRecording := isRecording v; isProcessing := b;
     audioContext := audioContext v; mediaRecorder := mediaRecorder v;
     audioChunks := audioChunks v |}.
Definition set_audioContext (c : option nat) (v : VoiceInput) : VoiceInput :=
  {| isRecording := isRecording v; isProcessing := isProcessing v;
     audioContext := c; mediaRecorder := mediaRecorder v;
     audioChunks := audioChunks v |}.
Definition set_mediaRecorder (r : option nat) (v : VoiceInput) : VoiceInput :=
  {| isRecording := isRecording v; isProcessing := isProcessing v;
     audioContext := audioContext v; mediaRecorder := r;
     audioChunks := audioChunks v |}.
Definition set_audioChunks (l : list Blob) (v : VoiceInput) : VoiceInput :=
  {| isRecording := isRecording v; isProcessing := isProcessing v;
     audioContext := audioContext v; mediaRecorder := mediaRecorder v;
     audioChunks := l |}.

Definition set_promptInput (s : jsstring) (d : Dom) : Dom :=
  {| promptInput := s; responseContainer := responseContainer d;
     activityLog := activityLog d;
     voiceButton_recording := voiceButton_recording d;
     voiceButton_processing := voiceButton_processing d;
     voiceButton_text := voiceButton_text d;
     visualizer_display := visualizer_display d; visualizer := visualizer d |}.
Definition set_responseContainer (s : jsstring) (d : Dom) : Dom :=
  {| promptInput := promptInput d; responseContainer := s;
     activityLog := activityLog d;
     voiceButton_recording := voiceButton_recording d;
     voiceButton_processing := voiceButton_processing d;
     voiceButton_text := voiceButton_text d;
     visualizer_display := visualizer_display d; visualizer := visualizer d |}.
Definition set_activityLog (l : list LogNode) (d : Dom) : Dom :=
  {| promptInput := promptInput d; responseContainer := responseContainer d;
     activityLog := l;
     voiceButton_recording := voiceButton_recording d;
     voiceButton_processing := voiceButton_processing d;
     voiceButton_text := voiceButton_text d;
     visualizer_display := visualizer_display d; visualizer := visualizer d |}.
Definition set_voiceButton_recording (b : bool) (d : Dom) : Dom :=
  {| promptInput := promptInput d; responseContainer := responseContainer d;
     activityLog := activityLog d;
     voiceButton_recording := b;
     voiceButton_processing := voiceButton_processing d;
     voiceButton_text := voiceButton_text d;
     visualizer_display := visualizer_display d; visualizer := visualizer d |}.
Definition set_voiceButton_processing (b : bool) (d : Dom) : Dom :=
  {| promptInput := promptInput d; responseContainer := responseContainer d;
     activityLog := activityLog d;
     voiceButton_recording := voiceButton_recording d;
     voiceButton_processing := b;
     voiceButton_text := voiceButton_text d;
     visualizer_display := visualizer_display d; visualizer := visualizer d |}.
Definition set_voiceButton_text (s : jsstring) (d : Dom) : Dom :=
  {| promptInput := promptInput d; responseContainer := responseContainer d;
     activityLog := activityLog d;
     voiceButton_recording := voiceButton_recording d;
     voiceButton_processing := voiceButton_processing d;
     voiceButton_text := s;
     visualizer_display := visualizer_display d; visualizer := visualizer d |}.
Definition set_visualizer_display (x : Display) (d : Dom) : Dom :=
  {| promptInput := promptInput d; responseContainer := responseContainer d;
     activityLog := activityLog d;
     voiceButton_recording := voiceButton_recording d;
     voiceButton_processing := voiceButton_processing d;
     voiceButton_text := voiceButton_text d;
     visualizer_display := x; visualizer := visualizer d |}.
Definition set_visualizer (l : list Bar) (d : Dom) : Dom :=
  {| promptInput := promptInput d; responseContainer := responseContainer d;
     activityLog := activityLog d;
     voiceButton_recording := voiceButton_recording d;
     voiceButton_processing := voiceButton_processing d;
     voiceButton_text := voiceButton_text d;
     visualizer_display := visualizer_display d; visualizer := l |}.

Definition set_streams (l : list MediaStream) (h : Host) : Host :=
  {| streams := l; recorders := recorders h; contexts := contexts h;
     gumPending := gumPending h; stopTasks := stopTasks h;
     uploads := uploads h; prompts := prompts h |}.
Definition set_recorders (l : list MediaRecorder) (h : Host) : Host :=
  {| streams := streams h; recorders := l; contexts := contexts h;
     gumPending := gumPending h; stopTasks := stopTasks h;
     uploads := uploads h; prompts := prompts h |}.
Definition set_contexts (n : nat) (h : Host) : Host :=
  {| streams := streams h; recorders := recorders h; contexts := n;
     gumPending := gumPending h; stopTasks := stopTasks h;
     uploads := uploads h; prompts := prompts h |}.
Definition set_gumPending (n : nat) (h : Host) : Host :=
  {| streams := streams h; recorders := recorders h; contexts := contexts h;
     gumPending := n; stopTasks := stopTasks h;
     uploads := uploads h; prompts := prompts h |}.
Definition set_stopTasks (l : list nat) (h : Host) : Host :=
  {| streams := streams h; recorders := recorders h; contexts := contexts h;
     gumPending := gumPending h; stopTasks := l;
     uploads := uploads h; prompts := prompts h |}.
Definition set_uploads (l : list FormData) (h : Host) : Host :=
  {| streams := streams h; recorders := recorders h; contexts := contexts h;
     gumPending := gumPending h; stopTasks := stopTasks h;
     uploads := l; prompts := prompts h |}.
Definition set_prompts (l : list jsstring) (h : Host) : Host :=
  {| streams := streams h; recorders := recorders h; contexts := contexts h;
     gumPending := gumPending h; stopTasks := stopTasks h;
     uploads := uploads h; prompts := l |}.

Local Open Scope exec_scope.
(** A handler of the renderer. *)
Definition Handler (A : Type) : Type := Exec World A.

(** *** What the host decides *)

(** The operations of [startRecording] that can throw once the microphone
    is granted. *)
Inductive HostOp : Type :=
| NewAudioContext
| CreateMediaStreamSource
| NewMediaRecorder
| RecorderStart.

(** What the host decides for one run of [startRecording] after the grant:
    which operation throws (and what), and the bytes the analyser gives. *)
Record Grant : Type := {
  throws : HostOp -> option value;
  getByteFrequencyData : nat -> N
}.

Definition host_op (g : Grant) (op : HostOp) : Handler unit :=
  match throws g op with
  | Some e => throw e
  | None => ret tt
  end.

(** The stream a granted [getUserMedia({ audio: true })] resolves to: one
    live audio track. *)
Definition new_MediaStream : Handler nat :=
  n <- gets (fun w => length (streams (host w))) ;;
  modify (with_host (fun h => set_streams (streams h ++ [[Live]]) h)) ;;
  ret n.

Definition new_AudioContext (g : Grant) : Handler nat :=
  host_op g NewAudioContext ;;
  n <- gets (fun w => contexts (host w)) ;;
  modify (with_host (set_contexts (S n))) ;;
  ret n.

Definition createMediaStreamSource (g : Grant) (s : nat) : Handler unit :=
  host_op g CreateMediaStreamSource.

Definition new_MediaRecorder (g : Grant) (s : nat) : Handler nat :=
  host_op g NewMediaRecorder ;;
  n <- gets (fun w => length (recorders (host w))) ;;
  modify (with_host (fun h =>
    set_recorders (recorders h ++ [{| state := Inactive; stream := s |}]) h)) ;;
  ret n.

Definition set_state (st : RecordingState) (r : MediaRecorder) : MediaRecorder :=
  {| state := st; stream := stream r |}.

(** [recorder.start()]. *)
Definition MediaRecorder_start (g : Grant) (r : nat) : Handler unit :=
  host_op g RecorderStart ;;
  modify (with_host (fun h => set_recorders (alter (set_state Capturing) r (recorders h)) h)).

(** [recorder.stop()] on a recorder that is not inactive: the recorder
    becomes inactive at once, and a task is queued that fires
    [dataavailable] and then [stop]. *)
Definition MediaRecorder_stop (r : nat) : Handler unit :=
  modify (with_host (fun h =>
    set_stopTasks (stopTasks h ++ [r])
      (set_recorders (alter (set_state Inactive) r (recorders h)) h))).

(** [stream.getTracks().forEach(track => track.stop())]. *)
Definition stop_tracks (s : nat) : Handler unit :=
  modify (with_host (fun h =>
    set_streams (alter (map (fun _ => Ended)) s (streams h)) h)).

(** *** Markup *)

Definition div_agent_response (body : jsstring) : jsstring :=
  lit "<div class=" ++ quoted (lit "agent-response") ++ lit ">" ++ body
  ++ lit "</div>".

Definition p_error (body : jsstring) : jsstring :=
  lit "<p class=" ++ quoted (lit "error") ++ lit ">" ++ body ++ lit "</p>".

Definition div_loading : jsstring :=
  lit "<div class=" ++ quoted (lit "loading")
  ++ lit ">Processing your request...</div>".

Definition p_empty_state (body : jsstring) : jsstring :=
  lit "<p class=" ++ quoted (lit "empty-state") ++ lit ">" ++ body ++ lit "</p>".

(** *** [addActivityItem] *)

(** The template assigned to [activityItem.innerHTML]. *)
Definition activity_item_markup (timeString description : jsstring) : jsstring :=
  [10] ++ lit "    <div class=" ++ quoted (lit "activity-time") ++ lit ">"
  ++ timeString ++ lit "</div>" ++ [10]
  ++ lit "    <div class=" ++ quoted (lit "activity-description") ++ lit ">"
  ++ description ++ lit "</div>" ++ [10] ++ lit "  ".

(** [activityLog.querySelector('.empty-state')] followed by [remove()]: the
    first element of the class in document order goes, with what is inside
    it.  That is an element inside the first item that has one, or the
    placeholder when no item before it has any. *)
Fixpoint remove_empty_state (l : list LogNode) : list LogNode :=
  match l with
  | [] => []
  | EmptyState :: rest => rest
  | ActivityItem t d (S n) :: rest => ActivityItem t d n :: rest
  | ActivityItem t d O :: rest => ActivityItem t d O :: remove_empty_state rest
  end.

Section Markup.
Context {html : HTML}.

(** [timeString] is what [new Date().toLocaleTimeString()] gives at the
    call. *)
Definition addActivityItem (timeString description : jsstring) : Handler unit :=
  let activityItem :=
    ActivityItem timeString description
      (empty_state_elements (activity_item_markup timeString description)) in
  (* Add to the top of the list *)
  modify (with_dom (fun d => set_activityLog (activityItem :: activityLog d) d)) ;;
  (* Remove empty state if present *)
  modify (with_dom (fun d => set_activityLog (remove_empty_state (activityLog d)) d)).

(** *** The methods of [VoiceInput] *)

Definition bufferLength : nat := 128.   (* fftSize 256 / 2 *)

(** The first, synchronous call of [updateVisualization]; the calls that
    [requestAnimationFrame] schedules afterwards only restyle the bars and
    are left out. *)
Definition updateVisualization (g : Grant) : Handler unit :=
  rec <- gets (fun w => isRecording (this w)) ;;
  if negb rec then ret tt
  else
    modify (with_dom (fun d =>
      let bars := visualizer d in
      set_visualizer
        (imap (fun i _ =>
                 Some (getByteFrequencyData g
                         (Nat.div (i * bufferLength) (length bars)))) bars) d)).

Definition startVisualization (g : Grant) : Handler unit :=
  rec <- gets (fun w => isRecording (this w)) ;;
  if negb rec then ret tt
  else
    modify (with_dom (set_visualizer [])) ;;
    modify (with_dom (fun d => set_visualizer (visualizer d ++ repeat None 20) d)) ;;
    updateVisualization g.

(** [startRecording] up to [await navigator.mediaDevices.getUserMedia]. *)
Definition startRecording : Handler unit :=
  modify (call getUserMedia) ;;
  modify (with_host (fun h => set_gumPending (S (gumPending h)) h)).

Definition startRecording_catch (error : value) : Handler unit :=
  modify (call (console_error (lit "Error starting recording:") error)) ;;
  modify (call (alert (lit "Could not access microphone. Please check permissions."))).

(** [startRecording] after the promise is fulfilled with a stream. *)
Definition startRecording_granted (g : Grant) : Handler unit :=
  modify (with_host (fun h => set_gumPending (pred (gumPending h)) h)) ;;
  stream <- new_MediaStream ;;
  try_catch
    (ctx <- new_AudioContext g ;;
     modify (with_this (set_audioContext (Some ctx))) ;;
     createMediaStreamSource g stream ;;
     r <- new_MediaRecorder g stream ;;
     modify (with_this (set_mediaRecorder (Some r))) ;;
     modify (with_this (set_audioChunks [])) ;;
     MediaRecorder_start g r ;;
     modify (with_this (set_isRecording true)) ;;
     modify (with_dom (set_voiceButton_recording true)) ;;
     modify (with_dom (set_voiceButton_text (lit "Listening..."))) ;;
     modify (with_dom (set_visualizer_display DisplayFlex)) ;;
     startVisualization g)
    startRecording_catch.

(** [startRecording] after the promise is rejected. *)
Definition startRecording_denied (error : value) : Handler unit :=
  modify (with_host (fun h => set_gumPending (pred (gumPending h)) h)) ;;
  startRecording_catch error.

Definition stopRecording : Handler unit :=
  mr <- gets (fun w => mediaRecorder (this w)) ;;
  match mr with
  | None => ret tt
  | Some r =>
      rec <- gets (fun w => recorders (host w) !! r) ;;
      match rec with
      | None => ret tt                 (* no such object: not reachable *)
      | Some {| state := Inactive |} => ret tt
      | Some {| stream := s |} =>
          MediaRecorder_stop r ;;
          modify (with_this (set_isRecording false)) ;;
          modify (with_dom (set_voiceButton_recording false)) ;;
          modify (with_dom (set_voiceButton_processing true)) ;;
          modify (with_dom (set_voiceButton_text (lit "Processing..."))) ;;
          stop_tracks s
      end
  end.

Definition toggleRecording : Handler unit :=
  processing <- gets (fun w => isProcessing (this w)) ;;
  if processing then ret tt
  else
    rec <- gets (fun w => isRecording (this w)) ;;
    if negb rec then startRecording else stopRecording.

(** [processAudio] up to [await window.api.processAudio(formData)]. *)
Definition processAudio (audioBlob : Blob) : Handler unit :=
  modify (with_this (set_isProcessing true)) ;;
  let formData := {| audio := audioBlob; filename := lit "recording.wav" |} in
  modify (call (api_processAudio formData)) ;;
  modify (with_host (fun h => set_uploads (uploads h ++ [formData]) h)).

(** [processAudio] from the settlement of the promise on; [t1] and [t2]
    are the time strings of its calls of [addActivityItem]. *)
Definition processAudio_settled (r : settled) (t1 t2 : jsstring) : Handler unit :=
  finally
    (try_catch
       (response <- await r ;;
        text <- and_get response "text" ;;
        if ToBoolean text then
          modify (with_dom (set_promptInput (normalize_newlines (ToString text)))) ;;
          prompt_response <- get response "prompt_response" ;;
          if ToBoolean prompt_response then
            message <- get prompt_response "message" ;;
            modify (with_dom (set_responseContainer
                                (div_agent_response (ToString message)))) ;;
            addActivityItem t1 (lit "Voice prompt: " ++ quoted (ToString text)) ;;
            addActivityItem t2 (lit "Agent: " ++ quoted (ToString message))
          else
            addActivityItem t1 (lit "Transcribed: " ++ quoted (ToString text))
        else
          error <- and_get response "error" ;;
          if ToBoolean error then
            modify (call (console_error (lit "Speech recognition error:") error)) ;;
            modify (with_dom (set_responseContainer
                                (p_error (lit "Error: " ++ ToString error))))
          else ret tt)
       (fun error =>
          modify (call (console_error (lit "Error processing audio:") error)) ;;
          message <- get error "message" ;;
          modify (with_dom (set_responseContainer
                   (p_error (lit "Error processing audio: " ++ ToString message))))))
    (modify (with_this (set_isProcessing false)) ;;
     modify (with_dom (set_voiceButton_processing false)) ;;
     modify (with_dom (set_voiceButton_text (lit "Speak"))) ;;
     modify (with_dom (set_visualizer_display DisplayNone)) ;;
     modify (with_dom (set_visualizer []))).

(** The handlers [startRecording] installs on a recorder. *)
Definition ondataavailable (data : Blob) : Handler unit :=
  modify (with_this (fun v => set_audioChunks (audioChunks v ++ [data]) v)).

Definition onstop : Handler unit :=
  chunks <- gets (fun w => audioChunks (this w)) ;;
  let audioBlob := concat chunks in
  processAudio audioBlob.

(** *** [sendPrompt] *)

(** [sendPrompt] up to [await window.api.sendPrompt(prompt)]. *)
Definition sendPrompt : Handler unit :=
  v <- gets (fun w => promptInput (dom w)) ;;
  let prompt := trim v in
  if negb (ToBoolean (Str prompt)) then ret tt
  else
    modify (with_dom (set_responseContainer div_loading)) ;;
    modify (call (api_sendPrompt prompt)) ;;
    modify (with_host (fun h => set_prompts (prompts h ++ [prompt]) h)).

(** [sendPrompt] from the settlement of the promise on. *)
Definition sendPrompt_settled (prompt : jsstring) (r : settled)
    (t1 t2 : jsstring) : Handler unit :=
  try_catch
    (response <- await r ;;
     error <- get response "error" ;;
     if ToBoolean error then
       modify (with_dom (set_responseContainer
                           (p_error (lit "Error: " ++ ToString error))))
     else
       message <- get response "message" ;;
       modify (with_dom (set_responseContainer
                           (div_agent_response (ToString message)))) ;;
       addActivityItem t1 (lit "Prompt: " ++ quoted prompt) ;;
       addActivityItem t2 (lit "Agent: " ++ quoted (ToString message)) ;;
       modify (with_dom (set_promptInput [])))
    (fun error =>
       message <- get error "message" ;;
       modify (with_dom (set_responseContainer
                           (p_error (lit "Error: " ++ ToString message))))).

(** *** The event loop *)

(** What can happen next: a gesture of the user or the completion of
    something a handler started.  [k] picks one of the outstanding
    operations of its kind. *)
Inductive Event : Type :=
| click_voiceButton
| getUserMedia_fulfilled (g : Grant)
| getUserMedia_rejected (error : value)
| recorder_stop_task (k : nat) (data : Blob)
| processAudio_reply (k : nat) (r : settled) (t1 t2 : jsstring)
| click_sendPromptBtn            (* or Enter without Shift in the input *)
| sendPrompt_reply (k : nat) (r : settled) (t1 t2 : jsstring)
| input_promptInput (text : jsstring).   (* the user's edit leaves this text *)

Definition run_task {A} (m : Handler A) (w : World) : World :=
  task (fun e => call (unhandledRejection e)) m w.

(** One turn of the event loop; [None] when the event cannot happen in
    this world. *)
Definition step (e : Event) (w : World) : option World :=
  match e with
  | click_voiceButton => Some (run_task toggleRecording w)
  | getUserMedia_fulfilled g =>
      match gumPending (host w) with
      | O => None
      | S _ => Some (run_task (startRecording_granted g) w)
      end
  | getUserMedia_rejected error =>
      match gumPending (host w) with
      | O => None
      | S _ => Some (run_task (startRecording_denied error) w)
      end
  | recorder_stop_task k data =>
      match stopTasks (host w) !! k with
      | None => None
      | Some _ =>
          let w1 := with_host (fun h => set_stopTasks (delete k (stopTasks h)) h) w in
          Some (run_task onstop (run_task (ondataavailable data) w1))
      end
  | processAudio_reply k r t1 t2 =>
      match uploads (host w) !! k with
      | None => None
      | Some _ =>
          let w1 := with_host (fun h => set_uploads (delete k (uploads h)) h) w in
          Some (run_task (processAudio_settled r t1 t2) w1)
      end
  | click_sendPromptBtn => Some (run_task sendPrompt w)
  | sendPrompt_reply k r t1 t2 =>
      match prompts (host w) !! k with
      | None => None
      | Some prompt =>
          let w1 := with_host (fun h => set_prompts (delete k (prompts h)) h) w in
          Some (run_task (sendPrompt_settled prompt r t1 t2) w1)
      end
  | input_promptInput text =>
      Some (with_dom (set_promptInput (normalize_newlines text)) w)
  end.

Fixpoint run (es : list Event) (w : World) : option World :=
  match es with
  | [] => Some w
  | e :: rest =>
      match step e w with
      | None => None
      | Some w' => run rest w'
      end
  end.

(** The page once [DOMContentLoaded] has constructed the [VoiceInput]:
    the constructor's fields, [render()]'s button and the markup of
    index.html (white space between elements left out). *)
Definition init : World := {|
  this := {| isRecording := false; isProcessing := false;
             audioContext := None; mediaRecorder := None; audioChunks := [] |};
  dom := {| promptInput := [];
            responseContainer :=
              p_empty_state (lit "Agent responses will appear here");
            activityLog := [EmptyState];
            voiceButton_recording := false;
            voiceButton_processing := false;
            voiceButton_text := lit "Speak";
            visualizer_display := DisplayNone;
            visualizer := [] |};
  host := {| streams := []; recorders := []; contexts := 0%nat;
             gumPending := 0%nat; stopTasks := []; uploads := [];
             prompts := [] |};
  calls := []
|}.

End Markup.

(** *** Readings of a world *)

(** The session status the two flags encode. *)
Inductive Status : Type := Idle | Recording | Processing.

Definition status (w : World) : Status :=
  if isProcessing (this w) then Processing
  else if isRecording (this w) then Recording
  else Idle.

(** The entries of the activity log, first child first: each is the time
    and the description an item was made from. *)
Definition entry (n : LogNode) : option (jsstring * jsstring) :=
  match n with
  | EmptyState => None
  | ActivityItem t d _ => Some (t, d)
  end.

(** The items of the activity log, first child first: what each was made
    from, and the elements of class [empty-state] left in its markup. *)
Definition item (n : LogNode) : option (jsstring * jsstring * nat) :=
  match n with
  | EmptyState => None
  | ActivityItem t d m => Some (t, d, m)
  end.

Definition items_of (l : list LogNode) : list (jsstring * jsstring * nat) :=
  omap item l.

Definition items (w : World) : list (jsstring * jsstring * nat) :=
  items_of (activityLog (dom w)).

(** The placeholder is (still) a child of the log. *)
Definition has_placeholder (w : World) : bool :=
  existsb (fun n => match n with EmptyState => true | _ => false end)
    (activityLog (dom w)).

Definition entries_of (l : list LogNode) : list (jsstring * jsstring) :=
  omap entry l.

Definition entries (w : World) : list (jsstring * jsstring) :=
  entries_of (activityLog (dom w)).

(** The streams that still hold the microphone: those with a live track. *)
Definition is_live (t : TrackState) : bool :=
  match t with Live => true | Ended => false end.

Definition held (s : MediaStream) : bool := existsb is_live s.

Definition device_held (w : World) : bool := existsb held (streams (host w)).

(** The recorders that are capturing. *)
Definition is_capturing (r : MediaRecorder) : bool :=
  match state r with Capturing => true | _ => false end.

Definition capturing (w : World) : nat :=
  length (List.filter is_capturing (recorders (host w))).

(** The calls of one kind among those made so far. *)
Definition is_network (c : Call) : bool :=
  match c with
  | api_processAudio _ | api_sendPrompt _ => true
  | _ => false
  end.

Definition network_calls (w : World) : list Call :=
  List.filter is_network (calls w).

End Renderer.

(** ** The React component: [VoiceInput.js]

    The component's state hooks and its handlers [toggleRecording],
    [onStop] and [processAudio].  [onData] only fills the visualizer; it is
    embedded apart, in [ReactVisualizer]. *)

Module ReactVoiceInput.
Import JS Async.
Local Open Scope exec_scope.

Definition Blob : Type := list N.

Inductive Call : Type :=
| api_processAudio (audio : Blob) (filename : jsstring)
| onTranscription (text : value)
| console_error (label : jsstring) (v : value)
| unhandledRejection (reason : value).

Record State : Type := {
  isRecording : bool;
  isProcessing : bool;
  audioBlob : option Blob;
  uploads : nat;                 (* processAudio calls awaiting the reply *)
  calls : list Call
}.

Definition setIsRecording (b : bool) (s : State) : State :=
  {| isRecording := b; isProcessing := isProcessing s;
     audioBlob := audioBlob s; uploads := uploads s; calls := calls s |}.
Definition setIsProcessing (b : bool) (s : State) : State :=
  {| isRecording := isRecording s; isProcessing := b;
     audioBlob := audioBlob s; uploads := uploads s; calls := calls s |}.
Definition setAudioBlob (b : option Blob) (s : State) : State :=
  {| isRecording := isRecording s; isProcessing := isProcessing s;
     audioBlob := b; uploads := uploads s; calls := calls s |}.
Definition set_uploads (n : nat) (s : State) : State :=
  {| isRecording := isRecording s; isProcessing := isProcessing s;
     audioBlob := audioBlob s; uploads := n; calls := calls s |}.
Definition call (c : Call) (s : State) : State :=
  {| isRecording := isRecording s; isProcessing := isProcessing s;
     audioBlob := audioBlob s; uploads := uploads s; calls := calls s ++ [c] |}.

Definition Handler (A : Type) : Type := Exec State A.

Definition toggleRecording : Handler unit :=
  processing <- gets isProcessing ;;
  if processing then ret tt
  else
    rec <- gets isRecording ;;
    modify (setIsRecording (negb rec)).

(** [onStop] up to the [await] inside [processAudio]. *)
Definition onStop (blob : Blob) : Handler unit :=
  modify (setAudioBlob (Some blob)) ;;
  modify (setIsProcessing true) ;;
  modify (call (api_processAudio blob (lit "recording.wav"))) ;;
  modify (fun s => set_uploads (S (uploads s)) s).

(** [processAudio] from the settlement of the promise on. *)
Definition processAudio_settled (r : settled) : Handler unit :=
  try_catch
    (response <- await r ;;
     text <- and_get response "text" ;;
     if ToBoolean text then modify (call (onTranscription text))
     else
       error <- and_get response "error" ;;
       if ToBoolean error then
         modify (call (console_error (lit "Speech recognition error:") error))
       else ret tt)
    (fun error =>
       modify (call (console_error (lit "Error sending audio to backend:") error)) ;;
       throw error).

(** [onStop] from there on. *)
Definition onStop_settled (r : settled) : Handler unit :=
  modify (fun s => set_uploads (pred (uploads s)) s) ;;
  finally
    (try_catch
       (processAudio_settled r)
       (fun error =>
          modify (call (console_error (lit "Error processing audio:") error))))
    (modify (setIsProcessing false)).

Definition run_task {A} (m : Handler A) (s : State) : State :=
  task (fun e => call (unhandledRejection e)) m s.

End ReactVoiceInput.

(** ** Notions the properties are stated with *)

Module Notions.
Import JS Async Renderer.

Section Markup.
Context {html : HTML}.

(** Calling [addActivityItem] for each of [items] in turn. *)
Definition addActivityItems (items : list (jsstring * jsstring)) (w : World) : World :=
  fold_left (fun w i => run_task (addActivityItem (fst i) (snd i)) w) items w.

(** The activity log in the order of insertion, oldest entry first: the
    page keeps the newest item as the first child. *)
Definition chronological (w : World) : list (jsstring * jsstring) :=
  rev (entries w).

(** An item as it was and as it is now: made from the same time and
    description, with no more elements of class [empty-state] in it than it
    had. *)
Definition worn (before now : jsstring * jsstring * nat) : Prop :=
  fst before = fst now /\ (snd now <= snd before)%nat.

(** The log [l'] is the log [l] grown by at most [n] items: the items of
    [l] are all there, in their order and below the new ones, none of them
    changed but for elements of class [empty-state] taken out. *)
Definition grown (n : nat) (l l' : list LogNode) : Prop :=
  exists new kept,
    items_of l' = new ++ kept
    /\ (length new <= n)%nat
    /\ Forall2 worn (items_of l) kept.

(** The guard of [stopRecording]:
    [!this.mediaRecorder || this.mediaRecorder.state === 'inactive']. *)
Definition no_active_recorder (w : World) : bool :=
  match mediaRecorder (this w) with
  | None => true
  | Some r =>
      match recorders (host w) !! r with
      | Some rec => match state rec with Inactive => true | _ => false end
      | None => true
      end
  end.

(** [props.k] of an object with the properties [props]. *)
Definition field (k : string) (props : fields) : value := lookup_prop (lit k) props.

(** [v && v.k] as a value. *)
Definition and_field (v : value) (k : string) : value :=
  if ToBoolean v then
    match Get v k with Some x => x | None => v end
  else v.

(** A prompt submission fails when the promise is rejected, when the reply
    has a truthy [error], or when the reply is [null] or [undefined] (reading
    [response.error] then throws). *)
Definition submission_failed (r : settled) : bool :=
  match r with
  | Rejected _ => true
  | Fulfilled response =>
      match Get response "error" with
      | Some error => ToBoolean error
      | None => true
      end
  end.




(** Captures under way or being started: recorders that capture, and
    calls of [startRecording] that wait for the microphone. *)
Definition captures (w : World) : nat := capturing w + gumPending (host w).

(** The [finally] block of [processAudio]. *)
Definition reset_ui (w : World) : World :=
  with_dom (set_visualizer [])
    (with_dom (set_visualizer_display DisplayNone)
       (with_dom (set_voiceButton_text (lit "Speak"))
          (with_dom (set_voiceButton_processing false)
             (with_this (set_isProcessing false) w)))).

(** A scheduling of the events in which the task that [recorder.stop()]
    queues runs before anything else happens: an event other than that task
    is in order only when no such task is waiting.  Nothing in renderer.js
    or in the event loop enforces this order (a grant or a reply can
    overtake the task); it is a proviso of the properties stated with
    [reachable] and [run_in_order]. *)
Definition in_order (e : Event) (w : World) : bool :=
  match e with
  | recorder_stop_task _ _ => true
  | _ => match stopTasks (host w) with [] => true | _ :: _ => false end
  end.

(** The worlds the page can be in when every event is in order. *)
Inductive reachable : World -> Prop :=
| reachable_init : reachable init
| reachable_step (e : Event) (w w' : World) :
    reachable w -> in_order e w = true -> step e w = Some w' -> reachable w'.

(** [run], refusing an event that is out of order. *)
Fixpoint run_in_order (es : list Event) (w : World) : option World :=
  match es with
  | [] => Some w
  | e :: rest =>
      if in_order e w then
        match step e w with
        | None => None
        | Some w' => run_in_order rest w'
        end
      else None
  end.

(** The part of the world that [upload_guarded] reads. *)
Definition guard_view (w : World) : bool * list nat * list FormData :=
  (isProcessing (this w), stopTasks (host w), uploads (host w)).

(** What ties [isProcessing] to the uploads in flight. *)
Definition upload_guarded (w : World) : Prop :=
  (length (stopTasks (host w)) <= 1)%nat
  /\ (isProcessing (this w) = true ->
      stopTasks (host w) = [] /\ length (uploads (host w)) = 1%nat)
  /\ (isProcessing (this w) = false -> uploads (host w) = []).

(** A stream that no handler can release any more: it has a live track, and
    every recorder that records it is inactive. *)
Definition orphaned (s : nat) (w : World) : Prop :=
  (exists tracks, streams (host w) !! s = Some tracks /\ held tracks = true)
  /\ forall r rec, recorders (host w) !! r = Some rec ->
                   stream rec = s -> state rec = Inactive.

(** The streams and recorders of a world. *)
Definition devices (w : World) : list MediaStream * list MediaRecorder :=
  (streams (host w), recorders (host w)).

End Markup.

(** *** Scenarios *)

(** A grant after which nothing throws; the analyser reports silence. *)
Definition grant_ok : Grant :=
  {| throws := fun _ => None; getByteFrequencyData := fun _ => 0%N |}.

(** A grant after which [new MediaRecorder(stream)] throws. *)
Definition grant_recorder_unsupported : Grant :=
  {| throws := fun op =>
       match op with
       | NewMediaRecorder => Some (Error (lit "NotSupportedError"))
       | _ => None
       end;
     getByteFrequencyData := fun _ => 0%N |}.

(** A grant after which [recorder.start()] throws. *)
Definition grant_start_refused : Grant :=
  {| throws := fun op =>
       match op with
       | RecorderStart => Some (Error (lit "NotSupportedError"))
       | _ => None
       end;
     getByteFrequencyData := fun _ => 0%N |}.

(** The user clicked the voice button and the microphone was granted. *)
Definition world_recording : World :=
  run_task (startRecording_granted grant_ok) (run_task toggleRecording init).

(** ... then clicked again and the recorder delivered its data. *)
Definition world_processing : World :=
  run_task onstop
    (run_task (ondataavailable [82; 73; 70; 70]%N)
       (with_host (fun h => set_stopTasks (delete 0%nat (stopTasks h)) h)
          (run_task toggleRecording world_recording))).

(** The user typed a prompt. *)
Definition world_typed (text : string) : World :=
  with_dom (set_promptInput (lit text)) init.

(** Replies of the backend. *)
Definition reply_text (text : string) : value :=
  Obj (Field (lit "text") (Str (lit text)) NoField).

Definition reply_text_and_agent (text message : string) : value :=
  Obj (Field (lit "text") (Str (lit text))
         (Field (lit "prompt_response")
            (Obj (Field (lit "message") (Str (lit message)) NoField))
            NoField)).

Definition reply_error (error : string) : value :=
  Obj (Field (lit "error") (Str (lit error)) NoField).


(** A paragraph of class [empty-state], as a description can carry it. *)
Definition p_open_empty_state : jsstring :=
  lit "<p class=" ++ quoted (lit "empty-state") ++ lit ">".

(** A parser for the scenarios: it counts the opening tags
    [<p class="empty-state">].  That is what an HTML parser finds in the
    markup the scenarios use: text without markup, and such paragraphs side
    by side. *)
Fixpoint starts_with (p s : jsstring) : bool :=
  match p, s with
  | [], _ => true
  | _ :: _, [] => false
  | x :: p', y :: s' => (x =? y) && starts_with p' s'
  end.

Fixpoint occurrences (p s : jsstring) : nat :=
  match s with
  | [] => 0%nat
  | _ :: r => ((if starts_with p s then 1 else 0) + occurrences p r)%nat
  end.

Definition scenario_html : HTML :=
  {| empty_state_elements := occurrences p_open_empty_state |}.

(** A prompt that is markup: two paragraphs of class [empty-state]. *)
Definition two_empty_states : jsstring :=
  p_open_empty_state ++ lit "a</p>" ++ p_open_empty_state ++ lit "b</p>".


End Notions.

(** ** The capture session over the event loop *)

Module Session.
Import JS Async Renderer Notions.
Local Open Scope nat_scope.

(** No operation of [startRecording] throws after this grant. *)
Definition no_throw (g : Grant) : Prop := forall op, throws g op = None.

(** The recorder [r] captures and is not [this.mediaRecorder]. *)
Definition abandoned (r : nat) (w : World) : Prop :=
  (exists rec, recorders (host w) !! r = Some rec /\ state rec = Capturing)
  /\ mediaRecorder (this w) <> Some r.

(** The recorders and their streams fit together: every recorder records
    a stream that exists, no two recorders record the same stream, and the
    stream of a recorder that is not inactive has a live track. *)
Definition devices_ok (w : World) : Prop :=
  (forall r rec, recorders (host w) !! r = Some rec ->
                 stream rec < length (streams (host w)))
  /\ (forall r1 r2 rec1 rec2,
        recorders (host w) !! r1 = Some rec1 ->
        recorders (host w) !! r2 = Some rec2 ->
        stream rec1 = stream rec2 -> r1 = r2)
  /\ (forall r rec, recorders (host w) !! r = Some rec ->
                    state rec <> Inactive ->
                    exists tracks, streams (host w) !! stream rec = Some tracks
                                   /\ held tracks = true).

(** What ties the chunk list to the recorder's stop task. *)
Definition chunks_fresh (w : World) : Prop :=
  length (stopTasks (host w)) <= 1
  /\ (stopTasks (host w) <> [] -> isRecording (this w) = false)
  /\ (isRecording (this w) = true \/ stopTasks (host w) <> [] ->
      audioChunks (this w) = []).

(** The session fields a handler of the voice button or of
    [getUserMedia] leaves: what [chunks_fresh] reads. *)
Definition session_view (w : World) : bool * list nat * list Blob :=
  (isRecording (this w), stopTasks (host w), audioChunks (this w)).

(** The click that stopped the capture of [world_recording]. *)
Definition world_stopping : World := run_task toggleRecording world_recording.

(** The classes of the voice button mirror the session: [recording] is
    there while [isRecording], [processing] while an upload is in progress
    or the recorder's stop task is waiting. *)
Definition button_mirrors_session (w : World) : Prop :=
  voiceButton_recording (dom w) = isRecording (this w)
  /\ voiceButton_processing (dom w)
     = match stopTasks (host w) with
       | [] => isProcessing (this w)
       | _ :: _ => true
       end.

(** The requests an event sends to the backend: a submit action sends
    the trimmed prompt unless it is empty, the recorder's stop task uploads
    the chunks gathered with the data it delivers. *)
Definition requests (e : Event) (w : World) : list Call :=
  match e with
  | click_sendPromptBtn =>
      match trim (promptInput (dom w)) with
      | [] => []
      | prompt => [api_sendPrompt prompt]
      end
  | recorder_stop_task _ data =>
      [api_processAudio {| audio := concat (audioChunks (this w) ++ [data]);
                           filename := lit "recording.wav" |}]
  | _ => []
  end.

(** The user clicked twice before the microphone was granted; the first
    grant has arrived, the second request is still waiting. *)
Definition world_recording_asked_twice : World :=
  run_task (startRecording_granted grant_ok)
    (run_task toggleRecording (run_task toggleRecording init)).

(** ... then stopped the capture, and the recorder delivered its data. *)
Definition world_processing_asked_twice : World :=
  run_task onstop
    (run_task (ondataavailable [82; 73; 70; 70]%N)
       (with_host (fun h => set_stopTasks (delete 0 (stopTasks h)) h)
          (run_task toggleRecording world_recording_asked_twice))).


(** The events of two recordings, the second started before the stop task
    of the first has run: the click that stops the first capture, a click
    and its grant, then the stop task, its reply, and the click that stops
    the second capture. *)
Definition second_capture_overtakes_stop_task : list Event :=
  [click_voiceButton; getUserMedia_fulfilled grant_ok; click_voiceButton;
   click_voiceButton; getUserMedia_fulfilled grant_ok;
   recorder_stop_task 0 [1]%N;
   processAudio_reply 0 (Fulfilled Undefined) [] [];
   click_voiceButton].

(** The events of two recordings whose stop tasks are both waiting when the
    first runs: a second capture is started and stopped between the stop
    click of the first and its stop task.  Both recordings are uploaded, and
    the reply to the first arrives. *)
Definition reply_during_second_upload : list Event :=
  [click_voiceButton; getUserMedia_fulfilled grant_ok; click_voiceButton;
   click_voiceButton; getUserMedia_fulfilled grant_ok; click_voiceButton;
   recorder_stop_task 0 [1]%N; recorder_stop_task 0 [2]%N;
   processAudio_reply 0 (Fulfilled Undefined) [] []].

(** The bin of the analyser that bar [i] of [n] shows. *)
Definition bin (i n : nat) : nat := Nat.div (i * bufferLength) n.

End Session.

(** ** The visualizer of the React component: [onData] of [VoiceInput.js] *)

Module ReactVisualizer.
Import JS Async.
Local Open Scope nat_scope.

(** What [push] throws when the array cannot grow. *)
Definition RangeError : value := Error (lit "Invalid array length").

Section Sampling.

(** The samples of a channel, with [Math.abs]. *)
Context {sample : Type}.
Variable abs : sample -> sample.

(** [for (let i = 0; i < audioData.length; i += sampleRate)
       sampledData.push(Math.abs(audioData[i]))]
    from the index [i] on.  [audioData !! i] is there exactly when
    [i < audioData.length].  [room] is the number of elements the host still
    lets [sampledData] grow by: a [push] beyond it throws a [RangeError],
    which ends the loop and [onData]. *)
Fixpoint sampling (room : nat) (audioData : list sample) (sampleRate i : nat)
    (sampledData : list sample) : completion (list sample) :=
  match audioData !! i with
  | None => Normal sampledData
  | Some x =>
      match room with
      | O => Throw RangeError
      | S room' =>
          sampling room' audioData sampleRate (i + sampleRate)
            (sampledData ++ [abs x])
      end
  end.

(** [onData], as the value it passes to [setVisualizerData], or leaves
    there when it does not call it; a throw leaves [onData] before the call.
    [audioData] is what [recordedData.getChannelData(0) || []] gives,
    [maxLength] the longest array the host makes. *)
Definition onData (maxLength : nat) (audioData visualizerData : list sample)
    : completion (list sample) :=
  if 0 <? length audioData then
    let sampleRate := Nat.div (length audioData) 50 in
    sampling maxLength audioData sampleRate 0 []
  else Normal visualizerData.

End Sampling.

End ReactVisualizer.

(** ** The main process: [main.js]

    The window with its tray icon, and the handlers that [ipcMain.handle]
    registers for the channels of [preload.js].  A handler is cut at its
    [await]s like those of the renderer. *)

Module Main.
Import JS Async.
Local Open Scope exec_scope.

Definition Buffer : Type := list N.

(** [mainWindow]. *)
Inductive Window : Type := Visible | Hidden | Destroyed.

Inductive Call : Type :=
| axios_get (url : jsstring)
| axios_post_prompt (url : jsstring) (prompt : value)   (* the body { prompt } *)
| axios_post_audio (url : jsstring) (path : jsstring)   (* a form whose [audio]
                                                           is a read stream of the file *)
| console_error (label : jsstring) (v : value).

Record Process : Type := {
  isQuitting : bool;
  mainWindow : Window;
  files : list (jsstring * Buffer);   (* the files of [app.getPath('temp')] *)
  calls : list Call                   (* oldest first *)
}.

Definition set_isQuitting (b : bool) (p : Process) : Process :=
  {| isQuitting := b; mainWindow := mainWindow p; files := files p;
     calls := calls p |}.
Definition set_mainWindow (x : Window) (p : Process) : Process :=
  {| isQuitting := isQuitting p; mainWindow := x; files := files p;
     calls := calls p |}.
Definition set_files (l : list (jsstring * Buffer)) (p : Process) : Process :=
  {| isQuitting := isQuitting p; mainWindow := mainWindow p; files := l;
     calls := calls p |}.
Definition call (c : Call) (p : Process) : Process :=
  {| isQuitting := isQuitting p; mainWindow := mainWindow p; files := files p;
     calls := calls p ++ [c] |}.

Definition Handler (A : Type) : Type := Exec Process A.

(** The process once [createWindow] and [createTray] have run. *)
Definition ready : Process :=
  {| isQuitting := false; mainWindow := Visible; files := []; calls := [] |}.

(** *** The window and the tray *)

(** A method called on a window that is gone. *)
Definition destroyed : value := Error (lit "Object has been destroyed").

Definition show : Handler unit :=
  x <- gets mainWindow ;;
  match x with
  | Destroyed => throw destroyed
  | _ => modify (set_mainWindow Visible)
  end.

Definition hide : Handler unit :=
  x <- gets mainWindow ;;
  match x with
  | Destroyed => throw destroyed
  | _ => modify (set_mainWindow Hidden)
  end.

(** The handler of the window's [close] event; the result is whether it
    called [event.preventDefault()]. *)
Definition on_close : Handler bool :=
  q <- gets isQuitting ;;
  if negb q then hide ;; ret true
  else ret false.

(** A request to close the window: the handler runs, and the window is
    closed unless the handler prevented it. *)
Definition close_window : Handler unit :=
  prevented <- on_close ;;
  if prevented then ret tt else modify (set_mainWindow Destroyed).

(** The handler of [before-quit]. *)
Definition before_quit : Handler unit := modify (set_isQuitting true).

(** [app.quit()]: [before-quit] is emitted, then the windows are asked to
    close. *)
Definition app_quit : Handler unit := before_quit ;; close_window.

(** The tray: a click on the icon, and the entries of its menu. *)
Definition tray_click : Handler unit :=
  x <- gets mainWindow ;;
  match x with
  | Destroyed => throw destroyed
  | Visible => hide
  | Hidden => show
  end.

Definition menu_open : Handler unit := show.

Definition menu_quit : Handler unit :=
  modify (set_isQuitting true) ;;
  app_quit.

Inductive Gesture : Type :=
| CloseWindow
| TrayClick
| MenuOpen
| MenuQuit.

Definition gesture (x : Gesture) : Handler unit :=
  match x with
  | CloseWindow => close_window
  | TrayClick => tray_click
  | MenuOpen => menu_open
  | MenuQuit => menu_quit
  end.

(** The process after the gestures, and whether one of them threw. *)
Fixpoint gestures (l : list Gesture) : Handler unit :=
  match l with
  | [] => ret tt
  | x :: rest => gesture x ;; gestures rest
  end.

Definition is_quit (x : Gesture) : bool :=
  match x with MenuQuit => true | _ => false end.

(** *** The handlers of the channels *)

Definition backendUrl : jsstring := lit "http://localhost:5000".

(** The object [{ error: msg }]. *)
Definition failure (msg : string) : value :=
  Obj (Field (lit "error") (Str (lit msg)) NoField).

(** [get-calendars] up to [await axios.get], and from its settlement on. *)
Definition get_calendars : Handler unit :=
  modify (call (axios_get (backendUrl ++ lit "/calendars"))).

Definition get_calendars_settled (r : settled) : Handler value :=
  try_catch
    (response <- await r ;;
     get response "data")
    (fun error =>
       modify (call (console_error (lit "Error fetching calendars:") error)) ;;
       ret (failure "Failed to fetch calendars")).

(** [send-prompt]. *)
Definition send_prompt (prompt : value) : Handler unit :=
  modify (call (axios_post_prompt (backendUrl ++ lit "/process-prompt") prompt)).

Definition send_prompt_settled (r : settled) : Handler value :=
  try_catch
    (response <- await r ;;
     get response "data")
    (fun error =>
       modify (call (console_error (lit "Error processing prompt:") error)) ;;
       ret (failure "Failed to process prompt")).

(** [fs.writeFileSync]: the file is created or replaced, unless the host
    refuses (no space, no permission) and the call throws. *)
Fixpoint write (path : jsstring) (data : Buffer) (l : list (jsstring * Buffer))
    : list (jsstring * Buffer) :=
  match l with
  | [] => [(path, data)]
  | (p, d) :: rest =>
      if key_eqb path p then (path, data) :: rest
      else (p, d) :: write path data rest
  end.

Fixpoint read (path : jsstring) (l : list (jsstring * Buffer)) : option Buffer :=
  match l with
  | [] => None
  | (p, d) :: rest => if key_eqb path p then Some d else read path rest
  end.

Fixpoint unlink (path : jsstring) (l : list (jsstring * Buffer))
    : list (jsstring * Buffer) :=
  match l with
  | [] => []
  | (p, d) :: rest =>
      if key_eqb path p then rest else (p, d) :: unlink path rest
  end.

Definition writeFileSync (refused : option value) (path : jsstring)
    (data : Buffer) : Handler unit :=
  match refused with
  | Some e => throw e
  | None => modify (fun p => set_files (write path data (files p)) p)
  end.

(** [fs.unlinkSync] throws when there is no such file. *)
Definition ENOENT (path : jsstring) : value :=
  Error (lit "ENOENT: no such file or directory, unlink '" ++ path ++ lit "'").

Definition unlinkSync (path : jsstring) : Handler unit :=
  l <- gets files ;;
  match read path l with
  | None => throw (ENOENT path)
  | Some _ => modify (set_files (unlink path l))
  end.

Definition process_audio_catch (error : value) : Handler value :=
  modify (call (console_error (lit "Error processing audio:") error)) ;;
  ret (failure "Failed to process audio").

(** [process-audio] from the settlement of [audioBlob.arrayBuffer()] to
    [await axios.post].  [tempFilePath] is the path made from [Date.now()];
    [arrived] is the audio of the form, or what reading it threw; the result
    is [None] while the request is awaited. *)
Definition process_audio (tempFilePath : jsstring) (arrived : Buffer + value)
    (refused : option value) : Handler (option value) :=
  try_catch
    (match arrived with
     | inr e => throw e
     | inl audioBuffer =>
         writeFileSync refused tempFilePath audioBuffer ;;
         modify (call (axios_post_audio (backendUrl ++ lit "/speech-to-text")
                         tempFilePath)) ;;
         ret None
     end)
    (fun error => v <- process_audio_catch error ;; ret (Some v)).

(** [process-audio] from the settlement of the request on. *)
Definition process_audio_settled (tempFilePath : jsstring) (r : settled)
    : Handler value :=
  try_catch
    (response <- await r ;;
     unlinkSync tempFilePath ;;
     get response "data")
    process_audio_catch.

End Main.

(** * Properties

    They hold whatever the HTML parser of the host makes of the markup. *)

Import JS Async Renderer Notions Session.
Local Open Scope exec_scope.
Local Open Scope nat_scope.

Arguments lit : simpl never.
Arguments activity_item_markup : simpl never.

Section Properties.
Context {html : HTML}.

(** ** Strings *)

Lemma trimStart_blank (s : jsstring) :
  forallb isWhiteSpace s = true -> trimStart s = [].
Proof.
  induction s as [|c r IH]; cbn; [reflexivity|].
  intros H. apply andb_prop in H as [Hc Hr]. rewrite Hc. auto.
Qed.

Lemma trim_blank (s : jsstring) :
  forallb isWhiteSpace s = true -> trim s = [].
Proof.
  intros H. unfold trim, trimEnd. rewrite (trimStart_blank s H). reflexivity.
Qed.

Lemma trimStart_nil_blank (s : jsstring) :
  trimStart s = [] -> forallb isWhiteSpace s = true.
Proof.
  induction s as [|c r IH]; cbn; [reflexivity|].
  destruct (isWhiteSpace c); cbn; [exact IH | discriminate].
Qed.

Lemma trim_nil_blank (s : jsstring) :
  trim s = [] -> forallb isWhiteSpace s = true.
Proof.
  unfold trim, trimEnd. intros H. apply trimStart_nil_blank.
  destruct (trimStart s) as [|c r] eqn:E; [reflexivity|].
  exfalso.
  assert (Hr : trimStart (rev (c :: r)) = []).
  { apply (f_equal (@rev _)) in H. rewrite rev_involutive in H. exact H. }
  (* the last code unit of a left-trimmed string is the first of its
     reverse; were all of it white space, so would be [c] *)
  apply trimStart_nil_blank in Hr.
  rewrite forallb_forall in Hr.
  assert (Hc : isWhiteSpace c = true).
  { apply Hr. apply in_rev. rewrite rev_involutive. left. reflexivity. }
  destruct s as [|c0 r0]; [discriminate|].
  clear Hr H. revert c r E Hc.
  induction (c0 :: r0) as [|x l IH]; intros c r E Hc; [discriminate|].
  cbn in E. destruct (isWhiteSpace x) eqn:Hx.
  - eapply IH; eauto.
  - injection E as -> _. congruence.
Qed.


(** ** Running handlers *)

Lemma run_repeat_fixed (e : Event) (w : World) (n : nat) :
  step e w = Some w -> run (repeat e n) w = Some w.
Proof.
  intros H. induction n as [|n IH]; cbn; [reflexivity|].
  rewrite H. exact IH.
Qed.

(** ** The activity log *)

Lemma entries_of_remove_empty_state (l : list LogNode) :
  entries_of (remove_empty_state l) = entries_of l.
Proof.
  induction l as [|[|t d [|m]] rest IH]; cbn; try reflexivity.
  unfold entries_of in IH. rewrite IH. reflexivity.
Qed.

Lemma entries_of_item (t d : jsstring) (m : nat) (l : list LogNode) :
  entries_of (remove_empty_state (ActivityItem t d m :: l)) = (t, d) :: entries_of l.
Proof.
  rewrite entries_of_remove_empty_state. reflexivity.
Qed.

(** What a call of [addActivityItem] leaves. *)
Lemma addActivityItem_spec (t d : jsstring) (w : World) :
  addActivityItem t d w
  = (with_dom (set_activityLog
                 (remove_empty_state
                    (ActivityItem t d (empty_state_elements (activity_item_markup t d))
                     :: activityLog (dom w)))) w,
     Normal tt).
Proof. destruct w as [v [] h c]. reflexivity. Qed.

Lemma entries_addActivityItem (t d : jsstring) (w : World) :
  entries (fst (addActivityItem t d w)) = (t, d) :: entries w.
Proof.
  rewrite addActivityItem_spec. unfold entries.
  cbn [fst with_dom dom set_activityLog activityLog].
  apply entries_of_item.
Qed.

Lemma run_task_addActivityItem (t d : jsstring) (w : World) :
  run_task (addActivityItem t d) w = fst (addActivityItem t d w).
Proof. unfold run_task, task. rewrite addActivityItem_spec. reflexivity. Qed.

Lemma entries_addActivityItems (items : list (jsstring * jsstring)) (w : World) :
  entries (addActivityItems items w) = rev items ++ entries w.
Proof.
  revert w. unfold addActivityItems.
  induction items as [|[t0 d0] l IH]; intros w; [reflexivity|].
  cbn [fold_left fst snd].
  rewrite IH, run_task_addActivityItem, entries_addActivityItem.
  cbn [rev]. rewrite <- app_assoc. reflexivity.
Qed.

(** C9, on the code.  A call of [addActivityItem] adds exactly one entry
    [(time, description)] on top of the log and removes none, without a cap:
    read in the order of insertion the entries after the call are those
    before it with the new one appended, and nothing but the log is touched.
    But an existing entry can be modified.  The description is parsed as
    markup, and [querySelector('.empty-state')] takes the first element of
    that class anywhere below the log.  When the new item holds such an
    element, it is the one removed, from the item just made, and the
    placeholder stays.  When the new item holds none and the newest of the
    earlier items still holds one, the call removes it from that earlier
    item. *)
Theorem addActivityItem_can_alter_an_entry
    (t d : jsstring) (items : list (jsstring * jsstring)) (w : World) :
  let w' := run_task (addActivityItem t d) w in
  entries w' = (t, d) :: entries w
  /\ chronological w' = chronological w ++ [(t, d)]
  /\ chronological (addActivityItems items w) = chronological w ++ items
  /\ length (entries (addActivityItems items w))
     = length items + length (entries w)
  /\ this w' = this w
  /\ host w' = host w
  /\ calls w' = calls w
  /\ activityLog (dom w')
     = match empty_state_elements (activity_item_markup t d) with
       | S m => ActivityItem t d m :: activityLog (dom w)
       | O => ActivityItem t d 0 :: remove_empty_state (activityLog (dom w))
       end
  /\ (forall t0 d0 m rest,
        empty_state_elements (activity_item_markup t d) = 0 ->
        activityLog (dom w) = ActivityItem t0 d0 (S m) :: rest ->
        activityLog (dom w') = ActivityItem t d 0 :: ActivityItem t0 d0 m :: rest
        /\ has_placeholder w' = has_placeholder w).
Proof.
  cbv zeta. unfold chronological.
  rewrite run_task_addActivityItem, entries_addActivityItem, entries_addActivityItems.
  rewrite addActivityItem_spec, length_app, length_rev, rev_app_distr, rev_involutive.
  do 7 (split; [reflexivity|]).
  cbn [fst dom with_dom set_activityLog activityLog].
  split.
  - destruct (empty_state_elements (activity_item_markup t d)); reflexivity.
  - intros t0 d0 m rest -> Hlog. unfold has_placeholder.
    cbn [fst dom with_dom set_activityLog activityLog]. rewrite Hlog.
    split; reflexivity.
Qed.

(** ** Prompt submission *)

(** A blank prompt: [sendPrompt] returns at once. *)
Lemma sendPrompt_blank (w : World) :
  trim (promptInput (dom w)) = [] -> sendPrompt w = (w, Normal tt).
Proof.
  intros H. unfold sendPrompt, bind, gets. rewrite H. reflexivity.
Qed.

(** Any other prompt is sent. *)
Lemma sendPrompt_nonblank (w : World) :
  trim (promptInput (dom w)) <> [] ->
  sendPrompt w
  = (with_host (fun h => set_prompts (prompts h ++ [trim (promptInput (dom w))]) h)
       (call (api_sendPrompt (trim (promptInput (dom w))))
          (with_dom (set_responseContainer div_loading) w)),
     Normal tt).
Proof.
  intros H. unfold sendPrompt, bind, gets.
  destruct (trim (promptInput (dom w))) as [|c r] eqn:E; [congruence|].
  reflexivity.
Qed.

(** The test of [sendPrompt] is exact: a prompt with anything but white
    space in it is sent. *)
Lemma sendPrompt_sends_unless_blank (w : World) :
  forallb isWhiteSpace (promptInput (dom w)) = false ->
  calls (run_task sendPrompt w)
  = calls w ++ [api_sendPrompt (trim (promptInput (dom w)))].
Proof.
  intros H.
  assert (Hne : trim (promptInput (dom w)) <> []).
  { intros E. apply trim_nil_blank in E. congruence. }
  unfold run_task, task. rewrite (sendPrompt_nonblank w Hne). reflexivity.
Qed.

(** C6. Submitting while the prompt input is empty or holds white space
    only leaves the whole world as it was: no call of [window.api.sendPrompt]
    (no call of any kind), no request left outstanding, no activity entry and
    no change of what is displayed. *)
Theorem sendPrompt_rejects_blank_input (w : World) :
  forallb isWhiteSpace (promptInput (dom w)) = true ->
  step click_sendPromptBtn w = Some w
  /\ network_calls (run_task sendPrompt w) = network_calls w
  /\ entries (run_task sendPrompt w) = entries w
  /\ dom (run_task sendPrompt w) = dom w.
Proof.
  intros H. apply trim_blank in H.
  assert (E : run_task sendPrompt w = w).
  { unfold run_task, task. rewrite (sendPrompt_blank w H). reflexivity. }
  cbn [step]. rewrite E. repeat split; reflexivity.
Qed.

(** ** Stopping *)

Lemma stopRecording_inactive (w : World) :
  no_active_recorder w = true -> stopRecording w = (w, Normal tt).
Proof.
  unfold no_active_recorder, stopRecording, bind, gets.
  destruct (mediaRecorder (this w)) as [r|]; [|reflexivity].
  destruct (recorders (host w) !! r) as [[[] s]|]; cbn;
    intros E; first [discriminate E | reflexivity].
Qed.

(** C7. [stopRecording] called while there is no recorder, or while the
    recorder is inactive, returns at once: the world is the same afterwards.
    So no stop task is queued (no blob will be built), no upload is started
    and the flags of the session keep their values. *)
Theorem stopRecording_idle_is_noop (w : World) :
  no_active_recorder w = true ->
  run_task stopRecording w = w
  /\ stopTasks (host (run_task stopRecording w)) = stopTasks (host w)
  /\ uploads (host (run_task stopRecording w)) = uploads (host w)
  /\ network_calls (run_task stopRecording w) = network_calls w
  /\ status (run_task stopRecording w) = status w.
Proof.
  intros H.
  assert (E : run_task stopRecording w = w).
  { unfold run_task, task. rewrite (stopRecording_inactive w H). reflexivity. }
  rewrite E. repeat split; reflexivity.
Qed.

(** ** Unfolding handlers *)

Ltac monad :=
  unfold run_task, task, try_catch, finally, bind, await, get, and_get, ret,
    throw, modify, gets.

(** ** Settlement of a prompt submission *)

Lemma sendPrompt_settled_promptInput
    (prompt : jsstring) (r : settled) (t1 t2 : jsstring) (w : World) :
  promptInput (dom (run_task (sendPrompt_settled prompt r t1 t2) w))
  = if submission_failed r then promptInput (dom w) else [].
Proof.
  destruct w as [th d h c].
  destruct r as [v|e]; unfold sendPrompt_settled, addActivityItem; monad.
  - destruct v; cbn; try reflexivity.
    destruct (ToBoolean (lookup_prop (lit "error") props)); reflexivity.
  - destruct e; reflexivity.
Qed.


(** ** Settlement of an upload *)

(** Whatever the reply, [processAudio] ends with its [finally] block; the
    only exception that can leave it is the TypeError of reading [message]
    of a rejection reason that is null or undefined. *)
Lemma processAudio_settled_resets (r : settled) (t1 t2 : jsstring) (w : World) :
  exists w1,
    this w1 = this w /\ host w1 = host w
    /\ (run_task (processAudio_settled r t1 t2) w = reset_ui w1
        \/ exists e, run_task (processAudio_settled r t1 t2) w
                     = call (unhandledRejection e) (reset_ui w1)).
Proof.
  unfold processAudio_settled, run_task, task, finally.
  match goal with
  | |- context [ try_catch ?m ?h w ] => destruct (try_catch m h w) as [w1 c] eqn:E
  end.
  exists w1.
  assert (Hframe : this w1 = this w /\ host w1 = host w).
  { revert E. unfold addActivityItem. monad.
    destruct w as [th d h cs].
    destruct r as [v|e].
    - destruct v; cbn;
        repeat match goal with
               | |- context [ if ?b then _ else _ ] => destruct b; cbn
               | |- context [ Get ?p ?k ] => destruct (Get p k) eqn:?; cbn
               end;
        intros [= <- _]; split; reflexivity.
    - destruct e; cbn; intros [= <- _]; split; reflexivity. }
  destruct Hframe as [Hthis Hhost]. split; [exact Hthis|]. split; [exact Hhost|].
  monad. destruct c as [a|e]; [left | right; exists e]; reflexivity.
Qed.

Lemma reset_ui_idle (w : World) :
  isProcessing (this (reset_ui w)) = false
  /\ isRecording (this (reset_ui w)) = isRecording (this w)
  /\ voiceButton_processing (dom (reset_ui w)) = false
  /\ voiceButton_text (dom (reset_ui w)) = lit "Speak"
  /\ visualizer_display (dom (reset_ui w)) = DisplayNone
  /\ visualizer (dom (reset_ui w)) = [].
Proof. repeat split; reflexivity. Qed.

(** The pipeline is idle after any settlement of an upload. *)
Lemma processAudio_settled_idle (r : settled) (t1 t2 : jsstring) (w : World) :
  let w' := run_task (processAudio_settled r t1 t2) w in
  isProcessing (this w') = false
  /\ isRecording (this w') = isRecording (this w)
  /\ voiceButton_processing (dom w') = false
  /\ voiceButton_text (dom w') = lit "Speak"
  /\ visualizer_display (dom w') = DisplayNone
  /\ visualizer (dom w') = [].
Proof.
  cbv zeta.
  destruct (processAudio_settled_resets r t1 t2 w) as (w1 & Hthis & _ & [E | [e E]]);
    rewrite E; cbn [call this dom];
    destruct (reset_ui_idle w1) as (H1 & H2 & H3 & H4 & H5 & H6);
    rewrite H1, H2, H3, H4, H5, H6, Hthis; repeat split; reflexivity.
Qed.

(** A reply with a truthy [text] is an object. *)
Lemma truthy_text_is_object (response : value) :
  ToBoolean (and_field response "text") = true ->
  exists props, response = Obj props /\ and_field response "text" = field "text" props.
Proof.
  unfold and_field.
  destruct response as [| |b|s|props|b s]; cbn [ToBoolean Get].
  1,2: discriminate.
  - destruct b; cbn; discriminate.
  - destruct (negb (length s =? 0)) eqn:E; cbn; [discriminate|].
    rewrite E. discriminate.
  - intros _. exists props. split; reflexivity.
  - destruct b; cbn; discriminate.
Qed.

Lemma truthy_has_properties (v : value) :
  ToBoolean v = true -> exists x, Get v "message" = Some x.
Proof.
  destruct v; cbn; try discriminate; eauto.
Qed.

(** The success branch of [processAudio], as the world it leaves. *)
Lemma processAudio_settled_text (props : fields) (t1 t2 : jsstring) (w : World) :
  ToBoolean (field "text" props) = true ->
  run_task (processAudio_settled (Fulfilled (Obj props)) t1 t2) w
  = reset_ui
      (let text := ToString (field "text" props) in
       let prompt_response := field "prompt_response" props in
       let w1 := with_dom (set_promptInput (normalize_newlines text)) w in
       if ToBoolean prompt_response then
         match Get prompt_response "message" with
         | Some message =>
             fst (addActivityItem t2 (lit "Agent: " ++ quoted (ToString message))
                    (fst (addActivityItem t1 (lit "Voice prompt: " ++ quoted text)
                            (with_dom (set_responseContainer
                                         (div_agent_response (ToString message)))
                               w1))))
         | None => w1
         end
       else fst (addActivityItem t1 (lit "Transcribed: " ++ quoted text) w1)).
Proof.
  unfold field. intros Htext. cbv zeta.
  destruct w as [th d h c].
  unfold processAudio_settled, addActivityItem. monad. cbn.
  rewrite Htext.
  destruct (ToBoolean (lookup_prop (lit "prompt_response") props)) eqn:Hpr; cbn.
  - destruct (truthy_has_properties _ Hpr) as [message Hm]. rewrite Hm.
    reflexivity.
  - reflexivity.
Qed.


(** The error branch of [processAudio], as the world it leaves. *)
Lemma processAudio_settled_error (response : value) (t1 t2 : jsstring) (w : World) :
  ToBoolean (and_field response "text") = false ->
  ToBoolean (and_field response "error") = true ->
  run_task (processAudio_settled (Fulfilled response) t1 t2) w
  = reset_ui
      (with_dom (set_responseContainer
                   (p_error (lit "Error: " ++ ToString (and_field response "error"))))
         (call (console_error (lit "Speech recognition error:")
                  (and_field response "error")) w)).
Proof.
  unfold and_field. intros Htext Herr.
  destruct w as [th d h c].
  unfold processAudio_settled, addActivityItem. monad.
  destruct response as [| |b|s|props|b s]; cbn in *; try discriminate.
  - destruct b; cbn in *; discriminate.
  - destruct (negb (length s =? 0)) eqn:E; cbn in *; [discriminate|].
    rewrite E in Herr. discriminate.
  - rewrite Htext, Herr. reflexivity.
  - destruct b; cbn in *; discriminate.
Qed.

(** A reply with neither: only the [finally] block runs. *)
Lemma processAudio_settled_neither (response : value) (t1 t2 : jsstring) (w : World) :
  ToBoolean (and_field response "text") = false ->
  ToBoolean (and_field response "error") = false ->
  run_task (processAudio_settled (Fulfilled response) t1 t2) w = reset_ui w.
Proof.
  unfold and_field. intros Htext Herr.
  destruct w as [th d h c].
  unfold processAudio_settled, addActivityItem. monad.
  destruct response as [| |b|s|props|b s]; cbn in *; try reflexivity.
  - destruct b; reflexivity.
  - destruct (negb (length s =? 0)) eqn:E; cbn in *; rewrite ?E; reflexivity.
  - rewrite Htext, Herr. reflexivity.
  - destruct b; reflexivity.
Qed.








(** ** The voice button *)

Lemma toggleRecording_processing (w : World) :
  isProcessing (this w) = true -> toggleRecording w = (w, Normal tt).
Proof.
  intros H. unfold toggleRecording. monad. rewrite H. reflexivity.
Qed.

Lemma toggleRecording_recording (w : World) :
  isProcessing (this w) = false -> isRecording (this w) = true ->
  toggleRecording w = stopRecording w.
Proof.
  intros Hp Hr. unfold toggleRecording. monad. rewrite Hp, Hr. reflexivity.
Qed.

Lemma toggleRecording_idle (w : World) :
  isProcessing (this w) = false -> isRecording (this w) = false ->
  toggleRecording w = startRecording w.
Proof.
  intros Hp Hr. unfold toggleRecording. monad. rewrite Hp, Hr. reflexivity.
Qed.

(** Making a recorder inactive does not add a capturing one. *)
Lemma capturing_alter_inactive (l : list MediaRecorder) (r : nat) :
  length (List.filter is_capturing (alter (set_state Inactive) r l))
  <= length (List.filter is_capturing l).
Proof.
  revert r. induction l as [|x l IH]; intros r; [reflexivity|].
  destruct r as [|r]; cbn.
  - destruct (is_capturing x); cbn; lia.
  - specialize (IH r). destruct (is_capturing x); cbn; lia.
Qed.

(** What [stopRecording] never touches, and what it can only lower. *)
Lemma stopRecording_frame (w : World) :
  let w' := run_task stopRecording w in
  gumPending (host w') = gumPending (host w)
  /\ length (recorders (host w')) = length (recorders (host w))
  /\ length (streams (host w')) = length (streams (host w))
  /\ calls w' = calls w
  /\ uploads (host w') = uploads (host w)
  /\ isProcessing (this w') = isProcessing (this w)
  /\ capturing w' <= capturing w.
Proof.
  cbv zeta. destruct w as [th d h c].
  unfold stopRecording, MediaRecorder_stop, stop_tracks, capturing. monad.
  cbn. destruct (mediaRecorder th) as [r|]; cbn; [|repeat split; reflexivity].
  destruct (recorders h !! r) as [[[] s]|]; cbn;
    rewrite ?length_alter; repeat split; try reflexivity.
  all: apply capturing_alter_inactive.
Qed.

(** The scenario worlds are reached from the initial page. *)
Lemma world_recording_reached :
  run [click_voiceButton; getUserMedia_fulfilled grant_ok] init
  = Some world_recording.
Proof. vm_compute. reflexivity. Qed.

Lemma world_processing_reached :
  run [click_voiceButton; getUserMedia_fulfilled grant_ok; click_voiceButton;
       recorder_stop_task 0 [82; 73; 70; 70]%N] init
  = Some world_processing.
Proof. vm_compute. reflexivity. Qed.

(** The React component's button. *)
Lemma react_toggleRecording (s : ReactVoiceInput.State) :
  ReactVoiceInput.run_task ReactVoiceInput.toggleRecording s
  = if ReactVoiceInput.isProcessing s then s
    else ReactVoiceInput.setIsRecording (negb (ReactVoiceInput.isRecording s)) s.
Proof.
  unfold ReactVoiceInput.run_task, ReactVoiceInput.toggleRecording. monad.
  destruct (ReactVoiceInput.isProcessing s); reflexivity.
Qed.

(** ** Submissions in flight *)

Lemma startRecording_granted_view (g : Grant) (w : World) :
  guard_view (run_task (startRecording_granted g) w) = guard_view w.
Proof.
  destruct w as [th d h c].
  unfold startRecording_granted, startRecording_catch, new_MediaStream,
    new_AudioContext, createMediaStreamSource, new_MediaRecorder,
    MediaRecorder_start, startVisualization, updateVisualization, host_op.
  monad. cbn.
  destruct (throws g NewAudioContext); cbn; [reflexivity|].
  destruct (throws g CreateMediaStreamSource); cbn; [reflexivity|].
  destruct (throws g NewMediaRecorder); cbn; [reflexivity|].
  destruct (throws g RecorderStart); cbn; reflexivity.
Qed.

Lemma startRecording_denied_view (e : value) (w : World) :
  guard_view (run_task (startRecording_denied e) w) = guard_view w.
Proof. destruct w as [th d h c]. reflexivity. Qed.

Lemma sendPrompt_view (w : World) :
  guard_view (run_task sendPrompt w) = guard_view w.
Proof.
  destruct w as [th d h c]. unfold sendPrompt. monad. cbn.
  destruct (negb (negb (length (trim (promptInput d)) =? 0))); reflexivity.
Qed.

Lemma sendPrompt_settled_view (p : jsstring) (r : settled) (t1 t2 : jsstring) (w : World) :
  guard_view (run_task (sendPrompt_settled p r t1 t2) w) = guard_view w.
Proof.
  destruct w as [th d h c].
  destruct r as [v|e]; unfold sendPrompt_settled, addActivityItem; monad.
  - destruct v; cbn; try reflexivity.
    destruct (ToBoolean (lookup_prop (lit "error") props)); reflexivity.
  - destruct e; reflexivity.
Qed.

Lemma toggleRecording_view (w : World) :
  guard_view (run_task toggleRecording w) = guard_view w
  \/ exists r, isProcessing (this w) = false
               /\ isProcessing (this (run_task toggleRecording w)) = false
               /\ stopTasks (host (run_task toggleRecording w))
                  = stopTasks (host w) ++ [r]
               /\ uploads (host (run_task toggleRecording w)) = uploads (host w).
Proof.
  destruct w as [th d h c].
  unfold toggleRecording, startRecording, stopRecording, MediaRecorder_stop, stop_tracks.
  monad. cbn.
  destruct (isProcessing th) eqn:Hp; cbn; [left; unfold guard_view; cbn; rewrite Hp; reflexivity|].
  destruct (isRecording th); cbn.
  - destruct (mediaRecorder th) as [r|]; cbn;
      [|left; unfold guard_view; cbn; rewrite Hp; reflexivity].
    destruct (recorders h !! r) as [[[] s]|]; cbn.
    1,4: left; unfold guard_view; cbn; rewrite Hp; reflexivity.
    all: right; exists r; cbn; repeat split; try reflexivity; exact Hp.
  - left. unfold guard_view; cbn; rewrite Hp; reflexivity.
Qed.

Lemma recorder_task_view (data : Blob) (w : World) :
  let w' := run_task onstop (run_task (ondataavailable data) w) in
  isProcessing (this w') = true
  /\ stopTasks (host w') = stopTasks (host w)
  /\ exists fd, uploads (host w') = uploads (host w) ++ [fd].
Proof.
  destruct w as [th d h c]. cbn. repeat split. eexists. reflexivity.
Qed.

Lemma processAudio_settled_view (r : settled) (t1 t2 : jsstring) (w : World) :
  isProcessing (this (run_task (processAudio_settled r t1 t2) w)) = false
  /\ host (run_task (processAudio_settled r t1 t2) w) = host w.
Proof.
  destruct (processAudio_settled_resets r t1 t2 w) as (w1 & _ & Hh & [E | [e E]]);
    rewrite E; cbn; rewrite Hh; split; reflexivity.
Qed.

Lemma upload_guarded_view (w w' : World) :
  guard_view w' = guard_view w -> upload_guarded w -> upload_guarded w'.
Proof.
  unfold guard_view, upload_guarded. intros [= -> -> ->]. tauto.
Qed.

Lemma reachable_upload_guarded (w : World) : reachable w -> upload_guarded w.
Proof.
  intros Hreach. induction Hreach as [|e w w' Hreach IH Hord Hstep].
  - unfold upload_guarded. cbn. repeat split; try lia; discriminate.
  - destruct e; cbn [step in_order] in Hstep, Hord.
    + injection Hstep as <-.
      destruct (toggleRecording_view w) as [E | (r & Hp & E)].
      * exact (upload_guarded_view _ _ E IH).
      * destruct E as (E1 & E2 & E3).
        destruct IH as (_ & _ & H3). unfold upload_guarded.
        rewrite E1, E2, E3.
        destruct (stopTasks (host w)); [|discriminate].
        cbn. repeat split; try lia; try discriminate.
        intros _. apply H3, Hp.
    + destruct (gumPending (host w)); [discriminate|]. injection Hstep as <-.
      exact (upload_guarded_view _ _ (startRecording_granted_view g w) IH).
    + destruct (gumPending (host w)); [discriminate|]. injection Hstep as <-.
      exact (upload_guarded_view _ _ (startRecording_denied_view error w) IH).
    + destruct (stopTasks (host w) !! k) as [r|] eqn:Hk; [|discriminate].
      injection Hstep as <-.
      match goal with
      | |- upload_guarded (run_task onstop (run_task _ ?w1)) =>
          destruct (recorder_task_view data w1) as (E1 & E2 & fd & E3)
      end.
      unfold upload_guarded. rewrite E1, E2, E3.
      cbn [with_host host stopTasks uploads set_stopTasks].
      destruct IH as (H1 & H2 & H3).
      assert (Hp : isProcessing (this w) = false).
      { destruct (isProcessing (this w)); [|reflexivity].
        destruct (H2 eq_refl) as [Hnil _]. rewrite Hnil in Hk. discriminate. }
      rewrite (H3 Hp).
      assert (Hone : delete k (stopTasks (host w)) = []).
      { destruct (stopTasks (host w)) as [|a [|b l]]; cbn in *; try lia.
        - discriminate.
        - destruct k; [reflexivity|discriminate]. }
      rewrite Hone. cbn. repeat split; try lia; discriminate.
    + destruct (uploads (host w) !! k) as [fd|] eqn:Hk; [|discriminate].
      injection Hstep as <-.
      unfold upload_guarded.
      destruct (processAudio_settled_view r t1 t2
        (with_host (fun h => set_uploads (delete k (uploads h)) h) w)) as [E1 E2].
      rewrite E1, E2. cbn [with_host host stopTasks uploads set_uploads].
      destruct IH as (H1 & H2 & H3).
      assert (Hp : isProcessing (this w) = true).
      { destruct (isProcessing (this w)); [reflexivity|].
        rewrite (H3 eq_refl) in Hk. discriminate. }
      destruct (H2 Hp) as [Hnil Hlen]. rewrite Hnil.
      assert (Hone : delete k (uploads (host w)) = []).
      { destruct (uploads (host w)) as [|a [|b l]]; cbn in *; try lia.
        destruct k; [reflexivity|discriminate]. }
      rewrite Hone. cbn. repeat split; try lia; discriminate.
    + injection Hstep as <-.
      exact (upload_guarded_view _ _ (sendPrompt_view w) IH).
    + destruct (prompts (host w) !! k) as [p|] eqn:Hk; [|discriminate].
      injection Hstep as <-.
      refine (upload_guarded_view _ _ _ IH).
      rewrite sendPrompt_settled_view. reflexivity.
    + injection Hstep as <-. refine (upload_guarded_view _ _ _ IH). reflexivity.
Qed.

Lemma reachable_run_in_order (es : list Event) (w w' : World) :
  reachable w -> run_in_order es w = Some w' -> reachable w'.
Proof.
  revert w. induction es as [|e es IH]; intros w Hw; cbn.
  - intros [= <-]. exact Hw.
  - destruct (in_order e w) eqn:Hord; [|discriminate].
    destruct (step e w) as [w1|] eqn:Hstep; [|discriminate].
    apply IH. exact (reachable_step e w w1 Hw Hord Hstep).
Qed.

Lemma world_processing_reachable : reachable world_processing.
Proof.
  apply (reachable_run_in_order
           [click_voiceButton; getUserMedia_fulfilled grant_ok; click_voiceButton;
            recorder_stop_task 0 [82; 73; 70; 70]%N] init).
  - exact reachable_init.
  - vm_compute. reflexivity.
Qed.

(** C3, as the code has it.  Voice capture is guarded: in every world the
    page can reach at most one upload is in flight, and while [isProcessing]
    is set gestures on the voice button change nothing, so they neither start
    a capture nor stop one (the React component's button has the same
    guard).  Prompt submission is not guarded: whenever the
    prompt is not blank, a submit action sends one more request and leaves
    one more submission waiting, whatever is waiting already. *)
Theorem one_upload_but_many_submissions (w : World) :
  reachable w ->
  length (uploads (host w)) <= 1
  /\ (isProcessing (this w) = false -> uploads (host w) = [])
  /\ (isProcessing (this w) = true ->
        forall n, run (repeat click_voiceButton n) w = Some w)
  /\ (forall s,
        ReactVoiceInput.isProcessing s = true ->
        ReactVoiceInput.run_task ReactVoiceInput.toggleRecording s = s)
  /\ (trim (promptInput (dom w)) <> [] ->
        prompts (host (run_task sendPrompt w))
        = prompts (host w) ++ [trim (promptInput (dom w))]
        /\ calls (run_task sendPrompt w)
           = calls w ++ [api_sendPrompt (trim (promptInput (dom w)))]).
Proof.
  intros Hreach.
  destruct (reachable_upload_guarded w Hreach) as (_ & H2 & H3).
  split; [|split; [exact H3|split; [|split]]].
  - destruct (isProcessing (this w)).
    + destruct (H2 eq_refl) as [_ Hlen]. lia.
    + rewrite (H3 eq_refl). cbn. lia.
  - intros Hp n. apply run_repeat_fixed. cbn [step]. unfold run_task, task.
    rewrite (toggleRecording_processing w Hp). reflexivity.
  - intros s Hs. rewrite react_toggleRecording, Hs. reflexivity.
  - intros Hne. unfold run_task, task. rewrite (sendPrompt_nonblank w Hne).
    split; reflexivity.
Qed.

(** ** The microphone *)

(** A stream whose tracks were all stopped holds nothing. *)
Lemma held_all_ended (s : MediaStream) : held (map (fun _ => Ended) s) = false.
Proof. induction s as [|t s IH]; cbn; [reflexivity | exact IH]. Qed.

Lemma device_held_app (l1 l2 : list MediaStream) :
  existsb held (l1 ++ l2) = existsb held l1 || existsb held l2.
Proof. apply existsb_app. Qed.

(** The path that does release: [stopRecording] on a recorder that is not
    inactive ends every track of the recorder's stream. *)
Lemma stopRecording_releases (w : World) (r : nat) (rec : MediaRecorder) (s : MediaStream) :
  mediaRecorder (this w) = Some r ->
  recorders (host w) !! r = Some rec ->
  state rec <> Inactive ->
  streams (host w) !! stream rec = Some s ->
  streams (host (run_task stopRecording w)) !! stream rec
  = Some (map (fun _ => Ended) s)
  /\ isRecording (this (run_task stopRecording w)) = false.
Proof.
  intros Hmr Hrec Hst Hs. destruct w as [th d h c].
  cbn [this host mediaRecorder] in Hmr, Hrec, Hs.
  unfold stopRecording, MediaRecorder_stop, stop_tracks. monad.
  cbn beta iota delta [this host mediaRecorder]. rewrite Hmr.
  cbn beta iota delta [this host mediaRecorder]. rewrite Hrec.
  destruct rec as [[] sid]; cbn [state stream] in Hst, Hs; [congruence| |].
  all: cbn beta iota delta [with_host with_this with_dom host this streams
         set_streams set_stopTasks set_recorders isRecording set_isRecording
         state stream].
  all: split; [|reflexivity].
  all: unfold MediaStream in *; rewrite list_lookup_alter_eq, Hs; reflexivity.
Qed.

(** The path that does not: when an operation of [startRecording] throws
    after the grant, the [catch] block logs and alerts, and the stream that
    was granted keeps its live track while [isRecording] stays as it was. *)
Lemma startRecording_granted_throws (g : Grant) (w : World) :
  (exists op, throws g op <> None) ->
  let w' := run_task (startRecording_granted g) w in
  streams (host w') = streams (host w) ++ [[Live]]
  /\ isRecording (this w') = isRecording (this w)
  /\ isProcessing (this w') = isProcessing (this w)
  /\ device_held w' = true.
Proof.
  intros [op Hop]. cbv zeta.
  assert (H : streams (host (run_task (startRecording_granted g) w))
              = streams (host w) ++ [[Live]]
              /\ isRecording (this (run_task (startRecording_granted g) w))
                 = isRecording (this w)
              /\ isProcessing (this (run_task (startRecording_granted g) w))
                 = isProcessing (this w)).
  { destruct w as [th d h c].
    unfold startRecording_granted, startRecording_catch, new_MediaStream,
      new_AudioContext, createMediaStreamSource, new_MediaRecorder,
      MediaRecorder_start, startVisualization, updateVisualization, host_op.
    monad. cbn.
    destruct (throws g NewAudioContext) eqn:H1; cbn; [repeat split; reflexivity|].
    destruct (throws g CreateMediaStreamSource) eqn:H2; cbn; [repeat split; reflexivity|].
    destruct (throws g NewMediaRecorder) eqn:H3; cbn; [repeat split; reflexivity|].
    destruct (throws g RecorderStart) eqn:H4; cbn; [repeat split; reflexivity|].
    destruct op; congruence. }
  destruct H as (Hs & Hr & Hp). repeat split; try assumption.
  unfold device_held. rewrite Hs, device_held_app. cbn. apply orb_true_r.
Qed.

Lemma orphaned_devices (s : nat) (w w' : World) :
  devices w' = devices w -> orphaned s w -> orphaned s w'.
Proof.
  unfold devices, orphaned. intros [= -> ->]. tauto.
Qed.

Lemma orphaned_device_held (s : nat) (w : World) :
  orphaned s w -> device_held w = true.
Proof.
  intros [(tracks & Hs & Hheld) _]. unfold device_held.
  apply existsb_exists. exists tracks. split; [|exact Hheld].
  apply list_elem_of_In. eapply list_elem_of_lookup_2. exact Hs.
Qed.

Lemma stopRecording_orphaned (s : nat) (w : World) :
  orphaned s w -> orphaned s (run_task stopRecording w).
Proof.
  intros Horph. destruct w as [th d h c].
  unfold stopRecording, MediaRecorder_stop, stop_tracks. monad. cbn.
  destruct (mediaRecorder th) as [r|]; cbn; [|exact Horph].
  destruct (recorders h !! r) as [[st sid]|] eqn:Hr; cbn; [|exact Horph].
  assert (Hstopped :
    st <> Inactive ->
    orphaned s
      {| this := set_isRecording false th;
         dom := set_voiceButton_text (lit "Processing...")
                  (set_voiceButton_processing true
                     (set_voiceButton_recording false d));
         host := set_streams (alter (map (fun _ => Ended)) sid (streams h))
                   (set_stopTasks (stopTasks h ++ [r])
                      (set_recorders (alter (set_state Inactive) r (recorders h)) h));
         calls := c |}).
  { intros Hst. destruct Horph as [(tracks & Hs & Hheld) Hrec]. cbn in Hs, Hrec.
    assert (Hne : sid <> s).
    { intros ->. apply Hst. exact (Hrec r _ Hr eq_refl). }
    split; cbn.
    - exists tracks. split; [|exact Hheld].
      unfold MediaStream in *. rewrite list_lookup_alter_ne by exact Hne. exact Hs.
    - intros r' rec'. rewrite list_lookup_alter.
      destruct (decide (r = r')) as [<-|Hrr].
      + rewrite Hr. cbn. intros [= <-]. reflexivity.
      + apply Hrec. }
  destruct st; [exact Horph | apply Hstopped; discriminate..].
Qed.

Lemma alter_snoc {A} (f : A -> A) (l : list A) (x : A) :
  alter f (length l) (l ++ [x]) = l ++ [f x].
Proof.
  rewrite (alter_app_r_alt f l [x] (length l)) by lia.
  rewrite Nat.sub_diag. reflexivity.
Qed.

Lemma startRecording_granted_orphaned (s : nat) (g : Grant) (w : World) :
  orphaned s w -> orphaned s (run_task (startRecording_granted g) w).
Proof.
  intros [(tracks & Hs & Hheld) Hrec]. destruct w as [th d h c]. cbn in Hs, Hrec.
  pose proof (lookup_lt_Some _ _ _ Hs) as Hlt.
  assert (Hs' : (streams h ++ [[Live]]) !! s = Some tracks).
  { unfold MediaStream in *. rewrite lookup_app_l by exact Hlt. exact Hs. }
  assert (Hnew : forall st r rec,
             (recorders h ++ [{| state := st; stream := length (streams h) |}]) !! r
             = Some rec -> stream rec = s -> state rec = Inactive).
  { intros st r rec Hl He. apply lookup_snoc_Some in Hl as [[_ Hl] | [_ <-]].
    - exact (Hrec r rec Hl He).
    - cbn in He. lia. }
  unfold startRecording_granted, startRecording_catch, new_MediaStream,
    new_AudioContext, createMediaStreamSource, new_MediaRecorder,
    MediaRecorder_start, startVisualization, updateVisualization, host_op.
  monad. cbn.
  destruct (throws g NewAudioContext); cbn;
    [split; cbn; [exists tracks; auto | exact Hrec]|].
  destruct (throws g CreateMediaStreamSource); cbn;
    [split; cbn; [exists tracks; auto | exact Hrec]|].
  destruct (throws g NewMediaRecorder); cbn;
    [split; cbn; [exists tracks; auto | exact Hrec]|].
  destruct (throws g RecorderStart); cbn.
  - split; cbn; [exists tracks; auto | apply Hnew].
  - split; cbn; [exists tracks; auto |].
    rewrite alter_snoc. cbn. apply Hnew.
Qed.

Lemma orphaned_step (s : nat) (e : Event) (w w' : World) :
  orphaned s w -> step e w = Some w' -> orphaned s w'.
Proof.
  intros Horph Hstep. destruct e; cbn [step] in Hstep.
  - injection Hstep as <-.
    destruct (isProcessing (this w)) eqn:Hp.
    { unfold run_task, task. rewrite (toggleRecording_processing w Hp). exact Horph. }
    destruct (isRecording (this w)) eqn:Hr.
    + replace (run_task toggleRecording w) with (run_task stopRecording w).
      * apply stopRecording_orphaned, Horph.
      * unfold run_task, task. rewrite (toggleRecording_recording w Hp Hr). reflexivity.
    + unfold run_task, task. rewrite (toggleRecording_idle w Hp Hr).
      refine (orphaned_devices s w _ _ Horph). destruct w as [th d h c]. reflexivity.
  - destruct (gumPending (host w)); [discriminate|]. injection Hstep as <-.
    apply startRecording_granted_orphaned, Horph.
  - destruct (gumPending (host w)); [discriminate|]. injection Hstep as <-.
    refine (orphaned_devices s w _ _ Horph). destruct w as [th d h c]. reflexivity.
  - destruct (stopTasks (host w) !! k); [|discriminate]. injection Hstep as <-.
    refine (orphaned_devices s w _ _ Horph). destruct w as [th d h c]. reflexivity.
  - destruct (uploads (host w) !! k); [|discriminate]. injection Hstep as <-.
    refine (orphaned_devices s w _ _ Horph).
    destruct (processAudio_settled_view r t1 t2
      (with_host (fun h => set_uploads (delete k (uploads h)) h) w)) as [_ E].
    unfold devices. rewrite E. destruct w as [th d h c]. reflexivity.
  - injection Hstep as <-.
    refine (orphaned_devices s w _ _ Horph).
    destruct w as [th d h c]. unfold sendPrompt. monad. cbn.
    destruct (negb (negb (length (trim (promptInput d)) =? 0))); reflexivity.
  - destruct (prompts (host w) !! k) as [p|]; [|discriminate]. injection Hstep as <-.
    refine (orphaned_devices s w _ _ Horph).
    destruct w as [th d h c].
    destruct r as [v|e]; unfold sendPrompt_settled, addActivityItem; monad.
    + destruct v; cbn; try reflexivity.
      destruct (ToBoolean (lookup_prop (lit "error") props)); reflexivity.
    + destruct e; reflexivity.
  - injection Hstep as <-. refine (orphaned_devices s w _ _ Horph).
    destruct w as [th d h c]. reflexivity.
Qed.

Lemma orphaned_run (s : nat) (es : list Event) (w w' : World) :
  orphaned s w -> run es w = Some w' -> orphaned s w'.
Proof.
  revert w. induction es as [|e es IH]; intros w Horph; cbn.
  - intros [= <-]. exact Horph.
  - destruct (step e w) as [w1|] eqn:Hstep; [|discriminate].
    apply IH. exact (orphaned_step s e w w1 Horph Hstep).
Qed.

(** C2, on the code.  The user clicks the voice button, the microphone is
    granted and [new MediaRecorder(stream)] throws.  The [catch] block of
    [startRecording] logs the error and shows the alert; nothing stops the
    track of the granted stream.  The session is idle and not recording, no
    recorder exists, and the microphone is held; it stays held whatever
    happens afterwards, since [stopRecording] finds no recorder to stop. *)
Theorem startRecording_error_keeps_microphone :
  exists w,
    run [click_voiceButton; getUserMedia_fulfilled grant_recorder_unsupported] init
    = Some w
    /\ status w = Idle
    /\ isRecording (this w) = false
    /\ mediaRecorder (this w) = None
    /\ streams (host w) = [[Live]]
    /\ device_held w = true
    /\ calls w
       = [getUserMedia;
          console_error (lit "Error starting recording:")
            (Error (lit "NotSupportedError"));
          alert (lit "Could not access microphone. Please check permissions.")]
    /\ forall es w', run es w = Some w' -> device_held w' = true.
Proof.
  eexists. split; [vm_compute; reflexivity|].
  do 6 (split; [vm_compute; reflexivity|]).
  intros es w' Hrun. apply (orphaned_device_held 0).
  refine (orphaned_run 0 es _ w' _ Hrun).
  split.
  - exists [Live]. split; reflexivity.
  - intros r rec Hr. vm_compute in Hr. destruct r; discriminate.
Qed.

(** The same leak when [recorder.start()] throws: the recorder exists but is
    inactive, so [stopRecording] returns at once. *)
Lemma startRecording_start_refused_keeps_microphone :
  exists w,
    run [click_voiceButton; getUserMedia_fulfilled grant_start_refused] init
    = Some w
    /\ isRecording (this w) = false
    /\ mediaRecorder (this w) = Some 0
    /\ recorders (host w) = [{| state := Inactive; stream := 0 |}]
    /\ forall es w', run es w = Some w' -> device_held w' = true.
Proof.
  eexists. split; [vm_compute; reflexivity|].
  do 3 (split; [vm_compute; reflexivity|]).
  intros es w' Hrun. apply (orphaned_device_held 0).
  refine (orphaned_run 0 es _ w' _ Hrun).
  split.
  - exists [Live]. split; reflexivity.
  - intros r rec Hr. vm_compute in Hr.
    destruct r as [|[|r]]; [|discriminate..].
    injection Hr as <-. reflexivity.
Qed.

(** A second click while the first [getUserMedia] is still pending starts a
    second capture: nothing guards the time between the click and the grant.
    Both recorders capture, the later one is [this.mediaRecorder], and the
    stop gesture stops only that one. *)
Lemma second_click_before_grant_starts_second_capture :
  exists w,
    run_in_order [click_voiceButton; click_voiceButton;
                  getUserMedia_fulfilled grant_ok;
                  getUserMedia_fulfilled grant_ok] init = Some w
    /\ capturing w = 2
    /\ streams (host w) = [[Live]; [Live]]
    /\ mediaRecorder (this w) = Some 1
    /\ exists w2,
         step click_voiceButton w = Some w2
         /\ isRecording (this w2) = false
         /\ capturing w2 = 1
         /\ streams (host w2) = [[Live]; [Ended]].
Proof.
  eexists. split; [vm_compute; reflexivity|].
  do 3 (split; [vm_compute; reflexivity|]).
  eexists. split; [vm_compute; reflexivity|].
  vm_compute. repeat split; reflexivity.
Qed.

(** * Further properties of the session and of the other handlers *)

(** Unfolding every handler of the renderer. *)
Ltac handlers :=
  unfold toggleRecording, startRecording, stopRecording, MediaRecorder_stop,
    stop_tracks, startRecording_granted, startRecording_denied,
    startRecording_catch, new_MediaStream, new_AudioContext,
    createMediaStreamSource, new_MediaRecorder, MediaRecorder_start,
    startVisualization, updateVisualization, host_op, ondataavailable, onstop,
    processAudio, sendPrompt, sendPrompt_settled, addActivityItem;
  monad.

(** ** Stopping and starting a capture *)

(** X1. [stopRecording] on a recorder that is not inactive: the recorder
    becomes inactive, every track of the stream it records is ended (so that
    stream no longer holds the microphone) while every other stream is left
    alone, the recorder's stop task is queued, [isRecording] is cleared and
    the button goes from [recording] to [processing] with the text
    "Processing...".  No upload is started yet and no call is made. *)
Theorem stopRecording_releases_microphone
    (w : World) (r : nat) (rec : MediaRecorder) (tracks : MediaStream) :
  mediaRecorder (this w) = Some r ->
  recorders (host w) !! r = Some rec ->
  state rec <> Inactive ->
  streams (host w) !! stream rec = Some tracks ->
  let w' := run_task stopRecording w in
  isRecording (this w') = false
  /\ recorders (host w') !! r = Some (set_state Inactive rec)
  /\ (exists tracks', streams (host w') !! stream rec = Some tracks'
                      /\ length tracks' = length tracks /\ held tracks' = false)
  /\ (forall s, s <> stream rec -> streams (host w') !! s = streams (host w) !! s)
  /\ stopTasks (host w') = stopTasks (host w) ++ [r]
  /\ voiceButton_recording (dom w') = false
  /\ voiceButton_processing (dom w') = true
  /\ voiceButton_text (dom w') = lit "Processing..."
  /\ isProcessing (this w') = isProcessing (this w)
  /\ uploads (host w') = uploads (host w)
  /\ calls w' = calls w.
Proof.
  intros Hmr Hrec Hst Hs. cbv zeta. destruct w as [th d h c].
  cbn [this host mediaRecorder] in Hmr, Hrec, Hs.
  unfold stopRecording, MediaRecorder_stop, stop_tracks. monad.
  cbn beta iota delta [this host mediaRecorder]. rewrite Hmr.
  cbn beta iota delta [this host mediaRecorder]. rewrite Hrec.
  destruct rec as [st sid]. cbn [state stream] in Hst, Hs |- *.
  destruct st; [congruence| |]; cbn.
  all: unfold MediaStream in *.
  all: rewrite list_lookup_alter_eq, Hrec, list_lookup_alter_eq, Hs; cbn.
  all: repeat split; try reflexivity.
  all: try (eexists; split; [reflexivity|]; split; [apply length_map | apply held_all_ended]).
  all: intros s Hne; apply list_lookup_alter_ne; congruence.
Qed.

(** X2. A click on the voice button of an idle page whose request for the
    microphone is then rejected: the object, the page and the host are
    exactly as before the click.  All that happened is the request, the
    error on the console and the alert about permissions. *)
Theorem denied_start_leaves_page_as_it_was (w : World) (error : value) :
  status w = Idle ->
  exists w',
    run [click_voiceButton; getUserMedia_rejected error] w = Some w'
    /\ this w' = this w /\ dom w' = dom w /\ host w' = host w
    /\ calls w'
       = calls w
         ++ [getUserMedia;
             console_error (lit "Error starting recording:") error;
             alert (lit "Could not access microphone. Please check permissions.")].
Proof.
  unfold status. intros Hidle.
  destruct (isProcessing (this w)) eqn:Hp; [discriminate|].
  destruct (isRecording (this w)) eqn:Hr; [discriminate|].
  cbn [run step].
  assert (E : run_task toggleRecording w = run_task startRecording w).
  { unfold run_task, task. rewrite (toggleRecording_idle w Hp Hr). reflexivity. }
  rewrite E. clear E Hp Hr.
  destruct w as [th d [ss rs cx gp st up pr] c].
  eexists. split; [reflexivity|]. cbn.
  repeat split. rewrite <- !app_assoc. reflexivity.
Qed.

Lemma World_ext (w1 w2 : World) :
  this w1 = this w2 -> dom w1 = dom w2 -> host w1 = host w2 ->
  calls w1 = calls w2 -> w1 = w2.
Proof. destruct w1, w2. cbn. congruence. Qed.

Lemma startRecording_granted_no_throw (g : Grant) (w : World) :
  no_throw g ->
  run_task (startRecording_granted g) w
  = with_dom (fun d =>
      set_visualizer
        (imap (fun i (_ : Bar) => Some (getByteFrequencyData g (bin i 20)))
           (repeat (None : Bar) 20))
        (set_visualizer_display DisplayFlex
           (set_voiceButton_text (lit "Listening...")
              (set_voiceButton_recording true d))))
      (with_this (fun v =>
         set_isRecording true
           (set_audioChunks []
              (set_mediaRecorder (Some (length (recorders (host w))))
                 (set_audioContext (Some (contexts (host w))) v))))
         (with_host (fun h =>
            set_recorders
              (recorders h ++ [{| state := Capturing; stream := length (streams h) |}])
              (set_contexts (S (contexts h))
                 (set_streams (streams h ++ [[Live]])
                    (set_gumPending (pred (gumPending h)) h)))) w)).
Proof.
  intros Hg. destruct w as [th d h c].
  unfold startRecording_granted, startRecording_catch, new_MediaStream,
    new_AudioContext, createMediaStreamSource, new_MediaRecorder,
    MediaRecorder_start, startVisualization, updateVisualization, host_op.
  monad. cbn -[imap repeat alter].
  rewrite !Hg. apply World_ext; cbn -[imap repeat alter Nat.div bin].
  - reflexivity.
  - reflexivity.
  - rewrite alter_snoc. reflexivity.
  - reflexivity.
Qed.

Lemma bin_in_range (i n : nat) : i < n -> bin i n < bufferLength.
Proof.
  intros H. unfold bin. apply Nat.Div0.div_lt_upper_bound.
  unfold bufferLength. nia.
Qed.

(** X3. A grant after which nothing throws: [startRecording] creates one
    stream with a live track and one recorder that captures it, makes that
    recorder [this.mediaRecorder], empties the chunk list and sets
    [isRecording].  The button gets the class [recording] and the text
    "Listening...", the visualizer is shown with 20 bars, and bar [i] shows
    the analyser's bin [floor(i * 128 / 20)], which is always one of its 128
    bins.  [isProcessing] is untouched and no call is made. *)
Theorem granted_start_begins_capture (g : Grant) (w : World) :
  no_throw g ->
  let w' := run_task (startRecording_granted g) w in
  isRecording (this w') = true
  /\ mediaRecorder (this w') = Some (length (recorders (host w)))
  /\ recorders (host w')
     = recorders (host w)
       ++ [{| state := Capturing; stream := length (streams (host w)) |}]
  /\ streams (host w') = streams (host w) ++ [[Live]]
  /\ audioChunks (this w') = []
  /\ capturing w' = S (capturing w)
  /\ voiceButton_recording (dom w') = true
  /\ voiceButton_text (dom w') = lit "Listening..."
  /\ visualizer_display (dom w') = DisplayFlex
  /\ length (visualizer (dom w')) = 20
  /\ (forall i, i < 20 ->
        visualizer (dom w') !! i = Some (Some (getByteFrequencyData g (bin i 20)))
        /\ bin i 20 < bufferLength)
  /\ isProcessing (this w') = isProcessing (this w)
  /\ calls w' = calls w.
Proof.
  intros Hg. cbv zeta. rewrite (startRecording_granted_no_throw g w Hg).
  destruct w as [th d h c].
  cbn -[imap repeat bin capturing].
  do 5 (split; [reflexivity|]).
  split.
  { unfold capturing. cbn. rewrite List.filter_app, length_app. cbn. lia. }
  do 3 (split; [reflexivity|]).
  split.
  { rewrite length_imap, repeat_length. reflexivity. }
  split; [|split; reflexivity].
  intros i Hi. split; [|apply bin_in_range; exact Hi].
  rewrite list_lookup_imap.
  change (repeat None 20) with (replicate 20 (None : Bar)).
  rewrite (lookup_replicate_2 20 (None : Bar) i Hi). reflexivity.
Qed.

(** ** A throw after the grant *)

Lemma devices_ok_init : devices_ok init.
Proof.
  split; [|split]; intros r; intros; destruct r; discriminate.
Qed.

(** What a throw after the grant leaves of the devices. *)
Lemma startRecording_granted_throws_devices (g : Grant) (w : World) :
  (exists op, throws g op <> None) ->
  let w' := run_task (startRecording_granted g) w in
  streams (host w') = streams (host w) ++ [[Live]]
  /\ (recorders (host w') = recorders (host w)
      \/ recorders (host w')
         = recorders (host w)
           ++ [{| state := Inactive; stream := length (streams (host w)) |}])
  /\ dom w' = dom w
  /\ exists error,
       calls w'
       = calls w
         ++ [console_error (lit "Error starting recording:") error;
             alert (lit "Could not access microphone. Please check permissions.")].
Proof.
  intros [op Hop]. cbv zeta. destruct w as [th d h c].
  unfold startRecording_granted, startRecording_catch, new_MediaStream,
    new_AudioContext, createMediaStreamSource, new_MediaRecorder,
    MediaRecorder_start, startVisualization, updateVisualization, host_op.
  monad. cbn.
  destruct (throws g NewAudioContext) as [e|] eqn:H1; cbn.
  { split; [reflexivity|]. split; [left; reflexivity|]. split; [reflexivity|].
    exists e. rewrite <- app_assoc. reflexivity. }
  destruct (throws g CreateMediaStreamSource) as [e|] eqn:H2; cbn.
  { split; [reflexivity|]. split; [left; reflexivity|]. split; [reflexivity|].
    exists e. rewrite <- app_assoc. reflexivity. }
  destruct (throws g NewMediaRecorder) as [e|] eqn:H3; cbn.
  { split; [reflexivity|]. split; [left; reflexivity|]. split; [reflexivity|].
    exists e. rewrite <- app_assoc. reflexivity. }
  destruct (throws g RecorderStart) as [e|] eqn:H4; cbn.
  { split; [reflexivity|]. split; [right; reflexivity|]. split; [reflexivity|].
    exists e. rewrite <- app_assoc. reflexivity. }
  destruct op; congruence.
Qed.

(** X4. Whichever operation of [startRecording] throws once the microphone
    is granted (the audio context, the stream source, the recorder or its
    start), the stream that was granted keeps its live track after every
    later sequence of events: nothing the page can do releases it.  The page
    itself looks as before the grant, with the error on the console and the
    alert. *)
Theorem throw_after_grant_holds_microphone_for_good
    (g : Grant) (w : World) (es : list Event) (w' : World) :
  devices_ok w ->
  (exists op, throws g op <> None) ->
  run es (run_task (startRecording_granted g) w) = Some w' ->
  device_held w' = true
  /\ (exists tracks,
        streams (host w') !! length (streams (host w)) = Some tracks
        /\ held tracks = true)
  /\ dom (run_task (startRecording_granted g) w) = dom w
  /\ isRecording (this (run_task (startRecording_granted g) w))
     = isRecording (this w)
  /\ exists error,
       calls (run_task (startRecording_granted g) w)
       = calls w
         ++ [console_error (lit "Error starting recording:") error;
             alert (lit "Could not access microphone. Please check permissions.")].
Proof.
  intros [Hwf _] Hthrow Hrun.
  destruct (startRecording_granted_throws_devices g w Hthrow) as (Hs & Hr & Hd & Hc).
  destruct (startRecording_granted_throws g w Hthrow) as (_ & Hrec & _ & _).
  cbv zeta in *.
  assert (Horph : orphaned (length (streams (host w)))
                    (run_task (startRecording_granted g) w)).
  { split.
    - exists [Live]. rewrite Hs. split; [|reflexivity].
      unfold MediaStream. rewrite lookup_app_r by lia.
      rewrite Nat.sub_diag. reflexivity.
    - intros r rec Hl He. destruct Hr as [Hr | Hr]; rewrite Hr in Hl.
      + apply Hwf in Hl. lia.
      + apply lookup_snoc_Some in Hl as [[_ Hl] | [_ <-]].
        * apply Hwf in Hl. lia.
        * reflexivity. }
  pose proof (orphaned_run _ es _ w' Horph Hrun) as Horph'.
  split; [exact (orphaned_device_held _ _ Horph')|].
  split; [exact (proj1 Horph')|].
  split; [exact Hd|]. split; [exact Hrec | exact Hc].
Qed.

(** ** Streams and recorders over the event loop *)

(** What one event can do to the streams, the recorders and
    [this.mediaRecorder]: nothing, stop the current recorder and the tracks
    of its stream, or add a live stream and at most one recorder on it. *)
Lemma step_devices (e : Event) (w w' : World) :
  step e w = Some w' ->
  (devices w' = devices w /\ mediaRecorder (this w') = mediaRecorder (this w))
  \/ (exists r rec,
        mediaRecorder (this w) = Some r
        /\ recorders (host w) !! r = Some rec
        /\ state rec <> Inactive
        /\ recorders (host w') = alter (set_state Inactive) r (recorders (host w))
        /\ streams (host w')
           = alter (map (fun _ => Ended)) (stream rec) (streams (host w))
        /\ mediaRecorder (this w') = Some r)
  \/ (streams (host w') = streams (host w) ++ [[Live]]
      /\ ((recorders (host w') = recorders (host w)
           /\ mediaRecorder (this w') = mediaRecorder (this w))
          \/ exists st,
               recorders (host w')
               = recorders (host w)
                 ++ [{| state := st; stream := length (streams (host w)) |}]
               /\ mediaRecorder (this w') = Some (length (recorders (host w))))).
Proof.
  intros Hstep. destruct e; cbn [step] in Hstep.
  - injection Hstep as <-.
    destruct (isProcessing (this w)) eqn:Hp.
    { left. unfold run_task, task. rewrite (toggleRecording_processing w Hp).
      split; reflexivity. }
    destruct (isRecording (this w)) eqn:Hr.
    + replace (run_task toggleRecording w) with (run_task stopRecording w)
        by (unfold run_task, task; rewrite (toggleRecording_recording w Hp Hr);
            reflexivity).
      clear Hp Hr. destruct w as [th d h c].
      unfold stopRecording, MediaRecorder_stop, stop_tracks. monad. cbn.
      destruct (mediaRecorder th) as [r|] eqn:Hmr; cbn;
        [|left; split; [reflexivity | cbn; congruence]].
      destruct (recorders h !! r) as [[st sid]|] eqn:Hrec; cbn;
        [|left; split; [reflexivity | cbn; congruence]].
      destruct st; cbn; [left; split; [reflexivity | cbn; congruence] | |].
      all: right; left; exists r; eexists; split; [reflexivity|].
      all: split; [exact Hrec|].
      all: cbn; split; [discriminate|].
      all: split; [reflexivity|]; split; [reflexivity | exact Hmr].
    + left. unfold run_task, task. rewrite (toggleRecording_idle w Hp Hr).
      destruct w as [th d h c]. split; reflexivity.
  - destruct (gumPending (host w)); [discriminate|]. injection Hstep as <-.
    right. right. destruct w as [th d h c].
    unfold startRecording_granted, startRecording_catch, new_MediaStream,
      new_AudioContext, createMediaStreamSource, new_MediaRecorder,
      MediaRecorder_start, startVisualization, updateVisualization, host_op.
    monad. cbn.
    destruct (throws g NewAudioContext); cbn;
      [split; [reflexivity | left; split; reflexivity]|].
    destruct (throws g CreateMediaStreamSource); cbn;
      [split; [reflexivity | left; split; reflexivity]|].
    destruct (throws g NewMediaRecorder); cbn;
      [split; [reflexivity | left; split; reflexivity]|].
    destruct (throws g RecorderStart); cbn.
    + split; [reflexivity | right; eexists; split; reflexivity].
    + split; [reflexivity | right]. rewrite alter_snoc. eexists. split; reflexivity.
  - destruct (gumPending (host w)); [discriminate|]. injection Hstep as <-.
    left. destruct w as [th d h c]. split; reflexivity.
  - destruct (stopTasks (host w) !! k); [|discriminate]. injection Hstep as <-.
    left. destruct w as [th d h c]. split; reflexivity.
  - destruct (uploads (host w) !! k); [|discriminate]. injection Hstep as <-.
    left.
    destruct (processAudio_settled_resets r t1 t2
      (with_host (fun h => set_uploads (delete k (uploads h)) h) w))
      as (w1 & Hthis & Hhost & [E | [e E]]);
      rewrite E; unfold devices; cbn; rewrite Hhost, Hthis;
      destruct w as [th d h c]; split; reflexivity.
  - injection Hstep as <-. left.
    destruct w as [th d h c]. unfold sendPrompt. monad. cbn.
    destruct (negb (negb (length (trim (promptInput d)) =? 0))); split; reflexivity.
  - destruct (prompts (host w) !! k) as [p|]; [|discriminate]. injection Hstep as <-.
    left. destruct w as [th d h c].
    destruct r as [v|e]; unfold sendPrompt_settled, addActivityItem; monad.
    + destruct v; cbn; try (split; reflexivity).
      destruct (ToBoolean (lookup_prop (lit "error") props)); split; reflexivity.
    + destruct e; split; reflexivity.
  - injection Hstep as <-. left. destruct w as [th d h c]. split; reflexivity.
Qed.

Lemma devices_ok_step (e : Event) (w w' : World) :
  devices_ok w -> step e w = Some w' -> devices_ok w'.
Proof.
  intros (Ha & Hb & Hc) Hstep.
  destruct (step_devices e w w' Hstep)
    as [[Hd _] | [(r0 & rec0 & Hmr & Hr0 & Hst & Hrs & Hss & _) | (Hss & Hrs)]].
  - unfold devices in Hd. injection Hd as Hs Hr. unfold devices_ok.
    rewrite Hs, Hr. auto.
  - assert (Hlk : forall r rec, recorders (host w') !! r = Some rec ->
                    exists rec1, recorders (host w) !! r = Some rec1
                                 /\ stream rec = stream rec1
                                 /\ (r <> r0 -> rec = rec1)
                                 /\ (r = r0 -> state rec = Inactive)).
    { intros r rec. rewrite Hrs, list_lookup_alter.
      destruct (decide (r0 = r)) as [<-|Hne].
      - rewrite Hr0. cbn. intros [= <-]. exists rec0. repeat split. congruence.
      - intros Hl. exists rec. repeat split; congruence. }
    split; [|split].
    + intros r rec Hl. destruct (Hlk r rec Hl) as (rec1 & Hl1 & Hs1 & _).
      rewrite Hss, length_alter, Hs1. exact (Ha r rec1 Hl1).
    + intros r1 r2 rec1 rec2 Hl1 Hl2 He.
      destruct (Hlk r1 rec1 Hl1) as (a & Ha1 & Hs1 & _).
      destruct (Hlk r2 rec2 Hl2) as (b & Hb1 & Hs2 & _).
      apply (Hb r1 r2 a b Ha1 Hb1). congruence.
    + intros r rec Hl Hact.
      destruct (Hlk r rec Hl) as (rec1 & Hl1 & Hs1 & Hsame & Hstop).
      destruct (decide (r = r0)) as [->|Hne]; [elim Hact; auto|].
      rewrite (Hsame Hne) in *.
      destruct (Hc r rec1 Hl1 Hact) as (tracks & Ht & Hheld).
      exists tracks. split; [|exact Hheld].
      rewrite Hss. unfold MediaStream in *.
      rewrite list_lookup_alter_ne; [exact Ht|].
      intros He. apply Hne. exact (Hb r r0 rec1 rec0 Hl1 Hr0 (eq_sym He)).
  - assert (Hold : forall r rec, recorders (host w) !! r = Some rec ->
                     stream rec < length (streams (host w))
                     /\ (state rec <> Inactive ->
                         exists tracks,
                           (streams (host w) ++ [[Live]]) !! stream rec = Some tracks
                           /\ held tracks = true)).
    { intros r rec Hl. split; [exact (Ha r rec Hl)|]. intros Hact.
      destruct (Hc r rec Hl Hact) as (tracks & Ht & Hheld).
      exists tracks. split; [|exact Hheld].
      unfold MediaStream in *. rewrite lookup_app_l; [exact Ht|].
      exact (Ha r rec Hl). }
    destruct Hrs as [[Hrs _] | (st & Hrs & _)].
    + unfold devices_ok. rewrite Hss, Hrs, length_app. cbn.
      split; [|split; [exact Hb|]].
      * intros r rec Hl. pose proof (proj1 (Hold r rec Hl)). lia.
      * intros r rec Hl. exact (proj2 (Hold r rec Hl)).
    + assert (Hlk : forall r rec, recorders (host w') !! r = Some rec ->
                      recorders (host w) !! r = Some rec
                      \/ (r = length (recorders (host w))
                          /\ rec = {| state := st;
                                      stream := length (streams (host w)) |})).
      { intros r rec. rewrite Hrs. intros Hl.
        apply lookup_snoc_Some in Hl as [[_ Hl] | [-> <-]]; auto. }
      split; [|split].
      * intros r rec Hl. rewrite Hss, length_app. cbn.
        destruct (Hlk r rec Hl) as [Hl1 | [_ ->]].
        -- pose proof (proj1 (Hold r rec Hl1)). lia.
        -- cbn. lia.
      * intros r1 r2 rec1 rec2 Hl1 Hl2 He.
        destruct (Hlk r1 rec1 Hl1) as [H1 | [-> ->]];
          destruct (Hlk r2 rec2 Hl2) as [H2 | [-> ->]].
        -- exact (Hb r1 r2 rec1 rec2 H1 H2 He).
        -- pose proof (proj1 (Hold r1 rec1 H1)). cbn in He. lia.
        -- pose proof (proj1 (Hold r2 rec2 H2)). cbn in He. lia.
        -- reflexivity.
      * intros r rec Hl Hact. rewrite Hss.
        destruct (Hlk r rec Hl) as [Hl1 | [_ ->]].
        -- exact (proj2 (Hold r rec Hl1) Hact).
        -- exists [Live]. split; [|reflexivity]. cbn.
           unfold MediaStream. rewrite lookup_app_r by lia.
           rewrite Nat.sub_diag. reflexivity.
Qed.

Lemma devices_ok_run (es : list Event) (w w' : World) :
  devices_ok w -> run es w = Some w' -> devices_ok w'.
Proof.
  revert w. induction es as [|e es IH]; intros w Hok; cbn.
  - intros [= <-]. exact Hok.
  - destruct (step e w) as [w1|] eqn:Hstep; [|discriminate].
    apply IH. exact (devices_ok_step e w w1 Hok Hstep).
Qed.

Lemma abandoned_step (r : nat) (e : Event) (w w' : World) :
  abandoned r w -> step e w = Some w' -> abandoned r w'.
Proof.
  intros [(rec & Hl & Hcap) Hne] Hstep.
  pose proof (lookup_lt_Some _ _ _ Hl) as Hlt.
  destruct (step_devices e w w' Hstep)
    as [[Hd Hm] | [(r0 & rec0 & Hmr & Hr0 & Hst & Hrs & Hss & Hm) | (Hss & Hrs)]].
  - unfold devices in Hd. injection Hd as _ Hr. unfold abandoned.
    rewrite Hr, Hm. eauto.
  - split.
    + exists rec. rewrite Hrs. split; [|exact Hcap].
      rewrite list_lookup_alter_ne; [exact Hl|]. congruence.
    + rewrite Hm. congruence.
  - destruct Hrs as [[Hrs Hm] | (st & Hrs & Hm)].
    + unfold abandoned. rewrite Hrs, Hm. eauto.
    + split.
      * exists rec. rewrite Hrs. split; [|exact Hcap].
        rewrite lookup_app_l by exact Hlt. exact Hl.
      * rewrite Hm. intros [= E]. lia.
Qed.

Lemma abandoned_run (r : nat) (es : list Event) (w w' : World) :
  abandoned r w -> run es w = Some w' -> abandoned r w'.
Proof.
  revert w. induction es as [|e es IH]; intros w Hab; cbn.
  - intros [= <-]. exact Hab.
  - destruct (step e w) as [w1|] eqn:Hstep; [|discriminate].
    apply IH. exact (abandoned_step r e w w1 Hab Hstep).
Qed.

(** X5. [startRecording] has no guard after its [await]: two clicks before
    the first grant give two requests, and when the second is granted during
    a capture, [this.mediaRecorder] is overwritten.  The recorder that was
    capturing is then out of reach: after every later sequence of events it
    is still capturing and its stream still holds the microphone. *)
Theorem grant_during_capture_abandons_recorder
    (es0 : list Event) (w : World) (r : nat) (rec : MediaRecorder)
    (g : Grant) (es : list Event) (w' : World) :
  run es0 init = Some w ->
  mediaRecorder (this w) = Some r ->
  recorders (host w) !! r = Some rec ->
  state rec = Capturing ->
  no_throw g ->
  run es (run_task (startRecording_granted g) w) = Some w' ->
  mediaRecorder (this w') <> Some r
  /\ (exists rec', recorders (host w') !! r = Some rec'
                   /\ state rec' = Capturing
                   /\ exists tracks, streams (host w') !! stream rec' = Some tracks
                                     /\ held tracks = true)
  /\ device_held w' = true
  /\ 1 <= capturing w'.
Proof.
  intros Hreach Hmr Hl Hcap Hg Hrun.
  pose proof (devices_ok_run es0 init w devices_ok_init Hreach) as Hok.
  pose proof (lookup_lt_Some _ _ _ Hl) as Hlt.
  set (w1 := run_task (startRecording_granted g) w) in *.
  assert (E1 : recorders (host w1)
               = recorders (host w)
                 ++ [{| state := Capturing; stream := length (streams (host w)) |}]
               /\ streams (host w1) = streams (host w) ++ [[Live]]
               /\ mediaRecorder (this w1) = Some (length (recorders (host w)))).
  { unfold w1. rewrite (startRecording_granted_no_throw g w Hg).
    destruct w as [th d h c]. repeat split. }
  destruct E1 as (Hr1 & Hs1 & Hm1).
  assert (Hab : abandoned r w1).
  { split.
    - exists rec. rewrite Hr1. split; [|exact Hcap].
      rewrite lookup_app_l by exact Hlt. exact Hl.
    - rewrite Hm1. intros [= E]. lia. }
  assert (Hok1 : devices_ok w1).
  { destruct Hok as (Ha & Hb & Hc).
    unfold devices_ok. rewrite Hr1, Hs1. split; [|split].
    - intros r1 rec1 Hl1. rewrite length_app. cbn.
      apply lookup_snoc_Some in Hl1 as [[_ Hl1] | [_ <-]].
      + pose proof (Ha r1 rec1 Hl1). lia.
      + cbn. lia.
    - intros r1 r2 rec1 rec2 Hl1 Hl2 He.
      apply lookup_snoc_Some in Hl1 as [[_ Hl1] | [-> <-]];
        apply lookup_snoc_Some in Hl2 as [[_ Hl2] | [-> <-]].
      + exact (Hb r1 r2 rec1 rec2 Hl1 Hl2 He).
      + pose proof (Ha r1 rec1 Hl1). cbn in He. lia.
      + pose proof (Ha r2 rec2 Hl2). cbn in He. lia.
      + reflexivity.
    - intros r1 rec1 Hl1 Hact.
      apply lookup_snoc_Some in Hl1 as [[_ Hl1] | [_ <-]].
      + destruct (Hc r1 rec1 Hl1 Hact) as (tracks & Ht & Hheld).
        exists tracks. split; [|exact Hheld].
        unfold MediaStream in *. rewrite lookup_app_l; [exact Ht|].
        exact (Ha r1 rec1 Hl1).
      + exists [Live]. split; [|reflexivity]. cbn.
        unfold MediaStream. rewrite lookup_app_r by lia.
        rewrite Nat.sub_diag. reflexivity. }
  destruct (abandoned_run r es w1 w' Hab Hrun) as [(rec' & Hl' & Hcap') Hne'].
  pose proof (devices_ok_run es w1 w' Hok1 Hrun) as (_ & _ & Hc').
  destruct (Hc' r rec' Hl') as (tracks & Ht & Hheld); [congruence|].
  split; [exact Hne'|]. split; [exists rec'; eauto|]. split.
  - unfold device_held. apply existsb_exists. exists tracks.
    split; [|exact Hheld]. apply list_elem_of_In.
    eapply list_elem_of_lookup_2. exact Ht.
  - unfold capturing.
    apply list_elem_of_lookup_2, list_elem_of_In in Hl'.
    assert (Hin : In rec' (List.filter is_capturing (recorders (host w')))).
    { apply filter_In. split; [exact Hl'|]. unfold is_capturing. rewrite Hcap'.
      reflexivity. }
    destruct (List.filter is_capturing (recorders (host w'))); [destruct Hin | cbn; lia].
Qed.

(** An abandoned recorder goes on capturing, and its stream keeps the
    microphone, whatever happens afterwards. *)
Lemma abandoned_holds_microphone (r : nat) (w : World) :
  devices_ok w -> abandoned r w ->
  forall es w', run es w = Some w' ->
    mediaRecorder (this w') <> Some r
    /\ (exists rec', recorders (host w') !! r = Some rec' /\ state rec' = Capturing)
    /\ 1 <= capturing w'
    /\ device_held w' = true.
Proof.
  intros Hok Hab es w' Hrun.
  destruct (abandoned_run r es w w' Hab Hrun) as [(rec' & Hl' & Hcap') Hne'].
  pose proof (devices_ok_run es w w' Hok Hrun) as (_ & _ & Hc').
  destruct (Hc' r rec' Hl') as (tracks & Ht & Hheld); [congruence|].
  split; [exact Hne'|]. split; [exists rec'; split; assumption|]. split.
  - unfold capturing.
    apply list_elem_of_lookup_2, list_elem_of_In in Hl'.
    assert (Hin : In rec' (List.filter is_capturing (recorders (host w')))).
    { apply filter_In. split; [exact Hl'|]. unfold is_capturing. rewrite Hcap'.
      reflexivity. }
    destruct (List.filter is_capturing (recorders (host w'))); [destruct Hin | cbn; lia].
  - unfold device_held. apply existsb_exists. exists tracks.
    split; [|exact Hheld]. apply list_elem_of_In.
    eapply list_elem_of_lookup_2. exact Ht.
Qed.

(** C1, on the code.  The guard of [toggleRecording] reads [isProcessing]
    and [isRecording], and neither is set between a click and the grant of
    the microphone, nor between the stop click and the recorder's stop task.
    So a start gesture is not rejected there, and two captures overlap:

    - two clicks before the grant give two requests, and after the two
      grants two recorders capture at once, each with a live stream, only
      the later one being [this.mediaRecorder]; the session reads as
      recording, and whatever happens afterwards the earlier recorder goes
      on capturing with the microphone held;
    - after the stop click, while the button reads "Processing..." and the
      recorder's stop task is still waiting, a click requests the microphone
      again; once granted a new capture runs, and when the stop task then
      uploads the first recording the session is recording and processing
      at once.

    What the guard does ensure: while [isProcessing] is set a click changes
    nothing, however often it is repeated; while [isRecording] is set (and
    [isProcessing] is not) a click runs [stopRecording], requests nothing
    and adds no capture.  The button of the React component does nothing
    while [isProcessing] and flips [isRecording] otherwise. *)
Theorem clicks_before_the_grant_run_two_captures :
  (exists w,
     run_in_order [click_voiceButton; click_voiceButton;
                   getUserMedia_fulfilled grant_ok;
                   getUserMedia_fulfilled grant_ok] init = Some w
     /\ status w = Recording
     /\ capturing w = 2
     /\ streams (host w) = [[Live]; [Live]]
     /\ recorders (host w)
        = [{| state := Capturing; stream := 0 |};
           {| state := Capturing; stream := 1 |}]
     /\ mediaRecorder (this w) = Some 1
     /\ forall es w', run es w = Some w' ->
          mediaRecorder (this w') <> Some 0
          /\ (exists rec', recorders (host w') !! 0 = Some rec'
                           /\ state rec' = Capturing)
          /\ 1 <= capturing w'
          /\ device_held w' = true)
  /\ (exists w w1 w2 w3,
        run_in_order [click_voiceButton; getUserMedia_fulfilled grant_ok;
                      click_voiceButton] init = Some w
        /\ voiceButton_text (dom w) = lit "Processing..."
        /\ voiceButton_processing (dom w) = true
        /\ stopTasks (host w) = [0]
        /\ step click_voiceButton w = Some w1
        /\ calls w1 = calls w ++ [getUserMedia]
        /\ gumPending (host w1) = 1
        /\ step (getUserMedia_fulfilled grant_ok) w1 = Some w2
        /\ capturing w2 = 1
        /\ stopTasks (host w2) = [0]
        /\ step (recorder_stop_task 0 [82; 73; 70; 70]%N) w2 = Some w3
        /\ isRecording (this w3) = true
        /\ isProcessing (this w3) = true
        /\ capturing w3 = 1
        /\ length (uploads (host w3)) = 1)
  /\ (forall w, isProcessing (this w) = true ->
        forall n, run (repeat click_voiceButton n) w = Some w)
  /\ (forall w, isProcessing (this w) = false -> isRecording (this w) = true ->
        run_task toggleRecording w = run_task stopRecording w
        /\ captures (run_task toggleRecording w) <= captures w
        /\ gumPending (host (run_task toggleRecording w)) = gumPending (host w)
        /\ calls (run_task toggleRecording w) = calls w)
  /\ (forall s,
        ReactVoiceInput.run_task ReactVoiceInput.toggleRecording s
        = if ReactVoiceInput.isProcessing s then s
          else ReactVoiceInput.setIsRecording
                 (negb (ReactVoiceInput.isRecording s)) s).
Proof.
  split; [|split; [|split; [|split]]].
  - eexists. split; [vm_compute; reflexivity|].
    do 5 (split; [vm_compute; reflexivity|]).
    apply (abandoned_holds_microphone 0).
    + refine (devices_ok_run
                [click_voiceButton; click_voiceButton;
                 getUserMedia_fulfilled grant_ok;
                 getUserMedia_fulfilled grant_ok] init _ devices_ok_init _).
      vm_compute. reflexivity.
    + split; [|vm_compute; discriminate].
      eexists. split; vm_compute; reflexivity.
  - do 4 eexists. split; [vm_compute; reflexivity|].
    do 3 (split; [vm_compute; reflexivity|]).
    split; [vm_compute; reflexivity|].
    do 2 (split; [vm_compute; reflexivity|]).
    split; [vm_compute; reflexivity|].
    do 2 (split; [vm_compute; reflexivity|]).
    split; [vm_compute; reflexivity|].
    vm_compute. repeat split; reflexivity.
  - intros w Hp n. apply run_repeat_fixed. cbn [step].
    unfold run_task, task. rewrite (toggleRecording_processing w Hp). reflexivity.
  - intros w Hp Hr.
    assert (E : run_task toggleRecording w = run_task stopRecording w).
    { unfold run_task, task. rewrite (toggleRecording_recording w Hp Hr). reflexivity. }
    rewrite E.
    destruct (stopRecording_frame w) as (H1 & _ & _ & H4 & _ & _ & H7).
    cbv zeta in *.
    split; [reflexivity|]. split; [unfold captures; lia|]. split; assumption.
  - exact react_toggleRecording.
Qed.

(** ** What is uploaded *)

Lemma chunks_fresh_view (w w' : World) :
  session_view w' = session_view w -> chunks_fresh w -> chunks_fresh w'.
Proof.
  unfold session_view, chunks_fresh. intros [= -> -> ->]. tauto.
Qed.

Lemma reachable_chunks_fresh (w : World) : reachable w -> chunks_fresh w.
Proof.
  intros Hreach. induction Hreach as [|e w w' Hreach IH Hord Hstep].
  - unfold chunks_fresh. cbn. repeat split; try lia; intros; congruence.
  - destruct IH as (H1 & H2 & H3).
    destruct e; cbn [step in_order] in Hstep, Hord.
    + (* click on the voice button *)
      injection Hstep as <-.
      destruct (stopTasks (host w)) as [|x l] eqn:Hst; [|discriminate].
      destruct w as [th d h c]. cbn in *. handlers. cbn.
      destruct (isProcessing th); cbn;
        [unfold chunks_fresh; cbn; rewrite Hst; cbn; auto|].
      destruct (isRecording th) eqn:Hrec; cbn.
      * destruct (mediaRecorder th) as [r|]; cbn;
          [|unfold chunks_fresh; cbn; rewrite Hst, Hrec; cbn; auto].
        destruct (recorders h !! r) as [[[] s]|]; cbn.
        1,4: unfold chunks_fresh; cbn; rewrite Hst, Hrec; cbn; auto.
        all: unfold chunks_fresh; cbn; rewrite Hst; cbn.
        all: repeat split; try lia; intros; apply H3; auto.
      * unfold chunks_fresh; cbn; rewrite Hst, Hrec; cbn; auto.
    + (* getUserMedia fulfilled *)
      destruct (gumPending (host w)); [discriminate|]. injection Hstep as <-.
      destruct (stopTasks (host w)) as [|x l] eqn:Hst; [|discriminate].
      destruct w as [th d h c]. cbn in *. handlers. cbn.
      destruct (throws g NewAudioContext); cbn;
        [unfold chunks_fresh; cbn; rewrite Hst; cbn; auto|].
      destruct (throws g CreateMediaStreamSource); cbn;
        [unfold chunks_fresh; cbn; rewrite Hst; cbn; auto|].
      destruct (throws g NewMediaRecorder); cbn;
        [unfold chunks_fresh; cbn; rewrite Hst; cbn; auto|].
      destruct (throws g RecorderStart); cbn;
        unfold chunks_fresh; cbn; rewrite Hst; cbn;
        repeat split; try lia; intros; congruence.
    + destruct (gumPending (host w)); [discriminate|]. injection Hstep as <-.
      refine (chunks_fresh_view w _ _ (conj H1 (conj H2 H3))).
      destruct w as [th d h c]. reflexivity.
    + (* the recorder's stop task *)
      destruct (stopTasks (host w) !! k) as [r|] eqn:Hk; [|discriminate].
      injection Hstep as <-.
      assert (Hne : stopTasks (host w) <> []).
      { intros E. rewrite E in Hk. discriminate. }
      assert (Hone : delete k (stopTasks (host w)) = []).
      { destruct (stopTasks (host w)) as [|a [|b l]]; cbn in *; try lia.
        - congruence.
        - destruct k; [reflexivity|discriminate]. }
      pose proof (H2 Hne) as Hrec.
      destruct w as [th d h c]. cbn in *. handlers. cbn.
      unfold chunks_fresh. cbn. rewrite Hone, Hrec. cbn.
      repeat split; try lia; try congruence. intros [E|E]; congruence.
    + destruct (uploads (host w) !! k); [|discriminate]. injection Hstep as <-.
      refine (chunks_fresh_view w _ _ (conj H1 (conj H2 H3))).
      destruct (processAudio_settled_resets r t1 t2
        (with_host (fun h => set_uploads (delete k (uploads h)) h) w))
        as (w1 & Hthis & Hhost & [E | [e E]]);
        rewrite E; unfold session_view; cbn; rewrite Hhost, Hthis;
        destruct w as [th d h c]; reflexivity.
    + injection Hstep as <-.
      refine (chunks_fresh_view w _ _ (conj H1 (conj H2 H3))).
      destruct w as [th d h c]. handlers. cbn.
      destruct (negb (negb (length (trim (promptInput d)) =? 0))); reflexivity.
    + destruct (prompts (host w) !! k) as [p|]; [|discriminate].
      injection Hstep as <-.
      refine (chunks_fresh_view w _ _ (conj H1 (conj H2 H3))).
      destruct w as [th d h c].
      destruct r as [v|e]; handlers.
      * destruct v; cbn; try reflexivity.
        destruct (ToBoolean (lookup_prop (lit "error") props)); reflexivity.
      * destruct e; reflexivity.
    + injection Hstep as <-.
      refine (chunks_fresh_view w _ _ (conj H1 (conj H2 H3))).
      destruct w as [th d h c]. reflexivity.
Qed.

(** The recorder's stop task while every event is in order. *)
Lemma stop_task_in_order (w : World) (k : nat) (data : Blob) (w' : World) :
  reachable w ->
  step (recorder_stop_task k data) w = Some w' ->
  uploads (host w')
  = [{| audio := data; filename := lit "recording.wav" |}]
  /\ calls w'
     = calls w ++ [api_processAudio {| audio := data; filename := lit "recording.wav" |}]
  /\ isProcessing (this w') = true
  /\ stopTasks (host w') = [].
Proof.
  intros Hreach Hstep.
  destruct (reachable_chunks_fresh w Hreach) as (H1 & H2 & H3).
  destruct (reachable_upload_guarded w Hreach) as (_ & G2 & G3).
  cbn [step] in Hstep.
  destruct (stopTasks (host w) !! k) as [r|] eqn:Hk; [|discriminate].
  injection Hstep as <-.
  assert (Hne : stopTasks (host w) <> []).
  { intros E. rewrite E in Hk. discriminate. }
  assert (Hone : delete k (stopTasks (host w)) = []).
  { destruct (stopTasks (host w)) as [|a [|b l]]; cbn in *; try lia.
    - congruence.
    - destruct k; [reflexivity|discriminate]. }
  assert (Hp : isProcessing (this w) = false).
  { destruct (isProcessing (this w)); [|reflexivity].
    destruct (G2 eq_refl) as [E _]. congruence. }
  pose proof (H3 (or_intror Hne)) as Hchunks.
  pose proof (G3 Hp) as Hup.
  destruct w as [th d h c]. cbn in *. handlers. cbn.
  rewrite Hchunks, Hup, Hone. cbn. rewrite app_nil_r.
  repeat split.
Qed.

(** X6. What the recorder's stop task uploads.  In every case it uploads,
    under the name "recording.wav", the chunks [this.audioChunks] holds
    followed by the data the recorder delivers.  On the proviso that each
    stop task runs before any later event (the worlds of [reachable]; the
    code does not enforce that order) the chunk list is empty then: the
    upload is exactly the data delivered, it is the one upload in flight and
    [isProcessing] is set.  Without the proviso it can fail: when a second
    capture is granted between the stop click and the stop task of the
    first, the data of the first recording stays in the chunk list, and the
    upload of the second recording is the first recording followed by the
    second. *)
Theorem upload_is_what_the_recorder_delivered :
  (forall (w : World) (k : nat) (data : Blob) (w' : World),
     step (recorder_stop_task k data) w = Some w' ->
     exists earlier,
       uploads (host w')
       = earlier ++ [{| audio := concat (audioChunks (this w) ++ [data]);
                        filename := lit "recording.wav" |}]
       /\ calls w'
          = calls w
            ++ [api_processAudio
                  {| audio := concat (audioChunks (this w) ++ [data]);
                     filename := lit "recording.wav" |}])
  /\ (forall (w : World) (k : nat) (data : Blob) (w' : World),
        reachable w ->
        step (recorder_stop_task k data) w = Some w' ->
        uploads (host w')
        = [{| audio := data; filename := lit "recording.wav" |}]
        /\ calls w'
           = calls w
             ++ [api_processAudio {| audio := data; filename := lit "recording.wav" |}]
        /\ isProcessing (this w') = true
        /\ stopTasks (host w') = [])
  /\ (exists w w',
        run second_capture_overtakes_stop_task init = Some w
        /\ run_in_order second_capture_overtakes_stop_task init = None
        /\ audioChunks (this w) = [[1]%N]
        /\ step (recorder_stop_task 0 [2]%N) w = Some w'
        /\ uploads (host w')
           = [{| audio := [1; 2]%N; filename := lit "recording.wav" |}]).
Proof.
  split; [|split].
  - intros w k data w' Hstep. cbn [step] in Hstep.
    destruct (stopTasks (host w) !! k) as [r|] eqn:Hk; [|discriminate].
    injection Hstep as <-.
    exists (uploads (host w)).
    destruct w as [th d h c]. split; reflexivity.
  - exact stop_task_in_order.
  - do 2 eexists. split; [vm_compute; reflexivity|].
    split; [vm_compute; reflexivity|].
    split; [vm_compute; reflexivity|].
    split; vm_compute; reflexivity.
Qed.

Lemma world_stopping_reachable : reachable world_stopping.
Proof.
  apply (reachable_run_in_order
           [click_voiceButton; getUserMedia_fulfilled grant_ok; click_voiceButton]
           init).
  - exact reachable_init.
  - vm_compute. reflexivity.
Qed.

(** ** The activity log over the whole event loop *)

Lemma entries_same_log (w1 w2 : World) :
  activityLog (dom w1) = activityLog (dom w2) -> entries w1 = entries w2.
Proof. unfold entries. intros ->. reflexivity. Qed.

Lemma entries_reset_ui (w : World) : entries (reset_ui w) = entries w.
Proof. apply entries_same_log. destruct w as [th d h c]. reflexivity. Qed.



Lemma log_set_promptInput (s : jsstring) (w : World) :
  activityLog (dom (with_dom (set_promptInput s) w)) = activityLog (dom w).
Proof. destruct w as [th d h c]. reflexivity. Qed.

Lemma log_set_responseContainer (s : jsstring) (w : World) :
  activityLog (dom (with_dom (set_responseContainer s) w)) = activityLog (dom w).
Proof. destruct w as [th d h c]. reflexivity. Qed.

(** The log after a call of [addActivityItem]. *)
Lemma log_addActivityItem (t d : jsstring) (w : World) :
  activityLog (dom (fst (addActivityItem t d w)))
  = remove_empty_state
      (ActivityItem t d (empty_state_elements (activity_item_markup t d))
       :: activityLog (dom w)).
Proof. rewrite addActivityItem_spec. reflexivity. Qed.

Lemma entries_of_items (l : list LogNode) :
  entries_of l = map fst (items_of l).
Proof.
  induction l as [|[|t d m] rest IH]; cbn; [reflexivity|exact IH|].
  f_equal. exact IH.
Qed.

Lemma worn_refl (l : list (jsstring * jsstring * nat)) : Forall2 worn l l.
Proof.
  induction l as [|x l IH]; constructor; [|exact IH].
  split; [reflexivity | lia].
Qed.

Lemma worn_trans (a b c : list (jsstring * jsstring * nat)) :
  Forall2 worn a b -> Forall2 worn b c -> Forall2 worn a c.
Proof.
  intros Hab. revert c. induction Hab as [|x y a b [H1 H2] Hab IH]; intros c Hbc.
  - inversion Hbc. constructor.
  - inversion Hbc as [|y' z b' c' [H3 H4] Hbc']; subst.
    constructor; [split; [congruence | lia]|]. apply IH, Hbc'.
Qed.

Lemma worn_entries (a b : list (jsstring * jsstring * nat)) :
  Forall2 worn a b -> map fst a = map fst b.
Proof.
  induction 1 as [|x y a b [H1 _] _ IH]; [reflexivity|].
  cbn. rewrite H1, IH. reflexivity.
Qed.

(** [querySelector('.empty-state')] followed by [remove()] takes no item
    away: it takes one element of the class out of an item, or the
    placeholder. *)
Lemma remove_empty_state_worn (l : list LogNode) :
  Forall2 worn (items_of l) (items_of (remove_empty_state l)).
Proof.
  induction l as [|[|t d [|m]] rest IH]; cbn.
  - constructor.
  - apply worn_refl.
  - constructor; [split; [reflexivity | lia] | exact IH].
  - constructor; [split; [reflexivity | cbn; lia] | apply worn_refl].
Qed.

Lemma grown_same (n : nat) (l : list LogNode) : grown n l l.
Proof.
  exists [], (items_of l). split; [reflexivity|]. split; [cbn; lia|].
  apply worn_refl.
Qed.

Lemma grown_item (t d : jsstring) (m : nat) (l : list LogNode) :
  grown 1 l (remove_empty_state (ActivityItem t d m :: l)).
Proof.
  pose proof (remove_empty_state_worn (ActivityItem t d m :: l)) as H.
  cbn [items_of omap item] in H. fold (items_of l) in H.
  inversion H as [|x y a b Hxy Hab Ea Eb]; subst.
  exists [y], b. split; [symmetry; assumption|]. split; [cbn; lia|]. exact Hab.
Qed.

Lemma grown_trans (a b : nat) (l l' l'' : list LogNode) :
  grown a l l' -> grown b l' l'' -> grown (b + a) l l''.
Proof.
  intros (n1 & k1 & E1 & L1 & W1) (n2 & k2 & E2 & L2 & W2).
  rewrite E1 in W2. apply Forall2_app_inv_l in W2 as (k2a & k2b & Wa & Wb & ->).
  exists (n2 ++ k2a), k2b.
  split; [rewrite E2, app_assoc; reflexivity|].
  split.
  - rewrite length_app. apply Forall2_length in Wa. lia.
  - exact (worn_trans _ _ _ W1 Wb).
Qed.

Lemma grown_more (a b : nat) (l l' : list LogNode) :
  a <= b -> grown a l l' -> grown b l l'.
Proof.
  intros Hab (new & kept & E & L & W). exists new, kept.
  split; [exact E|]. split; [lia | exact W].
Qed.

Lemma processAudio_settled_grown (r : settled) (t1 t2 : jsstring) (w : World) :
  grown 2 (activityLog (dom w))
    (activityLog (dom (run_task (processAudio_settled r t1 t2) w))).
Proof.
  assert (Hreset : forall w0, activityLog (dom (reset_ui w0)) = activityLog (dom w0))
    by (intros [th d h c]; reflexivity).
  assert (Hsame : forall w0 : World,
            activityLog (dom w0) = activityLog (dom w) ->
            grown 2 (activityLog (dom w)) (activityLog (dom w0)))
    by (intros w0 ->; apply grown_same).
  destruct r as [response|reason].
  - destruct (ToBoolean (and_field response "text")) eqn:Htext.
    + destruct (truthy_text_is_object response Htext) as (props & -> & Ef).
      rewrite Ef in Htext.
      rewrite (processAudio_settled_text props t1 t2 w Htext). cbv zeta.
      rewrite Hreset.
      destruct (ToBoolean (field "prompt_response" props)) eqn:Hpr.
      * destruct (truthy_has_properties _ Hpr) as [message Hm]. rewrite Hm.
        rewrite !log_addActivityItem, log_set_responseContainer,
          log_set_promptInput.
        exact (grown_trans 1 1 _ _ _ (grown_item _ _ _ _) (grown_item _ _ _ _)).
      * rewrite log_addActivityItem, log_set_promptInput.
        apply (grown_more 1 2); [lia|]. apply grown_item.
    + destruct (ToBoolean (and_field response "error")) eqn:Herr.
      * rewrite (processAudio_settled_error response t1 t2 w Htext Herr).
        apply Hsame. rewrite Hreset. destruct w as [th d h c]. reflexivity.
      * rewrite (processAudio_settled_neither response t1 t2 w Htext Herr).
        apply Hsame, Hreset.
  - apply Hsame.
    destruct (processAudio_settled_resets (Rejected reason) t1 t2 w)
      as (w1 & _ & _ & _).
    unfold processAudio_settled. monad. destruct w as [th d h c].
    destruct reason; reflexivity.
Qed.

(** The success branch of [sendPrompt], as the world it leaves. *)
Lemma sendPrompt_settled_success
    (prompt : jsstring) (response : value) (t1 t2 : jsstring) (w : World) :
  submission_failed (Fulfilled response) = false ->
  exists message,
    Get response "message" = Some message
    /\ run_task (sendPrompt_settled prompt (Fulfilled response) t1 t2) w
       = with_dom (set_promptInput [])
           (fst (addActivityItem t2 (lit "Agent: " ++ quoted (ToString message))
              (fst (addActivityItem t1 (lit "Prompt: " ++ quoted prompt)
                 (with_dom (set_responseContainer
                              (div_agent_response (ToString message))) w))))).
Proof.
  unfold submission_failed. intros Hok.
  destruct w as [th d h c]. handlers.
  destruct response as [| |b|s|props|b s]; cbn in *; try discriminate;
    try (eexists; split; reflexivity).
  rewrite Hok. eexists. split; reflexivity.
Qed.


(** Every other settlement of a submission leaves the log alone. *)
Lemma sendPrompt_settled_failure_log
    (prompt : jsstring) (r : settled) (t1 t2 : jsstring) (w : World) :
  submission_failed r = true ->
  activityLog (dom (run_task (sendPrompt_settled prompt r t1 t2) w))
  = activityLog (dom w).
Proof.
  unfold submission_failed. intros Hf.
  destruct w as [th d h c].
  destruct r as [v|e]; handlers.
  - destruct v; cbn in *; try reflexivity; try discriminate.
    rewrite Hf. reflexivity.
  - destruct e; reflexivity.
Qed.

Lemma sendPrompt_settled_grown
    (prompt : jsstring) (r : settled) (t1 t2 : jsstring) (w : World) :
  grown 2 (activityLog (dom w))
    (activityLog (dom (run_task (sendPrompt_settled prompt r t1 t2) w))).
Proof.
  destruct (submission_failed r) eqn:Hf.
  - rewrite (sendPrompt_settled_failure_log prompt r t1 t2 w Hf).
    apply grown_same.
  - destruct r as [response|reason]; [|discriminate].
    destruct (sendPrompt_settled_success prompt response t1 t2 w Hf)
      as (message & _ & E).
    rewrite E.
    rewrite log_set_promptInput, !log_addActivityItem,
      log_set_responseContainer.
    exact (grown_trans 1 1 _ _ _ (grown_item _ _ _ _) (grown_item _ _ _ _)).
Qed.

Lemma step_grown (e : Event) (w w' : World) :
  step e w = Some w' ->
  grown 2 (activityLog (dom w)) (activityLog (dom w')).
Proof.
  intros Hstep.
  assert (Hsame : activityLog (dom w') = activityLog (dom w) ->
                  grown 2 (activityLog (dom w)) (activityLog (dom w')))
    by (intros ->; apply grown_same).
  destruct e; cbn [step] in Hstep.
  - injection Hstep as <-. apply Hsame.
    destruct w as [th d h c]. handlers. cbn.
    destruct (isProcessing th); cbn; [reflexivity|].
    destruct (isRecording th); cbn; [|reflexivity].
    destruct (mediaRecorder th) as [r|]; cbn; [|reflexivity].
    destruct (recorders h !! r) as [[[] s]|]; reflexivity.
  - destruct (gumPending (host w)); [discriminate|]. injection Hstep as <-.
    apply Hsame. destruct w as [th d h c]. handlers. cbn.
    destruct (throws g NewAudioContext); cbn; [reflexivity|].
    destruct (throws g CreateMediaStreamSource); cbn; [reflexivity|].
    destruct (throws g NewMediaRecorder); cbn; [reflexivity|].
    destruct (throws g RecorderStart); reflexivity.
  - destruct (gumPending (host w)); [discriminate|]. injection Hstep as <-.
    apply Hsame. destruct w as [th d h c]. reflexivity.
  - destruct (stopTasks (host w) !! k); [|discriminate]. injection Hstep as <-.
    apply Hsame. destruct w as [th d h c]. reflexivity.
  - destruct (uploads (host w) !! k); [|discriminate]. injection Hstep as <-.
    exact (processAudio_settled_grown r t1 t2
             (with_host (fun h => set_uploads (delete k (uploads h)) h) w)).
  - injection Hstep as <-. apply Hsame.
    destruct w as [th d h c]. handlers. cbn.
    destruct (negb (negb (length (trim (promptInput d)) =? 0))); reflexivity.
  - destruct (prompts (host w) !! k) as [p|]; [|discriminate].
    injection Hstep as <-.
    exact (sendPrompt_settled_grown p r t1 t2
             (with_host (fun h => set_prompts (delete k (prompts h)) h) w)).
  - injection Hstep as <-. apply Hsame. destruct w as [th d h c]. reflexivity.
Qed.

(** X7. Over any sequence of events no item of the activity log is removed
    or reordered: the items it had are all there, in their order, below the
    new ones, each made from the time and the description it was made from,
    and an event adds at most two.  What a later call can do to an earlier
    item is take elements of class [empty-state] out of its markup; it
    never adds one.  So the
    entries, read as time and description, are the earlier entries below
    the new ones. *)
Theorem activity_log_only_grows (es : list Event) (w w' : World) :
  run es w = Some w' ->
  exists new kept,
    items w' = new ++ kept
    /\ length new <= 2 * length es
    /\ Forall2 worn (items w) kept
    /\ entries w' = map fst new ++ entries w.
Proof.
  intros Hrun.
  assert (H : grown (2 * length es) (activityLog (dom w)) (activityLog (dom w'))).
  { revert w Hrun. induction es as [|e es IH]; intros w; cbn [run].
    - intros [= <-]. apply grown_same.
    - destruct (step e w) as [w1|] eqn:Hstep; [|discriminate]. intros Hrun.
      apply (grown_more (2 * length es + 2)); [cbn [length]; lia|].
      exact (grown_trans _ _ _ _ _ (step_grown e w w1 Hstep) (IH w1 Hrun)). }
  destruct H as (new & kept & E & L & W).
  exists new, kept. unfold items.
  split; [exact E|]. split; [exact L|]. split; [exact W|].
  unfold entries. rewrite !entries_of_items, E, map_app, (worn_entries _ _ W).
  reflexivity.
Qed.

(** ** Requests to the backend *)

Ltac branches :=
  repeat match goal with
         | |- context [ if ?b then _ else _ ] => destruct b; cbn
         | |- context [ Get ?p ?k ] => destruct (Get p k) eqn:?; cbn
         end.

Ltac quiet := rewrite ?List.filter_app; cbn; rewrite ?app_nil_r; reflexivity.

Lemma processAudio_settled_network (r : settled) (t1 t2 : jsstring) (w : World) :
  network_calls (run_task (processAudio_settled r t1 t2) w) = network_calls w.
Proof.
  unfold network_calls, processAudio_settled, addActivityItem. monad.
  destruct w as [th d h cs].
  destruct r as [v|e].
  - destruct v; cbn; branches;
      rewrite ?List.filter_app; cbn; rewrite ?app_nil_r; reflexivity.
  - destruct e; cbn; rewrite ?List.filter_app; cbn; rewrite ?app_nil_r;
      reflexivity.
Qed.

Lemma sendPrompt_settled_network
    (prompt : jsstring) (r : settled) (t1 t2 : jsstring) (w : World) :
  network_calls (run_task (sendPrompt_settled prompt r t1 t2) w) = network_calls w.
Proof.
  unfold network_calls, sendPrompt_settled, addActivityItem. monad.
  destruct w as [th d h cs].
  destruct r as [v|e].
  - destruct v; cbn; branches;
      rewrite ?List.filter_app; cbn; rewrite ?app_nil_r; reflexivity.
  - destruct e; cbn; rewrite ?List.filter_app; cbn; rewrite ?app_nil_r;
      reflexivity.
Qed.

Lemma network_calls_snoc (c : Call) (w : World) :
  network_calls (call c w) = network_calls w ++ (if is_network c then [c] else []).
Proof.
  unfold network_calls. cbn. rewrite List.filter_app. cbn.
  destruct (is_network c); reflexivity.
Qed.

(** X8. The backend is called by two events only.  A submit action sends
    the trimmed prompt (nothing when it is empty), and the recorder's stop
    task uploads the recording.  No other event calls it: a reply, whether it
    succeeded or failed, triggers no retry, and a transcribed prompt is never
    submitted on its own. *)
Theorem only_submit_and_stop_task_call_backend (e : Event) (w w' : World) :
  step e w = Some w' ->
  network_calls w' = network_calls w ++ requests e w.
Proof.
  intros Hstep.
  destruct e; cbn [step requests] in *; rewrite ?app_nil_r.
  - injection Hstep as <-.
    destruct w as [th d h c]. handlers. unfold network_calls. cbn.
    destruct (isProcessing th); cbn; [reflexivity|].
    destruct (isRecording th); cbn.
    + destruct (mediaRecorder th) as [r|]; cbn; [|reflexivity].
      destruct (recorders h !! r) as [[[] s]|]; reflexivity.
    + rewrite List.filter_app. cbn. apply app_nil_r.
  - destruct (gumPending (host w)); [discriminate|]. injection Hstep as <-.
    destruct w as [th d h c]. handlers. unfold network_calls. cbn.
    destruct (throws g NewAudioContext); cbn;
      [quiet|].
    destruct (throws g CreateMediaStreamSource); cbn;
      [quiet|].
    destruct (throws g NewMediaRecorder); cbn;
      [quiet|].
    destruct (throws g RecorderStart); cbn;
      [quiet|reflexivity].
  - destruct (gumPending (host w)); [discriminate|]. injection Hstep as <-.
    destruct w as [th d h c]. unfold network_calls. cbn. quiet.
  - destruct (stopTasks (host w) !! k); [|discriminate]. injection Hstep as <-.
    destruct w as [th d h c]. unfold network_calls. cbn.
    rewrite List.filter_app. reflexivity.
  - destruct (uploads (host w) !! k); [|discriminate]. injection Hstep as <-.
    rewrite processAudio_settled_network. destruct w; reflexivity.
  - injection Hstep as <-.
    destruct (trim (promptInput (dom w))) as [|c p] eqn:Ht.
    + unfold run_task, task. rewrite (sendPrompt_blank w Ht). cbn [fst].
      rewrite app_nil_r. reflexivity.
    + unfold run_task, task. rewrite sendPrompt_nonblank by congruence.
      rewrite Ht. destruct w as [th d h cs]. unfold network_calls. cbn.
      rewrite List.filter_app. reflexivity.
  - destruct (prompts (host w) !! k); [|discriminate]. injection Hstep as <-.
    rewrite sendPrompt_settled_network. destruct w; reflexivity.
  - injection Hstep as <-. destruct w; reflexivity.
Qed.

(** ** A submission from the click to the reply *)

Lemma run_task_sendPrompt_nonblank (w : World) :
  trim (promptInput (dom w)) <> [] ->
  run_task sendPrompt w
  = with_host (fun h => set_prompts (prompts h ++ [trim (promptInput (dom w))]) h)
      (call (api_sendPrompt (trim (promptInput (dom w))))
         (with_dom (set_responseContainer div_loading) w)).
Proof.
  intros Hne. unfold run_task, task. rewrite (sendPrompt_nonblank w Hne).
  reflexivity.
Qed.


Lemma sendPrompt_settled_frame
    (prompt : jsstring) (r : settled) (t1 t2 : jsstring) (w : World) :
  this (run_task (sendPrompt_settled prompt r t1 t2) w) = this w
  /\ host (run_task (sendPrompt_settled prompt r t1 t2) w) = host w.
Proof.
  unfold sendPrompt_settled, addActivityItem. monad.
  destruct w as [th d h cs].
  destruct r as [v|e].
  - destruct v; cbn; branches; split; reflexivity.
  - destruct e; cbn; split; reflexivity.
Qed.


(** ** Replies that arrive out of order *)


(** ** The voice button and the session *)

Lemma processAudio_settled_button (r : settled) (t1 t2 : jsstring) (w : World) :
  voiceButton_recording (dom (run_task (processAudio_settled r t1 t2) w))
  = voiceButton_recording (dom w)
  /\ host (run_task (processAudio_settled r t1 t2) w) = host w.
Proof.
  unfold processAudio_settled, addActivityItem. monad.
  destruct w as [th d h cs].
  destruct r as [v|e].
  - destruct v; cbn; branches; split; reflexivity.
  - destruct e; cbn; split; reflexivity.
Qed.

Lemma sendPrompt_settled_button
    (prompt : jsstring) (r : settled) (t1 t2 : jsstring) (w : World) :
  voiceButton_recording (dom (run_task (sendPrompt_settled prompt r t1 t2) w))
  = voiceButton_recording (dom w)
  /\ voiceButton_processing (dom (run_task (sendPrompt_settled prompt r t1 t2) w))
     = voiceButton_processing (dom w).
Proof.
  unfold sendPrompt_settled, addActivityItem. monad.
  destruct w as [th d h cs].
  destruct r as [v|e].
  - destruct v; cbn; branches; split; reflexivity.
  - destruct e; cbn; split; reflexivity.
Qed.

(** The class [recording] follows [isRecording] through every event. *)
Lemma button_recording_step (e : Event) (w w' : World) :
  step e w = Some w' ->
  voiceButton_recording (dom w) = isRecording (this w) ->
  voiceButton_recording (dom w') = isRecording (this w').
Proof.
  intros Hstep H1.
  destruct e; cbn [step] in Hstep.
  - injection Hstep as <-.
    destruct w as [th d h c]. cbn in *. handlers. cbn.
    destruct (isProcessing th); cbn; [exact H1|].
    destruct (isRecording th) eqn:Hrec; cbn; [|congruence].
    destruct (mediaRecorder th) as [r|]; cbn; [|congruence].
    destruct (recorders h !! r) as [[[] s]|]; cbn;
      first [reflexivity | congruence].
  - destruct (gumPending (host w)); [discriminate|]. injection Hstep as <-.
    destruct w as [th d h c]. cbn in *. handlers. cbn.
    destruct (throws g NewAudioContext); cbn; [assumption|].
    destruct (throws g CreateMediaStreamSource); cbn; [assumption|].
    destruct (throws g NewMediaRecorder); cbn; [assumption|].
    destruct (throws g RecorderStart); cbn; [assumption|reflexivity].
  - destruct (gumPending (host w)); [discriminate|]. injection Hstep as <-.
    destruct w as [th d h c]. assumption.
  - destruct (stopTasks (host w) !! k) as [r|]; [|discriminate].
    injection Hstep as <-. destruct w as [th d h c]. assumption.
  - destruct (uploads (host w) !! k) as [fd|]; [|discriminate].
    injection Hstep as <-.
    match goal with
    | |- context [ run_task _ ?w1 ] =>
        destruct (processAudio_settled_idle r t1 t2 w1) as (_ & E2 & _);
        destruct (processAudio_settled_button r t1 t2 w1) as [Eb _]
    end.
    rewrite Eb, E2. destruct w as [th d h c]. assumption.
  - injection Hstep as <-.
    destruct (trim (promptInput (dom w))) as [|ch p] eqn:Ht.
    + unfold run_task, task. rewrite (sendPrompt_blank w Ht). assumption.
    + rewrite run_task_sendPrompt_nonblank by congruence.
      destruct w as [th d h c]. assumption.
  - destruct (prompts (host w) !! k) as [p|]; [|discriminate].
    injection Hstep as <-.
    match goal with
    | |- context [ run_task _ ?w1 ] =>
        destruct (sendPrompt_settled_frame p r t1 t2 w1) as [Ethis _];
        destruct (sendPrompt_settled_button p r t1 t2 w1) as [Eb1 _]
    end.
    rewrite Eb1, Ethis. destruct w as [th d h c]. assumption.
  - injection Hstep as <-. destruct w as [th d h c]. assumption.
Qed.

Lemma button_recording_run (es : list Event) (w w' : World) :
  run es w = Some w' ->
  voiceButton_recording (dom w) = isRecording (this w) ->
  voiceButton_recording (dom w') = isRecording (this w').
Proof.
  revert w. induction es as [|e es IH]; intros w; cbn [run].
  - intros [= <-] H. exact H.
  - destruct (step e w) as [w1|] eqn:Hstep; [|discriminate].
    intros Hrun H. exact (IH w1 Hrun (button_recording_step e w w1 Hstep H)).
Qed.

(** The classes of the button while every event is in order. *)
Lemma reachable_button_mirrors_session (w : World) :
  reachable w -> button_mirrors_session w.
Proof.
  intros Hreach. induction Hreach as [|e w w' Hreach IH Hord Hstep].
  - split; reflexivity.
  - pose proof (reachable_upload_guarded w Hreach) as (Hlen & Hproc & _).
    destruct IH as [H1 H2].
    destruct e; cbn [step in_order] in Hstep, Hord.
    + (* click on the voice button *)
      injection Hstep as <-.
      destruct (stopTasks (host w)) as [|x l] eqn:Hst; [|discriminate].
      destruct w as [th d h c]. cbn in *. handlers. cbn.
      destruct (isProcessing th) eqn:Hp; cbn;
        [split; cbn; [exact H1 | rewrite Hst, Hp; exact H2]|].
      destruct (isRecording th) eqn:Hrec; cbn.
      * destruct (mediaRecorder th) as [r|]; cbn;
          [|split; cbn; [rewrite Hrec; exact H1 | rewrite Hst, Hp; exact H2]].
        destruct (recorders h !! r) as [[[] s]|]; cbn.
        1,4: split; cbn; [rewrite Hrec; exact H1 | rewrite Hst, Hp; exact H2].
        all: split; cbn; [reflexivity | rewrite Hst; reflexivity].
      * split; cbn; [rewrite Hrec; exact H1 | rewrite Hst, Hp; exact H2].
    + (* getUserMedia fulfilled *)
      destruct (gumPending (host w)); [discriminate|]. injection Hstep as <-.
      destruct w as [th d h c]. cbn in *. handlers. cbn.
      destruct (throws g NewAudioContext); cbn; [split; assumption|].
      destruct (throws g CreateMediaStreamSource); cbn; [split; assumption|].
      destruct (throws g NewMediaRecorder); cbn; [split; assumption|].
      destruct (throws g RecorderStart); cbn; [split; assumption|].
      split; [reflexivity | exact H2].
    + (* getUserMedia rejected *)
      destruct (gumPending (host w)); [discriminate|]. injection Hstep as <-.
      destruct w as [th d h c]. split; assumption.
    + (* the recorder's stop task *)
      destruct (stopTasks (host w) !! k) as [r|] eqn:Hk; [|discriminate].
      injection Hstep as <-.
      destruct w as [th d h c]. cbn in *. handlers.
      unfold button_mirrors_session. cbn.
      destruct (stopTasks h) as [|a [|b l]]; cbn in *; try lia; [discriminate|].
      destruct k; [|discriminate].
      split; [exact H1 | exact H2].
    + (* the reply to an upload *)
      destruct (uploads (host w) !! k) as [fd|]; [|discriminate].
      injection Hstep as <-.
      destruct (stopTasks (host w)) as [|x l] eqn:Hst; [|discriminate].
      match goal with
      | |- button_mirrors_session (run_task _ ?w1) =>
          destruct (processAudio_settled_idle r t1 t2 w1) as (E1 & E2 & E3 & _);
          destruct (processAudio_settled_button r t1 t2 w1) as [Eb Ehost]
      end.
      split; [rewrite Eb, E2 | rewrite E3, E1, Ehost];
        destruct w as [th d h c]; cbn in *; [exact H1 | rewrite Hst; reflexivity].
    + (* submit *)
      injection Hstep as <-.
      destruct (trim (promptInput (dom w))) as [|ch p] eqn:Ht.
      * unfold run_task, task. rewrite (sendPrompt_blank w Ht). split; assumption.
      * rewrite run_task_sendPrompt_nonblank by congruence.
        destruct w as [th d h c]. split; assumption.
    + (* the reply to a submission *)
      destruct (prompts (host w) !! k) as [p|]; [|discriminate].
      injection Hstep as <-.
      match goal with
      | |- button_mirrors_session (run_task _ ?w1) =>
          destruct (sendPrompt_settled_frame p r t1 t2 w1) as [Ethis Ehost];
          destruct (sendPrompt_settled_button p r t1 t2 w1) as [Eb1 Eb2]
      end.
      split; [rewrite Eb1, Ethis | rewrite Eb2, Ethis, Ehost];
        destruct w as [th d h c]; assumption.
    + (* typing *)
      injection Hstep as <-. destruct w as [th d h c]. split; assumption.
Qed.


(** X12. The classes of the voice button and the session.  After every
    sequence of events the button has the class [recording] exactly when
    [isRecording] is set.  On the proviso that each stop task of a recorder
    runs before any later event (the worlds of [reachable]; the code does
    not enforce that order) the button has the class [processing] exactly
    when an upload is in progress or the recorder's stop task is waiting.
    Without the proviso that can fail: with two recordings uploaded at once,
    the reply to the first removes the class and resets [isProcessing] while
    the second upload is still in flight. *)
Theorem voice_button_mirrors_session :
  (forall (es : list Event) (w : World),
     run es init = Some w ->
     voiceButton_recording (dom w) = isRecording (this w))
  /\ (forall w : World, reachable w -> button_mirrors_session w)
  /\ (exists w,
        run reply_during_second_upload init = Some w
        /\ run_in_order reply_during_second_upload init = None
        /\ length (uploads (host w)) = 1
        /\ stopTasks (host w) = []
        /\ voiceButton_processing (dom w) = false
        /\ isProcessing (this w) = false).
Proof.
  split; [|split].
  - intros es w Hrun. exact (button_recording_run es init w Hrun eq_refl).
  - exact reachable_button_mirrors_session.
  - eexists. split; [vm_compute; reflexivity|].
    vm_compute. repeat split; reflexivity.
Qed.

(** ** A grant that arrives during an upload *)

(** X13. A grant that arrives while an upload is in flight starts a capture
    all the same, and the [finally] block of [processAudio] then resets the
    button and the visualizer without touching the capture: after the reply
    the page is recording, with a capturing recorder on a live stream, while
    the button reads "Speak" and the visualizer is hidden and empty. *)
Theorem grant_during_upload_records_behind_idle_button
    (w : World) (g : Grant) (k : nat) (r : settled) (t1 t2 : jsstring) :
  0 < gumPending (host w) ->
  k < length (uploads (host w)) ->
  no_throw g ->
  exists w',
    run [getUserMedia_fulfilled g; processAudio_reply k r t1 t2] w = Some w'
    /\ status w' = Recording
    /\ mediaRecorder (this w') = Some (length (recorders (host w)))
    /\ recorders (host w') !! length (recorders (host w))
       = Some {| state := Capturing; stream := length (streams (host w)) |}
    /\ streams (host w') !! length (streams (host w)) = Some [Live]
    /\ voiceButton_recording (dom w') = true
    /\ voiceButton_text (dom w') = lit "Speak"
    /\ visualizer_display (dom w') = DisplayNone
    /\ visualizer (dom w') = [].
Proof.
  intros Hgum Hk Hg. cbn [run step].
  destruct (gumPending (host w)) as [|n] eqn:Hn; [lia|].
  rewrite (startRecording_granted_no_throw g w Hg).
  cbn [host with_dom with_this with_host uploads set_recorders set_contexts
       set_streams set_gumPending].
  destruct (uploads (host w) !! k) as [fd|] eqn:Hfd;
    [|apply lookup_ge_None in Hfd; lia].
  eexists. split; [reflexivity|].
  match goal with
  | |- context [ run_task (processAudio_settled r t1 t2) ?w0 ] =>
      destruct (processAudio_settled_idle r t1 t2 w0) as (E1 & E2 & _ & E4 & E5 & E6);
      destruct (processAudio_settled_button r t1 t2 w0) as [Eb Ehost];
      destruct (processAudio_settled_resets r t1 t2 w0)
        as (w1 & Hthis & _ & Hw1)
  end.
  split; [unfold status; rewrite E1, E2; reflexivity|].
  split.
  { destruct Hw1 as [E | [e E]]; rewrite E; cbn; rewrite Hthis; reflexivity. }
  rewrite Ehost, Eb, E4, E5, E6. cbn.
  split; [apply list_lookup_middle; reflexivity|].
  split; [apply list_lookup_middle; reflexivity|].
  repeat split; reflexivity.
Qed.

(** ** A voice command from the first click to the reply *)

Lemma click_when_idle (w : World) :
  status w = Idle ->
  run_task toggleRecording w
  = with_host (fun h => set_gumPending (S (gumPending h)) h) (call getUserMedia w).
Proof.
  unfold status. intros Hs.
  destruct (isProcessing (this w)) eqn:Hp; [discriminate|].
  destruct (isRecording (this w)) eqn:Hr; [discriminate|].
  unfold run_task, task. rewrite (toggleRecording_idle w Hp Hr).
  reflexivity.
Qed.

Lemma click_when_recording (w : World) (r s : nat) :
  isProcessing (this w) = false ->
  isRecording (this w) = true ->
  mediaRecorder (this w) = Some r ->
  recorders (host w) !! r = Some {| state := Capturing; stream := s |} ->
  run_task toggleRecording w
  = with_host (fun h => set_streams (alter (map (fun _ => Ended)) s (streams h)) h)
      (with_dom (fun d =>
         set_voiceButton_text (lit "Processing...")
           (set_voiceButton_processing true (set_voiceButton_recording false d)))
         (with_this (set_isRecording false)
            (with_host (fun h =>
               set_stopTasks (stopTasks h ++ [r])
                 (set_recorders (alter (set_state Inactive) r (recorders h)) h))
               w))).
Proof.
  intros Hp Hr Hmr Hrec.
  unfold run_task, task. rewrite (toggleRecording_recording w Hp Hr).
  destruct w as [th d h c]. cbn [this host] in Hmr, Hrec.
  unfold stopRecording, MediaRecorder_stop, stop_tracks. monad.
  cbn beta iota delta [this host mediaRecorder]. rewrite Hmr.
  cbn beta iota delta [this host mediaRecorder]. rewrite Hrec.
  reflexivity.
Qed.

Lemma recorder_stop_task_uploads (w : World) (data : Blob) :
  run_task onstop (run_task (ondataavailable data) w)
  = with_host (fun h =>
      set_uploads
        (uploads h ++ [{| audio := concat (audioChunks (this w) ++ [data]);
                          filename := lit "recording.wav" |}]) h)
      (call (api_processAudio
               {| audio := concat (audioChunks (this w) ++ [data]);
                  filename := lit "recording.wav" |})
         (with_this (fun v =>
            set_isProcessing true (set_audioChunks (audioChunks v ++ [data]) v)) w)).
Proof. destruct w as [th d h c]. reflexivity. Qed.

Lemma run_reaches {A} (x : option A) (a : A) (P : A -> Prop) :
  x = Some a -> P a -> exists w', x = Some w' /\ P w'.
Proof. intros E H. exists a. split; assumption. Qed.

(** Worlds built by nested updates, as records. *)
Ltac flatten_world :=
  cbv [with_host with_dom with_this call this dom host calls
       set_isRecording set_isProcessing set_audioContext set_mediaRecorder
       set_audioChunks isRecording isProcessing audioContext mediaRecorder
       audioChunks
       set_promptInput set_responseContainer set_activityLog
       set_voiceButton_recording set_voiceButton_processing
       set_voiceButton_text set_visualizer_display set_visualizer
       promptInput responseContainer activityLog voiceButton_recording
       voiceButton_processing voiceButton_text visualizer_display visualizer
       set_streams set_recorders set_contexts set_gumPending set_stopTasks
       set_uploads set_prompts streams recorders contexts gumPending stopTasks
       uploads prompts].

(** X14. A whole voice command on an idle page: click, grant, click, the
    recorder's data, the reply.  Whatever the reply is, the page is idle
    again with the button and the visualizer reset; the stream that was
    granted has its track ended and the recorder is inactive, so the
    microphone is held by nothing that was not holding it before; and the
    one request made to the backend is the upload of the recorded data. *)
Theorem voice_command_round_trip
    (w : World) (g : Grant) (data : Blob) (r : settled) (t1 t2 : jsstring) :
  status w = Idle ->
  stopTasks (host w) = [] ->
  uploads (host w) = [] ->
  no_throw g ->
  exists w',
    run [click_voiceButton; getUserMedia_fulfilled g; click_voiceButton;
         recorder_stop_task 0 data; processAudio_reply 0 r t1 t2] w = Some w'
    /\ status w' = Idle
    /\ streams (host w') = streams (host w) ++ [[Ended]]
    /\ recorders (host w')
       = recorders (host w)
         ++ [{| state := Inactive; stream := length (streams (host w)) |}]
    /\ device_held w' = device_held w
    /\ capturing w' = capturing w
    /\ gumPending (host w') = gumPending (host w)
    /\ stopTasks (host w') = []
    /\ uploads (host w') = []
    /\ network_calls w'
       = network_calls w
         ++ [api_processAudio {| audio := data; filename := lit "recording.wav" |}]
    /\ voiceButton_recording (dom w') = false
    /\ voiceButton_processing (dom w') = false
    /\ voiceButton_text (dom w') = lit "Speak"
    /\ visualizer_display (dom w') = DisplayNone
    /\ visualizer (dom w') = [].
Proof.
  intros Hidle Hstop Hup Hg.
  assert (Hp : isProcessing (this w) = false).
  { unfold status in Hidle. destruct (isProcessing (this w)); [discriminate|reflexivity]. }
  cbn [run step].
  rewrite (click_when_idle w Hidle).
  cbn [host with_host call gumPending set_gumPending].
  rewrite (startRecording_granted_no_throw g _ Hg).
  match goal with
  | |- context [ run_task toggleRecording ?w2 ] =>
      rewrite (click_when_recording w2 (length (recorders (host w)))
                 (length (streams (host w))))
  end.
  2: destruct w as [th d h c]; exact Hp.
  2: reflexivity.
  2: destruct w as [th d h c]; reflexivity.
  2: destruct w as [th d h c]; cbn; apply list_lookup_middle; reflexivity.
  destruct w as [[rec proc ctx mr chunks] [pin rc log brec bproc btxt vd vis]
                   [strs recs ctxs gum stops ups prs] c].
  cbn in Hp, Hstop, Hup. subst proc stops ups.
  eapply run_reaches.
  { flatten_world. rewrite !alter_snoc. cbn [app lookup list_lookup].
    rewrite recorder_stop_task_uploads.
    flatten_world. cbn [app lookup list_lookup delete list_delete concat].
    rewrite app_nil_r. reflexivity. }
  match goal with
  | |- context [ run_task (processAudio_settled r t1 t2) ?w0 ] =>
      destruct (processAudio_settled_idle r t1 t2 w0) as (E1 & E2 & E3 & E4 & E5 & E6);
      destruct (processAudio_settled_button r t1 t2 w0) as [Eb Ehost];
      pose proof (processAudio_settled_network r t1 t2 w0) as Enet
  end.
  split; [unfold status; rewrite E1, E2; reflexivity|].
  unfold device_held, capturing. rewrite !Ehost, Enet, Eb, E3, E4, E5, E6.
  unfold network_calls. flatten_world.
  split; [reflexivity|]. split; [reflexivity|].
  split; [rewrite existsb_app; cbn; apply orb_false_r|].
  split; [rewrite List.filter_app, length_app; cbn; lia|].
  split; [reflexivity|]. split; [reflexivity|]. split; [reflexivity|].
  split; [rewrite !List.filter_app; cbn; rewrite app_nil_r; reflexivity|].
  repeat split; reflexivity.
Qed.

(** ** The React component *)

(** X15. The React component, from [onStop] to the settlement of the upload:
    the blob is kept in [audioBlob] and uploaded once as "recording.wav";
    [onTranscription] is called exactly when the reply has a truthy [text]; a
    rejected upload is logged twice (by [processAudio], which rethrows, and
    by [onStop]) and goes no further, there is no unhandled rejection; and
    [isProcessing] is false at the end on every path. *)
Theorem react_recording_is_uploaded_once_and_never_escapes
    (blob : ReactVoiceInput.Blob) (r : settled) (s : ReactVoiceInput.State) :
  let s' := ReactVoiceInput.run_task (ReactVoiceInput.onStop_settled r)
              (ReactVoiceInput.run_task (ReactVoiceInput.onStop blob) s) in
  ReactVoiceInput.audioBlob s' = Some blob
  /\ ReactVoiceInput.isProcessing s' = false
  /\ ReactVoiceInput.isRecording s' = ReactVoiceInput.isRecording s
  /\ ReactVoiceInput.uploads s' = ReactVoiceInput.uploads s
  /\ ReactVoiceInput.calls s'
     = ReactVoiceInput.calls s
       ++ ReactVoiceInput.api_processAudio blob (lit "recording.wav")
       :: match r with
          | Fulfilled response =>
              if ToBoolean (and_field response "text") then
                [ReactVoiceInput.onTranscription (and_field response "text")]
              else if ToBoolean (and_field response "error") then
                [ReactVoiceInput.console_error (lit "Speech recognition error:")
                   (and_field response "error")]
              else []
          | Rejected error =>
              [ReactVoiceInput.console_error
                 (lit "Error sending audio to backend:") error;
               ReactVoiceInput.console_error (lit "Error processing audio:") error]
          end.
Proof.
  cbv zeta. destruct s as [rec proc ab up cs].
  unfold ReactVoiceInput.run_task, ReactVoiceInput.onStop_settled,
    ReactVoiceInput.onStop, ReactVoiceInput.processAudio_settled, and_field.
  unfold task, try_catch, finally, bind, await, get, and_get, ret, throw, modify, gets.
  destruct r as [v|e].
  - destruct v as [| |b|str|props|b str]; cbn.
    1,2: repeat split; rewrite <- app_assoc; reflexivity.
    + destruct b; cbn; repeat split; rewrite <- app_assoc; reflexivity.
    + destruct (negb (length str =? 0)) eqn:E; cbn; rewrite ?E; cbn;
        repeat split; rewrite <- app_assoc; reflexivity.
    + destruct (ToBoolean (lookup_prop (lit "text") props)); cbn;
        [repeat split; rewrite <- app_assoc; reflexivity|].
      destruct (ToBoolean (lookup_prop (lit "error") props)); cbn;
        repeat split; rewrite <- app_assoc; reflexivity.
    + destruct b; cbn; repeat split; rewrite <- app_assoc; reflexivity.
  - cbn. repeat split. rewrite <- !app_assoc. reflexivity.
Qed.

(** ** Sampling for the visualizer of the React component *)

(** With a positive step the loop ends after [m] pushes, [m] being the
    number of indices [i], [i + s], ... below the length. *)
Lemma sampling_spec {sample : Type} (abs : sample -> sample)
    (audioData : list sample) (s : nat) :
  0 < s ->
  forall (m room i : nat) (acc : list sample),
    m <= room ->
    length audioData <= i + m * s ->
    (forall j, j < m -> i + j * s < length audioData) ->
    exists new,
      ReactVisualizer.sampling abs room audioData s i acc = Normal (acc ++ new)
      /\ length new = m
      /\ forall j, j < m -> new !! j = abs <$> audioData !! (i + j * s).
Proof.
  intros Hs. induction m as [|m IH]; intros room i acc Hroom Hend Hin.
  - assert (E : audioData !! i = None) by (apply lookup_ge_None; lia).
    exists []. rewrite app_nil_r. split.
    + destruct room; cbn [ReactVisualizer.sampling]; rewrite E; reflexivity.
    + split; [reflexivity|]. intros j Hj. lia.
  - destruct room as [|room]; [lia|]. cbn [ReactVisualizer.sampling].
    destruct (audioData !! i) as [x|] eqn:Hx.
    2:{ apply lookup_ge_None in Hx. specialize (Hin 0). lia. }
    destruct (IH room (i + s) (acc ++ [abs x])) as (new & E & Hlen & Hnew).
    + lia.
    + lia.
    + intros j Hj. specialize (Hin (S j)). lia.
    + exists (abs x :: new). rewrite E, <- app_assoc.
      split; [reflexivity|]. split; [cbn; lia|].
      intros [|j] Hj; cbn.
      * rewrite Nat.add_0_r, Hx. reflexivity.
      * rewrite Hnew by lia. f_equal. f_equal. lia.
Qed.

(** With the step 0 the index stays 0: each turn of the loop pushes the
    first sample again. *)
Lemma sampling_stuck_pushes {sample : Type} (abs : sample -> sample)
    (x : sample) (rest : list sample) (k room : nat) (acc : list sample) :
  ReactVisualizer.sampling abs (k + room) (x :: rest) 0 0 acc
  = ReactVisualizer.sampling abs room (x :: rest) 0 0 (acc ++ repeat (abs x) k).
Proof.
  revert acc. induction k as [|k IH]; intros acc.
  - cbn [repeat Nat.add]. rewrite app_nil_r. reflexivity.
  - cbn [Nat.add ReactVisualizer.sampling lookup list_lookup repeat].
    rewrite IH, <- app_assoc. reflexivity.
Qed.

(** ... until the array cannot grow. *)
Lemma sampling_stuck {sample : Type} (abs : sample -> sample)
    (audioData : list sample) :
  audioData <> [] ->
  forall (room : nat) (acc : list sample),
    ReactVisualizer.sampling abs room audioData 0 0 acc
    = Throw ReactVisualizer.RangeError.
Proof.
  intros Hne. destruct audioData as [|x rest]; [congruence|].
  induction room as [|room IH]; intros acc; [reflexivity|].
  cbn. apply IH.
Qed.

(** X16. [onData] on a buffer of at least 50 samples, the host letting an
    array have 99 elements: the loop ends, and [visualizerData] becomes
    between 50 and 99 values, the [j]-th being the absolute value of the
    sample at index [j * floor(length / 50)]. *)
Theorem onData_keeps_50_to_99_samples
    {sample : Type} (abs : sample -> sample) (maxLength : nat)
    (audioData visualizerData : list sample) :
  50 <= length audioData ->
  99 <= maxLength ->
  exists sampledData,
    ReactVisualizer.onData abs maxLength audioData visualizerData
    = Normal sampledData
    /\ 50 <= length sampledData <= 99
    /\ forall j, j < length sampledData ->
         sampledData !! j
         = abs <$> audioData !! (j * Nat.div (length audioData) 50).
Proof.
  intros Hlen Hroom. unfold ReactVisualizer.onData.
  destruct (0 <? length audioData) eqn:Hpos; [|apply Nat.ltb_ge in Hpos; lia].
  cbv zeta.
  set (n := length audioData) in *. set (s := Nat.div n 50).
  assert (Hs1 : 50 * s <= n) by (apply Nat.Div0.mul_div_le).
  assert (Hs2 : n < 50 * (s + 1)).
  { pose proof (Nat.div_mod_eq n 50). pose proof (Nat.mod_upper_bound n 50).
    fold s in H. lia. }
  assert (Hs : 0 < s) by lia.
  set (m := Nat.div (n + s - 1) s).
  assert (Hm1 : n <= m * s).
  { pose proof (Nat.div_mod_eq (n + s - 1) s).
    pose proof (Nat.mod_upper_bound (n + s - 1) s). fold m in H. nia. }
  assert (Hm2 : (m - 1) * s < n).
  { pose proof (Nat.div_mod_eq (n + s - 1) s). fold m in H. nia. }
  assert (Hm50 : 50 <= m) by nia.
  assert (Hm99 : m <= 99) by nia.
  destruct (sampling_spec abs audioData s Hs m maxLength 0 []) as (new & E & Hnew & Hj).
  - lia.
  - fold n. lia.
  - intros j Hjm. fold n. nia.
  - exists new. split; [exact E|]. split; [lia|].
    intros j Hjn. rewrite Hj by lia. reflexivity.
Qed.

(** X17. [onData] on a buffer of 1 to 49 samples never returns:
    [sampleRate] is [floor(length / 50) = 0], the index never advances and
    every turn of the loop pushes the first sample again, so whatever length
    the host lets an array have, the loop ends when [push] goes beyond it,
    with a [RangeError] that leaves [onData] before [setVisualizerData] is
    called. *)
Theorem onData_short_buffer_never_returns
    {sample : Type} (abs : sample -> sample) (maxLength : nat)
    (audioData visualizerData : list sample) :
  0 < length audioData < 50 ->
  ReactVisualizer.onData abs maxLength audioData visualizerData
  = Throw ReactVisualizer.RangeError
  /\ Nat.div (length audioData) 50 = 0
  /\ forall x rest k room acc,
       audioData = x :: rest ->
       ReactVisualizer.sampling abs (k + room) audioData 0 0 acc
       = ReactVisualizer.sampling abs room audioData 0 0
           (acc ++ repeat (abs x) k).
Proof.
  intros [Hpos Hlt]. split; [|split].
  - unfold ReactVisualizer.onData.
    apply Nat.ltb_lt in Hpos as Hpos'. rewrite Hpos'. cbv zeta.
    rewrite Nat.div_small by exact Hlt.
    apply sampling_stuck. intros ->. cbn in Hpos. lia.
  - apply Nat.div_small. exact Hlt.
  - intros x rest k room acc ->. apply sampling_stuck_pushes.
Qed.

(** An empty buffer leaves the bars as they are. *)
Lemma onData_empty {sample : Type} (abs : sample -> sample) (maxLength : nat)
    (visualizerData : list sample) :
  ReactVisualizer.onData abs maxLength [] visualizerData = Normal visualizerData.
Proof. reflexivity. Qed.

(** ** The main process *)

Lemma key_eqb_refl (k : jsstring) : key_eqb k k = true.
Proof.
  induction k as [|c k IH]; [reflexivity|].
  cbn. rewrite N.eqb_refl. exact IH.
Qed.

Lemma read_write (path : jsstring) (data : Main.Buffer) (l : list (jsstring * Main.Buffer)) :
  Main.read path (Main.write path data l) = Some data.
Proof.
  induction l as [|[p d] rest IH]; cbn.
  - rewrite key_eqb_refl. reflexivity.
  - destruct (key_eqb path p) eqn:E; cbn.
    + rewrite key_eqb_refl. reflexivity.
    + rewrite E. exact IH.
Qed.

Lemma unlink_write (path : jsstring) (data : Main.Buffer) (l : list (jsstring * Main.Buffer)) :
  Main.read path l = None -> Main.unlink path (Main.write path data l) = l.
Proof.
  induction l as [|[p d] rest IH]; cbn.
  - intros _. rewrite key_eqb_refl. reflexivity.
  - destruct (key_eqb path p) eqn:E; [discriminate|].
    intros Hr. cbn. rewrite E, (IH Hr). reflexivity.
Qed.

(** The handlers of the three channels complete normally whatever the
    backend does: the promise of [ipcRenderer.invoke] is never rejected by
    them. *)
Lemma get_calendars_settled_returns (r : settled) (p : Main.Process) :
  exists p' v, Main.get_calendars_settled r p = (p', Normal v).
Proof.
  unfold Main.get_calendars_settled. monad.
  destruct r as [response|e]; [|eauto].
  destruct (Get response "data"); eauto.
Qed.

Lemma send_prompt_settled_returns (r : settled) (p : Main.Process) :
  exists p' v, Main.send_prompt_settled r p = (p', Normal v).
Proof.
  unfold Main.send_prompt_settled. monad.
  destruct r as [response|e]; [|eauto].
  destruct (Get response "data"); eauto.
Qed.

Lemma process_audio_settled_returns (path : jsstring) (r : settled) (p : Main.Process) :
  exists p' v, Main.process_audio_settled path r p = (p', Normal v).
Proof.
  unfold Main.process_audio_settled, Main.process_audio_catch, Main.unlinkSync. monad.
  destruct r as [response|e]; [|eauto].
  destruct (Main.read path (Main.files p)); [|eauto].
  destruct (Get response "data"); eauto.
Qed.

Lemma process_audio_returns
    (path : jsstring) (arrived : Main.Buffer + value) (refused : option value)
    (p : Main.Process) :
  exists p' v, Main.process_audio path arrived refused p = (p', Normal v).
Proof.
  unfold Main.process_audio, Main.process_audio_catch, Main.writeFileSync. monad.
  destruct arrived as [audio|e]; [|eauto].
  destruct refused as [e|]; eauto.
Qed.

(** X18. The handlers of [get-calendars], [send-prompt] and
    [process-audio] complete normally whatever the backend answers, whatever
    reading the form or writing the file throws: every exception ends in the
    catch block, so the promise the renderer awaits is never rejected by
    them. *)
Theorem ipc_handlers_never_reject
    (r : settled) (path : jsstring) (arrived : Main.Buffer + value)
    (refused : option value) (p : Main.Process) :
  (exists p' v, Main.get_calendars_settled r p = (p', Normal v))
  /\ (exists p' v, Main.send_prompt_settled r p = (p', Normal v))
  /\ (exists p' v, Main.process_audio path arrived refused p = (p', Normal v))
  /\ (exists p' v, Main.process_audio_settled path r p = (p', Normal v)).
Proof.
  split; [apply get_calendars_settled_returns|].
  split; [apply send_prompt_settled_returns|].
  split; [apply process_audio_returns | apply process_audio_settled_returns].
Qed.

(** X19. A prompt across the two processes when the request to the backend
    fails: the handler of [send-prompt] logs the error and answers
    [{ error: 'Failed to process prompt' }]; the page then shows
    "Error: Failed to process prompt", logs nothing and keeps the draft in
    the input. *)
Theorem backend_failure_is_shown_and_keeps_the_draft
    (e : value) (p : Main.Process) (w : World) (t1 t2 : jsstring) :
  trim (promptInput (dom w)) <> [] ->
  exists p' reply w',
    Main.send_prompt_settled (Rejected e) p = (p', Normal reply)
    /\ Main.calls p'
       = Main.calls p ++ [Main.console_error (lit "Error processing prompt:") e]
    /\ run [click_sendPromptBtn;
            sendPrompt_reply (length (prompts (host w))) (Fulfilled reply) t1 t2] w
       = Some w'
    /\ responseContainer (dom w') = p_error (lit "Error: Failed to process prompt")
    /\ promptInput (dom w') = promptInput (dom w)
    /\ entries w' = entries w
    /\ calls w' = calls w ++ [api_sendPrompt (trim (promptInput (dom w)))]
    /\ prompts (host w') = prompts (host w).
Proof.
  intros Hne.
  exists (Main.call (Main.console_error (lit "Error processing prompt:") e) p),
    (Main.failure "Failed to process prompt").
  cbn [run step].
  rewrite (run_task_sendPrompt_nonblank w Hne).
  cbn [host with_host call with_dom prompts set_prompts].
  rewrite list_lookup_middle by reflexivity.
  eexists. split; [reflexivity|]. split; [reflexivity|]. split; [reflexivity|].
  assert (Hf : submission_failed (Fulfilled (Main.failure "Failed to process prompt")) = true)
    by reflexivity.
  match goal with
  | |- context [ run_task (sendPrompt_settled ?pr ?r _ _) ?w0 ] =>
      destruct (sendPrompt_settled_frame pr r t1 t2 w0) as [Ethis Ehost];
      pose proof (sendPrompt_settled_promptInput pr r t1 t2 w0) as Ein;
      pose proof (sendPrompt_settled_failure_log pr r t1 t2 w0 Hf) as Elog;
      assert (Eshown : responseContainer (dom (run_task (sendPrompt_settled pr r t1 t2) w0))
                       = p_error (lit "Error: Failed to process prompt")
                       /\ calls (run_task (sendPrompt_settled pr r t1 t2) w0) = calls w0)
        by (destruct w as [th d h cs]; split; reflexivity)
  end.
  destruct Eshown as [Eshown Ecalls].
  split; [exact Eshown|].
  split; [rewrite Ein, Hf; reflexivity|].
  split; [apply entries_same_log; rewrite Elog; reflexivity|].
  split; [rewrite Ecalls; reflexivity|].
  rewrite Ehost. cbn. rewrite delete_middle. apply app_nil_r.
Qed.

(** What the renderer makes of the reply to a failed speech request. *)
Lemma failed_speech_request_on_the_page (t1 t2 : jsstring) (w : World) :
  let w' := run_task (processAudio_settled
                        (Fulfilled (Main.failure "Failed to process audio")) t1 t2) w in
  responseContainer (dom w') = p_error (lit "Error: Failed to process audio")
  /\ isProcessing (this w') = false
  /\ promptInput (dom w') = promptInput (dom w)
  /\ entries w' = entries w.
Proof.
  cbv zeta.
  rewrite (processAudio_settled_error (Main.failure "Failed to process audio") t1 t2 w)
    by reflexivity.
  destruct w as [th d h cs]. repeat split; reflexivity.
Qed.

(** X20. The handler of [process-audio] writes the audio to a temporary
    file before it posts it.  When the request succeeds the file is removed
    and the temporary directory is as before.  When the request fails the
    handler answers [{ error: 'Failed to process audio' }] and the file stays
    on disk with the audio in it: [fs.unlinkSync] is on the success path
    only.  The page shows "Error: Failed to process audio" and returns to
    idle. *)
Theorem failed_speech_request_leaves_its_temp_file
    (tempFilePath : jsstring) (audio : Main.Buffer) (r : settled) (p : Main.Process) :
  Main.read tempFilePath (Main.files p) = None ->
  exists p1 p2 reply,
    Main.process_audio tempFilePath (inl audio) None p = (p1, Normal None)
    /\ Main.read tempFilePath (Main.files p1) = Some audio
    /\ Main.process_audio_settled tempFilePath r p1 = (p2, Normal reply)
    /\ match r with
       | Rejected e =>
           reply = Main.failure "Failed to process audio"
           /\ Main.read tempFilePath (Main.files p2) = Some audio
           /\ Main.files p2 = Main.files p1
           /\ Main.calls p2
              = Main.calls p
                ++ [Main.axios_post_audio (Main.backendUrl ++ lit "/speech-to-text")
                      tempFilePath;
                    Main.console_error (lit "Error processing audio:") e]
           /\ forall (t1 t2 : jsstring) (w : World),
                let w' := run_task (processAudio_settled (Fulfilled reply) t1 t2) w in
                responseContainer (dom w')
                = p_error (lit "Error: Failed to process audio")
                /\ isProcessing (this w') = false
                /\ promptInput (dom w') = promptInput (dom w)
                /\ entries w' = entries w
       | Fulfilled response =>
           Main.files p2 = Main.files p
           /\ match Get response "data" with
              | Some data =>
                  reply = data
                  /\ Main.calls p2
                     = Main.calls p
                       ++ [Main.axios_post_audio (Main.backendUrl ++ lit "/speech-to-text")
                             tempFilePath]
              | None => reply = Main.failure "Failed to process audio"
              end
       end.
Proof.
  intros Hfresh. destruct p as [q win fs cs]. cbn in Hfresh.
  exists (Main.call
            (Main.axios_post_audio (Main.backendUrl ++ lit "/speech-to-text")
               tempFilePath)
            (Main.set_files (Main.write tempFilePath audio fs)
               {| Main.isQuitting := q; Main.mainWindow := win;
                  Main.files := fs; Main.calls := cs |})).
  unfold Main.process_audio, Main.process_audio_settled,
    Main.process_audio_catch, Main.writeFileSync, Main.unlinkSync.
  monad. cbn.
  destruct r as [response|e]; cbn.
  - rewrite read_write. cbn. rewrite (unlink_write _ _ _ Hfresh).
    destruct (Get response "data") as [data|]; cbn.
    + eexists. eexists. split; [reflexivity|].
      split; [reflexivity|]. split; [reflexivity|].
      split; [reflexivity|]. split; reflexivity.
    + eexists. eexists. split; [reflexivity|].
      split; [reflexivity|]. split; [reflexivity|].
      split; reflexivity.
  - eexists. eexists. split; [reflexivity|].
    split; [apply read_write|]. split; [reflexivity|].
    split; [reflexivity|]. split; [apply read_write|].
    split; [reflexivity|].
    split; [cbn; rewrite <- app_assoc; reflexivity|].
    intros t1 t2 w. exact (failed_speech_request_on_the_page t1 t2 w).
Qed.

(** A gesture other than Quit leaves a window that is there. *)
Lemma gesture_keeps_window (x : Main.Gesture) (p : Main.Process) :
  Main.is_quit x = false ->
  Main.isQuitting p = false ->
  Main.mainWindow p <> Main.Destroyed ->
  exists win,
    Main.gesture x p = (Main.set_mainWindow win p, Normal tt)
    /\ win <> Main.Destroyed
    /\ (x = Main.CloseWindow -> win = Main.Hidden).
Proof.
  intros Hx Hq Hwin. destruct p as [q win fs cs]. cbn in Hq, Hwin. subst q.
  destruct x; try discriminate Hx;
    unfold Main.gesture, Main.close_window, Main.on_close, Main.tray_click,
      Main.menu_open, Main.show, Main.hide; monad; cbn;
    destruct win; try congruence; cbn;
    eexists; (split; [reflexivity|]); split; congruence.
Qed.

(** X21. Until Quit is chosen from the tray menu, no sequence of requests
    to close the window, clicks on the tray icon and uses of the Open entry
    destroys the window or throws: [isQuitting] stays false, a request to
    close only hides the window, and Quit then closes it. *)
Theorem window_is_only_hidden_until_quit
    (l : list Main.Gesture) (p0 : Main.Process) :
  Main.isQuitting p0 = false ->
  Main.mainWindow p0 <> Main.Destroyed ->
  forallb (fun x => negb (Main.is_quit x)) l = true ->
  exists p,
    Main.gestures l p0 = (p, Normal tt)
    /\ Main.isQuitting p = false
    /\ Main.mainWindow p <> Main.Destroyed
    /\ Main.files p = Main.files p0
    /\ Main.calls p = Main.calls p0
    /\ Main.close_window p = (Main.set_mainWindow Main.Hidden p, Normal tt)
    /\ Main.menu_quit p
       = (Main.set_mainWindow Main.Destroyed (Main.set_isQuitting true p),
          Normal tt).
Proof.
  revert p0. induction l as [|x l IH]; intros p0 Hq Hwin Hl.
  - exists p0. split; [reflexivity|]. split; [exact Hq|]. split; [exact Hwin|].
    split; [reflexivity|]. split; [reflexivity|].
    destruct p0 as [q win fs cs]. cbn in Hq, Hwin. subst q.
    unfold Main.close_window, Main.on_close, Main.hide, Main.menu_quit,
      Main.app_quit, Main.before_quit. monad. cbn.
    destruct win; try congruence; split; reflexivity.
  - cbn [forallb] in Hl. apply andb_true_iff in Hl as [Hx Hl].
    apply negb_true_iff in Hx.
    destruct (gesture_keeps_window x p0 Hx Hq Hwin) as (win & E & Hw & _).
    destruct (IH (Main.set_mainWindow win p0) Hq Hw Hl)
      as (p & Erun & H1 & H2 & H3 & H4 & H5 & H6).
    exists p. cbn [Main.gestures]. unfold bind at 1. rewrite E.
    split; [exact Erun|]. split; [exact H1|]. split; [exact H2|].
    split; [exact H3|]. split; [exact H4|]. split; [exact H5 | exact H6].
Qed.

End Properties.

(** * Scenarios

    The properties on concrete runs of the page, with [scenario_html] for
    the parser. *)

#[local] Existing Instance scenario_html.

(** ** Two sessions from start to finish *)

(** Start a capture, stop it, and the backend returns only a text: the input
    field holds the text, the log gained one entry with it, and the session
    is idle with the microphone released. *)
Example capture_then_text :
  exists w,
    run_in_order
      [click_voiceButton; getUserMedia_fulfilled grant_ok; click_voiceButton;
       recorder_stop_task 0 [82; 73; 70; 70]%N;
       processAudio_reply 0 (Fulfilled (reply_text "move meeting to Friday"))
         (lit "9:41:07 AM") (lit "9:41:07 AM")] init = Some w
    /\ promptInput (dom w) = lit "move meeting to Friday"
    /\ entries w
       = [(lit "9:41:07 AM",
           lit "Transcribed: " ++ quoted (lit "move meeting to Friday"))]
    /\ status w = Idle
    /\ voiceButton_text (dom w) = lit "Speak"
    /\ device_held w = false
    /\ uploads (host w) = [].
Proof.
  eexists. split; [vm_compute; reflexivity|].
  vm_compute. repeat split; reflexivity.
Qed.

(** The same with a reply that reports an error: the error is shown, the
    log is still empty and the session is idle. *)
Example capture_then_error :
  exists w,
    run_in_order
      [click_voiceButton; getUserMedia_fulfilled grant_ok; click_voiceButton;
       recorder_stop_task 0 [82; 73; 70; 70]%N;
       processAudio_reply 0 (Fulfilled (reply_error "unintelligible audio"))
         (lit "9:41:07 AM") (lit "9:41:07 AM")] init = Some w
    /\ responseContainer (dom w)
       = p_error (lit "Error: unintelligible audio")
    /\ entries w = []
    /\ promptInput (dom w) = []
    /\ status w = Idle
    /\ device_held w = false.
Proof.
  eexists. split; [vm_compute; reflexivity|].
  vm_compute. repeat split; reflexivity.
Qed.

Lemma one_upload_but_many_submissions_witness :
  reachable world_processing
  /\ length (uploads (host world_processing)) <= 1
  /\ (forall n, run (repeat click_voiceButton n) world_processing
                = Some world_processing).
Proof.
  pose proof (one_upload_but_many_submissions world_processing
                world_processing_reachable) as (H1 & _ & H3 & _).
  split; [exact world_processing_reachable|]. split; [exact H1|].
  apply H3. vm_compute. reflexivity.
Defined.

(** C3 as the specification words it fails on the code: the user types a
    prompt and submits twice before any reply.  Both submissions are in
    flight at once, each with its own request. *)
Lemma second_submit_while_first_in_flight :
  exists w,
    run_in_order [input_promptInput (lit "move lunch to 1pm");
                  click_sendPromptBtn; click_sendPromptBtn] init = Some w
    /\ run [input_promptInput (lit "move lunch to 1pm");
            click_sendPromptBtn; click_sendPromptBtn] init = Some w
    /\ prompts (host w) = [lit "move lunch to 1pm"; lit "move lunch to 1pm"]
    /\ network_calls w
       = [api_sendPrompt (lit "move lunch to 1pm");
          api_sendPrompt (lit "move lunch to 1pm")].
Proof.
  eexists. split; [vm_compute; reflexivity|].
  vm_compute. repeat split; reflexivity.
Qed.



(** C9 on a run of the page: the user submits a prompt that is markup, two
    paragraphs of class [empty-state], and the agent answers "Done".  The
    call that logs the prompt removes the first paragraph from the item it
    has just made and leaves the placeholder of the log in place.  The call
    that logs the answer then removes the second paragraph from the item of
    the prompt, an entry that existed before the call, and the placeholder
    is still there. *)
Lemma addActivityItem_can_alter_an_entry_witness :
  activityLog
    (dom (run_task (addActivityItem (lit "10:00:00 AM")
                      (lit "Prompt: " ++ quoted two_empty_states)) init))
  = [ActivityItem (lit "10:00:00 AM")
       (lit "Prompt: " ++ quoted two_empty_states) 1;
     EmptyState]
  /\ activityLog
       (dom (run_task (addActivityItem (lit "10:00:01 AM") (lit "Agent: " ++ quoted (lit "Done")))
               (run_task (addActivityItem (lit "10:00:00 AM")
                            (lit "Prompt: " ++ quoted two_empty_states)) init)))
     = [ActivityItem (lit "10:00:01 AM") (lit "Agent: " ++ quoted (lit "Done")) 0;
        ActivityItem (lit "10:00:00 AM")
          (lit "Prompt: " ++ quoted two_empty_states) 0;
        EmptyState]
  /\ exists w,
       run [input_promptInput two_empty_states; click_sendPromptBtn;
            sendPrompt_reply 0
              (Fulfilled (Obj (Field (lit "message") (Str (lit "Done")) NoField)))
              (lit "10:00:00 AM") (lit "10:00:01 AM")] init = Some w
       /\ activityLog (dom w)
          = [ActivityItem (lit "10:00:01 AM") (lit "Agent: " ++ quoted (lit "Done")) 0;
             ActivityItem (lit "10:00:00 AM")
               (lit "Prompt: " ++ quoted two_empty_states) 0;
             EmptyState].
Proof.
  assert (H1 : activityLog
                 (dom (run_task (addActivityItem (lit "10:00:00 AM")
                                   (lit "Prompt: " ++ quoted two_empty_states)) init))
               = [ActivityItem (lit "10:00:00 AM")
                    (lit "Prompt: " ++ quoted two_empty_states) 1;
                  EmptyState])
    by (vm_compute; reflexivity).
  split; [exact H1|]. split.
  - pose proof (addActivityItem_can_alter_an_entry
                  (lit "10:00:01 AM") (lit "Agent: " ++ quoted (lit "Done")) []
                  (run_task (addActivityItem (lit "10:00:00 AM")
                               (lit "Prompt: " ++ quoted two_empty_states)) init))
      as H.
    cbv zeta in H. destruct H as (_ & _ & _ & _ & _ & _ & _ & _ & H).
    exact (proj1 (H _ _ _ _ ltac:(vm_compute; reflexivity) H1)).
  - eexists. split; vm_compute; reflexivity.
Defined.


Lemma sendPrompt_rejects_blank_input_witness :
  (step click_sendPromptBtn init = Some init)
  /\ (let w := with_dom (set_promptInput (lit "   ")) init in
      step click_sendPromptBtn w = Some w).
Proof.
  split.
  - apply (sendPrompt_rejects_blank_input init). reflexivity.
  - apply (sendPrompt_rejects_blank_input
             (with_dom (set_promptInput (lit "   ")) init)). reflexivity.
Defined.

Lemma stopRecording_idle_is_noop_witness :
  run_task stopRecording init = init
  /\ run_task stopRecording world_processing = world_processing.
Proof.
  split.
  - exact (proj1 (stopRecording_idle_is_noop init eq_refl)).
  - exact (proj1 (stopRecording_idle_is_noop world_processing eq_refl)).
Defined.



Lemma stopRecording_releases_microphone_witness :
  isRecording (this (run_task stopRecording world_recording)) = false
  /\ recorders (host (run_task stopRecording world_recording)) !! 0
     = Some {| state := Inactive; stream := 0 |}.
Proof.
  pose proof (stopRecording_releases_microphone world_recording 0
                {| state := Capturing; stream := 0 |} [Live]
                eq_refl eq_refl ltac:(discriminate) eq_refl) as (H1 & H2 & _).
  split; [exact H1 | exact H2].
Defined.

Lemma denied_start_leaves_page_as_it_was_witness :
  exists w',
    run [click_voiceButton;
         getUserMedia_rejected (Error (lit "Permission denied"))] init = Some w'
    /\ this w' = this init /\ dom w' = dom init /\ host w' = host init.
Proof.
  destruct (denied_start_leaves_page_as_it_was init
              (Error (lit "Permission denied")) eq_refl)
    as (w' & E & H1 & H2 & H3 & _).
  exists w'. split; [exact E|]. split; [exact H1|]. split; [exact H2 | exact H3].
Defined.

Lemma granted_start_begins_capture_witness :
  no_throw grant_ok
  /\ isRecording (this world_recording) = true
  /\ streams (host world_recording) = [[Live]].
Proof.
  assert (Hg : no_throw grant_ok) by (intros op; reflexivity).
  pose proof (granted_start_begins_capture grant_ok
                (run_task toggleRecording init) Hg) as (H1 & _ & _ & H4 & _).
  split; [exact Hg|]. split; [exact H1 | exact H4].
Defined.

Lemma throw_after_grant_holds_microphone_for_good_witness :
  devices_ok init
  /\ device_held (run_task (startRecording_granted grant_start_refused) init) = true.
Proof.
  assert (Hthrow : exists op, throws grant_start_refused op <> None)
    by (exists RecorderStart; discriminate).
  pose proof (throw_after_grant_holds_microphone_for_good grant_start_refused
                init [] (run_task (startRecording_granted grant_start_refused) init)
                devices_ok_init Hthrow eq_refl) as (H1 & _).
  split; [exact devices_ok_init | exact H1].
Defined.

Lemma grant_during_capture_abandons_recorder_witness :
  run [click_voiceButton; click_voiceButton; getUserMedia_fulfilled grant_ok] init
  = Some world_recording_asked_twice
  /\ mediaRecorder (this world_recording_asked_twice) = Some 0
  /\ mediaRecorder
       (this (run_task (startRecording_granted grant_ok)
                world_recording_asked_twice)) <> Some 0
  /\ device_held (run_task (startRecording_granted grant_ok)
                    world_recording_asked_twice) = true.
Proof.
  assert (Hrun : run [click_voiceButton; click_voiceButton;
                      getUserMedia_fulfilled grant_ok] init
                 = Some world_recording_asked_twice) by (vm_compute; reflexivity).
  pose proof (grant_during_capture_abandons_recorder
                [click_voiceButton; click_voiceButton;
                 getUserMedia_fulfilled grant_ok]
                world_recording_asked_twice 0
                {| state := Capturing; stream := 0 |} grant_ok []
                (run_task (startRecording_granted grant_ok)
                   world_recording_asked_twice)
                Hrun eq_refl eq_refl eq_refl (fun op => eq_refl) eq_refl)
    as (H1 & _ & H3 & _).
  split; [exact Hrun|]. split; [reflexivity|]. split; [exact H1 | exact H3].
Defined.

Lemma upload_is_what_the_recorder_delivered_witness :
  reachable world_stopping
  /\ step (recorder_stop_task 0 [82; 73; 70; 70]%N) world_stopping
     = Some world_processing
  /\ uploads (host world_processing)
     = [{| audio := [82; 73; 70; 70]%N; filename := lit "recording.wav" |}].
Proof.
  assert (Hstep : step (recorder_stop_task 0 [82; 73; 70; 70]%N) world_stopping
                  = Some world_processing) by (vm_compute; reflexivity).
  pose proof (proj1 (proj2 upload_is_what_the_recorder_delivered)
                world_stopping 0 [82; 73; 70; 70]%N world_processing
                world_stopping_reachable Hstep) as (H1 & _).
  split; [exact world_stopping_reachable|]. split; [exact Hstep | exact H1].
Defined.

Lemma activity_log_only_grows_witness :
  exists w' new kept,
    run [click_sendPromptBtn;
         sendPrompt_reply 0
           (Fulfilled (Obj (Field (lit "message") (Str (lit "Done")) NoField)))
           (lit "10:00:00 AM") (lit "10:00:01 AM")]
      (world_typed "reschedule lunch") = Some w'
    /\ items w' = new ++ kept
    /\ length new <= 4
    /\ Forall2 worn (items (world_typed "reschedule lunch")) kept
    /\ entries w' = map fst new ++ entries (world_typed "reschedule lunch").
Proof.
  eexists.
  destruct (activity_log_only_grows
              [click_sendPromptBtn;
               sendPrompt_reply 0
                 (Fulfilled (Obj (Field (lit "message") (Str (lit "Done")) NoField)))
                 (lit "10:00:00 AM") (lit "10:00:01 AM")]
              (world_typed "reschedule lunch") _
              ltac:(vm_compute; reflexivity)) as (new & kept & E & Hlen & Hw & He).
  exists new, kept. split; [vm_compute; reflexivity|].
  split; [exact E|]. split; [exact Hlen|]. split; [exact Hw | exact He].
Defined.

Lemma only_submit_and_stop_task_call_backend_witness :
  network_calls (run_task sendPrompt (world_typed "reschedule lunch"))
  = network_calls (world_typed "reschedule lunch")
    ++ [api_sendPrompt (lit "reschedule lunch")].
Proof.
  apply (only_submit_and_stop_task_call_backend click_sendPromptBtn
           (world_typed "reschedule lunch")
           (run_task sendPrompt (world_typed "reschedule lunch"))).
  reflexivity.
Defined.




Lemma voice_button_mirrors_session_witness :
  reachable world_processing /\ button_mirrors_session world_processing.
Proof.
  split; [exact world_processing_reachable|].
  apply (proj1 (proj2 voice_button_mirrors_session) world_processing).
  exact world_processing_reachable.
Defined.

Lemma grant_during_upload_records_behind_idle_button_witness :
  exists w',
    run [getUserMedia_fulfilled grant_ok;
         processAudio_reply 0 (Fulfilled (reply_text "lunch at noon")) [] []]
      world_processing_asked_twice = Some w'
    /\ status w' = Recording
    /\ voiceButton_text (dom w') = lit "Speak".
Proof.
  destruct (grant_during_upload_records_behind_idle_button
              world_processing_asked_twice grant_ok 0
              (Fulfilled (reply_text "lunch at noon")) [] []
              ltac:(vm_compute; lia) ltac:(vm_compute; lia) (fun op => eq_refl))
    as (w' & E & H1 & _ & _ & _ & _ & H6 & _).
  exists w'. split; [exact E|]. split; [exact H1 | exact H6].
Defined.

Lemma voice_command_round_trip_witness :
  exists w',
    run [click_voiceButton; getUserMedia_fulfilled grant_ok; click_voiceButton;
         recorder_stop_task 0 [82; 73; 70; 70]%N;
         processAudio_reply 0 (Fulfilled (reply_text "lunch at noon"))
           (lit "9:41:07 AM") (lit "9:41:07 AM")] init = Some w'
    /\ status w' = Idle
    /\ device_held w' = false.
Proof.
  destruct (voice_command_round_trip init grant_ok [82; 73; 70; 70]%N
              (Fulfilled (reply_text "lunch at noon"))
              (lit "9:41:07 AM") (lit "9:41:07 AM")
              eq_refl eq_refl eq_refl (fun op => eq_refl))
    as (w' & E & H1 & _ & _ & H4 & _).
  exists w'. split; [exact E|]. split; [exact H1 | exact H4].
Defined.

Lemma onData_keeps_50_to_99_samples_witness :
  exists sampledData,
    ReactVisualizer.onData (fun x : N => x) 1000 (repeat 7%N 120) []
    = Normal sampledData
    /\ 50 <= length sampledData <= 99.
Proof.
  destruct (onData_keeps_50_to_99_samples (fun x : N => x) 1000 (repeat 7%N 120) []
              ltac:(vm_compute; lia) ltac:(lia))
    as (sampledData & E & Hlen & _).
  exists sampledData. split; [exact E | exact Hlen].
Defined.

Lemma onData_short_buffer_never_returns_witness :
  ReactVisualizer.onData (fun x : N => x) 1000 (repeat 7%N 49) []
  = Throw ReactVisualizer.RangeError.
Proof.
  apply (onData_short_buffer_never_returns (fun x : N => x) 1000 (repeat 7%N 49) []).
  vm_compute. lia.
Defined.

Lemma backend_failure_is_shown_and_keeps_the_draft_witness :
  exists w',
    run [click_sendPromptBtn;
         sendPrompt_reply 0 (Fulfilled (Main.failure "Failed to process prompt"))
           [] []] (world_typed "reschedule lunch") = Some w'
    /\ responseContainer (dom w') = p_error (lit "Error: Failed to process prompt")
    /\ promptInput (dom w') = lit "reschedule lunch".
Proof.
  destruct (backend_failure_is_shown_and_keeps_the_draft
              (Error (lit "connect ECONNREFUSED 127.0.0.1:5000")) Main.ready
              (world_typed "reschedule lunch") [] []
              ltac:(vm_compute; discriminate))
    as (p' & reply & w' & Ereply & _ & E & H1 & H2 & _).
  injection Ereply as _ <-.
  exists w'. split; [exact E|]. split; [exact H1 | exact H2].
Defined.

Lemma failed_speech_request_leaves_its_temp_file_witness :
  exists p1 p2 reply,
    Main.process_audio (lit "/tmp/recording-1700000000000.wav")
      (inl [82; 73; 70; 70]%N) None Main.ready = (p1, Normal None)
    /\ Main.process_audio_settled (lit "/tmp/recording-1700000000000.wav")
         (Rejected (Error (lit "connect ECONNREFUSED 127.0.0.1:5000"))) p1
       = (p2, Normal reply)
    /\ Main.read (lit "/tmp/recording-1700000000000.wav") (Main.files p2)
       = Some [82; 73; 70; 70]%N.
Proof.
  destruct (failed_speech_request_leaves_its_temp_file
              (lit "/tmp/recording-1700000000000.wav") [82; 73; 70; 70]%N
              (Rejected (Error (lit "connect ECONNREFUSED 127.0.0.1:5000")))
              Main.ready eq_refl)
    as (p1 & p2 & reply & E1 & _ & E2 & _ & H & _).
  exists p1, p2, reply. split; [exact E1|]. split; [exact E2 | exact H].
Defined.

Lemma window_is_only_hidden_until_quit_witness :
  exists p,
    Main.gestures [Main.CloseWindow; Main.TrayClick; Main.CloseWindow] Main.ready
    = (p, Normal tt)
    /\ Main.mainWindow p <> Main.Destroyed.
Proof.
  destruct (window_is_only_hidden_until_quit
              [Main.CloseWindow; Main.TrayClick; Main.CloseWindow] Main.ready
              eq_refl ltac:(discriminate) eq_refl)
    as (p & E & _ & H & _).
  exists p. split; [exact E | exact H].
Defined.

